(** * Authentication, authorization and product CRUD of the FastAPI backend

  A shallow embedding of [src/users/utils/password.py],
  [src/users/services.py], [src/users/dependencies/permissions.py],
  [src/users/routes.py], [src/product/services.py] and
  [src/product/api/crud.py].

  Python exceptions are values of [exn]; a coroutine of the source is a
  function from the state of the world (the two Mongo collections, the
  clock, the outcome of the next driver calls) to an outcome and a new
  world.  The state survives a [raise]: a write that reached the
  collection before a later statement raised is still there. *)

From Stdlib Require Import ZArith NArith String Ascii List Bool Lia.
From stdpp Require Import base option list strings gmap pretty.

Local Open Scope string_scope.
Local Open Scope Z_scope.

(** ** Python exceptions *)

Module Py.

(** The exception classes the source raises, catches or lets through. *)
Inductive exn : Type :=
| HTTPException (status_code : Z) (detail : string) (www_authenticate : bool)
| ExpiredSignatureError            (* jwt: the exp claim is in the past *)
| InvalidTokenError (why : string) (* jwt: every other token failure *)
| PyMongoError (why : string)      (* pymongo: the driver or the server failed *)
| InvalidId                        (* bson.errors.InvalidId *)
| ValueError (why : string)
| ValidationError (why : string)   (* pydantic: a subclass of ValueError *)
| UnknownHashError                 (* passlib: a subclass of ValueError *)
| TypeError (why : string)
| Exception_ (why : string).       (* a bare Exception(...) *)

(** The classes that appear in an [except] clause of the source. *)
Inductive cls : Type :=
| CException | CHTTPException | CExpiredSignatureError | CInvalidTokenError
| CPyMongoError | CInvalidId | CValueError | CValidationError.

(** [isinstance e c], following the class hierarchy of the libraries:
    ExpiredSignatureError is an InvalidTokenError, ValidationError and
    UnknownHashError are ValueErrors, InvalidId is a BSONError (not a
    ValueError), and everything here is an Exception. *)
Definition isinstance (e : exn) (c : cls) : bool :=
  match c, e with
  | CException, _ => true
  | CHTTPException, HTTPException _ _ _ => true
  | CExpiredSignatureError, ExpiredSignatureError => true
  | CInvalidTokenError, (ExpiredSignatureError | InvalidTokenError _) => true
  | CPyMongoError, PyMongoError _ => true
  | CInvalidId, InvalidId => true
  | CValueError, (ValueError _ | ValidationError _ | UnknownHashError) => true
  | CValidationError, ValidationError _ => true
  | _, _ => false
  end.

Definition isinstance_any (e : exn) (cs : list cls) : bool :=
  existsb (isinstance e) cs.

(** [str(e)], as the f-strings of the services print it. *)
Definition str (e : exn) : string :=
  match e with
  | HTTPException s d _ => pretty s ++ ": " ++ d
  | ExpiredSignatureError => "Signature has expired"
  | InvalidTokenError w | PyMongoError w | ValueError w
  | ValidationError w | TypeError w | Exception_ w => w
  | InvalidId => "not a valid ObjectId"
  | UnknownHashError => "hash could not be identified"
  end.

(** What a call gives back: a value or a raised exception. *)
Inductive outcome (A : Type) : Type :=
| Ret (a : A)
| Raise (e : exn).
Arguments Ret {A} a.
Arguments Raise {A} e.

Definition raises {A} (o : outcome A) : bool :=
  match o with Ret _ => false | Raise _ => true end.

(** Status codes of [fastapi.status]. *)
Definition HTTP_401_UNAUTHORIZED : Z := 401.

End Py.
Export Py.

(** ** Values of documents and of token claims *)

(** What a JSON body, a BSON document or a JWT payload can hold in this
  program.  Numbers with a fraction are carried in hundredths, the scale
  of [condecimal(decimal_places=2)]; [VDecimal] is Python's [Decimal],
  [VFloat] what [float(...)] makes of it.  [VTime] is a [datetime], by
  its whole seconds since the epoch: the digits below the second, which
  [utcnow] gives to the microsecond and the store keeps to the
  millisecond, are not carried.  [VOid] is a [bson.ObjectId], by the
  lower-case hexadecimal digits of its bytes. *)
Inductive Value : Type :=
| VNull
| VBool (b : bool)
| VInt (n : Z)
| VFloat (hundredths : Z)
| VDecimal (hundredths : Z)
| VStr (s : string)
| VTime (t : Z)
| VOid (hex : string).

Global Instance Value_eq_dec : EqDecision Value.
Proof. solve_decision. Defined.

(** Python truthiness, as [if not user_id] uses it. *)
Definition truthy (v : Value) : bool :=
match v with
| VNull => false
| VBool b => b
| VInt n | VFloat n | VDecimal n => negb (n =? 0)
| VStr s => negb (String.eqb s "")
| VTime _ | VOid _ => true
end.

(** A document or a dict with string keys. *)
Abbreviation Doc := (gmap string Value).

(** ** bson.ObjectId *)

Module ObjectId.

Definition is_hex_digit (c : ascii) : bool :=
  let n := N_of_ascii c in
  ((48 <=? n) && (n <=? 57) || (65 <=? n) && (n <=? 70)
   || (97 <=? n) && (n <=? 102))%N.

Definition lower (c : ascii) : ascii :=
  let n := N_of_ascii c in
  if ((65 <=? n) && (n <=? 90))%N then ascii_of_N (n + 32) else c.

(** ASCII white space: tab, line feed, vertical tab, form feed, carriage
    return and space. *)
Definition is_space (c : ascii) : bool :=
  let n := N_of_ascii c in ((9 <=? n) && (n <=? 13) || (n =? 32))%N.

(** [bytes.fromhex(s)], the bytes spelt by their lower-case digits, two
    per byte.  White space is skipped before a byte; the two digits of a
    byte stand next to each other; anything else is refused. *)
Fixpoint fromhex (s : string) : option string :=
  match s with
  | EmptyString => Some EmptyString
  | String c s' =>
      if is_space c then fromhex s'
      else
        match s' with
        | String d s'' =>
            if is_hex_digit c && is_hex_digit d
            then
              match fromhex s'' with
              | Some rest => Some (String (lower c) (String (lower d) rest))
              | None => None
              end
            else None
        | EmptyString => None
        end
  end.

(** [ObjectId.is_valid(s)] on a str: [ObjectId(s)] does not raise, which
    asks for 24 characters that [bytes.fromhex] reads.  Twenty-four
    hexadecimal digits are the usual case; a string with white space
    between bytes passes too and spells fewer than twelve bytes. *)
Definition is_valid_str (s : string) : bool :=
  (String.length s =? 24)%nat
  && match fromhex s with Some _ => true | None => false end.

(** [ObjectId.is_valid(v)] on any value: a falsy value, or one that is
    neither a str nor an ObjectId, is not valid. *)
Definition is_valid (v : Value) : bool :=
  match v with
  | VStr s => is_valid_str s
  | VOid _ => true
  | _ => false
  end.

(** The bytes [ObjectId(s)] holds, by their digits: what [str] of the
    identifier prints and what the store compares. *)
Definition binary (s : string) : string :=
  match fromhex s with Some digits => digits | None => EmptyString end.

(** [ObjectId(s)]: raises InvalidId unless [s] is valid; the identifier
    is the bytes the digits spell, so the case of the digits and the
    white space are lost. *)
Definition make (s : string) : outcome string :=
  if is_valid_str s then Ret (binary s) else Raise InvalidId.

End ObjectId.

(** ** passlib: [CryptContext(schemes=["bcrypt"], deprecated="auto")]

    The hashing library is not part of the repository.  [CryptContext] is
    its interface as [password.py] uses it, and the statements about the
    source hold for every instance of it.  [bcrypt_context] is one
    instance, used to run the model on examples: it follows the bcrypt
    handler of the library over an arbitrary digest function [raw] (the
    Blowfish key schedule itself is not modelled). *)

Module Passlib.

Record CryptContext : Type := {
  (* [hash(secret)]; the library draws the salt, here from [entropy] *)
  hash : N -> string -> outcome string;
  (* [verify(secret, hash)] *)
  verify : string -> string -> outcome bool
}.

(** The alphabet of bcrypt's base64. *)
Definition bcrypt64 : string :=
  "./ABCDEFGHIJKLMNOPQRSTUVWXYZabcdefghijklmnopqrstuvwxyz0123456789".

Definition b64_char (n : N) : ascii :=
  match String.get (N.to_nat (n mod 64)) bcrypt64 with
  | Some c => c
  | None => "."%char
  end.

(** [len] characters of the alphabet spelling [n], low digit first. *)
Fixpoint b64 (len : nat) (n : N) : string :=
  match len with
  | O => EmptyString
  | S len' => String (b64_char n) (b64 len' (n / 64))
  end.

Fixpoint in_string (c : ascii) (s : string) : bool :=
  match s with
  | EmptyString => false
  | String d s' => Ascii.eqb c d || in_string c s'
  end.

Fixpoint all_in (alphabet s : string) : bool :=
  match s with
  | EmptyString => true
  | String c s' => in_string c alphabet && all_in alphabet s'
  end.

Definition NUL : ascii := Ascii.zero.

(** bcrypt reads at most 72 bytes of the secret. *)
Definition truncate_size : nat := 72.
Definition truncate (secret : string) : string :=
  String.substring 0 truncate_size secret.

Definition ident_values : list string :=
  ["$2$"; "$2a$"; "$2x$"; "$2y$"; "$2b$"].

(** [identify]: the stored value starts with one of the idents.  Gives the
    ident and what follows it. *)
Fixpoint parse_ident (idents : list string) (h : string)
  : option (string * string) :=
  match idents with
  | [] => None
  | i :: rest =>
      if String.prefix i h
      then Some (i, String.substring (String.length i)
                      (String.length h - String.length i) h)
      else parse_ident rest h
  end.

Definition is_digit (c : ascii) : bool :=
  let n := N_of_ascii c in ((48 <=? n) && (n <=? 57))%N.

(** The cost the two digits spell. *)
Definition cost (d1 d2 : ascii) : N :=
  (10 * (N_of_ascii d1 - 48) + (N_of_ascii d2 - 48))%N.

(** [from_string] after the ident: a two-digit cost from 04 to 31, a
    dollar, 22 characters of salt and 31 of checksum. *)
Definition parse_tail (tail : string) : option (string * string * string) :=
  match tail with
  | String d1 (String d2 (String "$" data)) =>
      let salt := String.substring 0 22 data in
      let chk := String.substring 22 (String.length data - 22) data in
      if is_digit d1 && is_digit d2
         && (4 <=? cost d1 d2)%N && (cost d1 d2 <=? 31)%N
         && (String.length salt =? 22)%nat && all_in bcrypt64 salt
         && (String.length chk =? 31)%nat && all_in bcrypt64 chk
      then Some (String d1 (String d2 EmptyString), salt, chk)
      else None
  | _ => None
  end.

(** [validate_secret]: the library refuses a secret of more than 4096
    characters (PasswordSizeError, a ValueError). *)
Definition max_password_size : nat := 4096.
Definition validate_secret (secret : string) : outcome unit :=
  if (max_password_size <? String.length secret)%nat
  then Raise (ValueError "password exceeds maximum allowed size")
  else Ret tt.

Section Bcrypt.

(** The digest of bcrypt: ident, cost, salt and key to a number, spelt on
    31 characters. *)
Variable raw : string -> string -> string -> string -> N.

Definition default_ident : string := "$2b$".
Definition default_rounds : string := "12".

Definition calc_checksum (ident rounds salt secret : string) : outcome string :=
  if in_string NUL secret
  then Raise (ValueError "bcrypt does not allow NULL bytes in password")
  else Ret (b64 31 (raw ident rounds salt (truncate secret))).

Definition bcrypt_hash (entropy : N) (secret : string) : outcome string :=
  match validate_secret secret with
  | Raise e => Raise e
  | Ret _ =>
      let salt := b64 22 entropy in
      match calc_checksum default_ident default_rounds salt secret with
      | Raise e => Raise e
      | Ret chk => Ret (default_ident ++ default_rounds ++ "$" ++ salt ++ chk)
      end
  end.

(** [verify]: the context identifies the handler by the ident, the
    handler checks the size of the secret, parses the stored value (the
    ident [$2x$] is recognised and then refused) and compares. *)
Definition bcrypt_verify (secret stored : string) : outcome bool :=
  match parse_ident ident_values stored with
  | None => Raise UnknownHashError
  | Some (ident, tail) =>
      match validate_secret secret with
      | Raise e => Raise e
      | Ret _ =>
          if String.eqb ident "$2x$"
          then Raise (ValueError "crypt_blowfish's buggy '2x' hashes are not currently supported")
          else
            match parse_tail tail with
            | None => Raise (ValueError "malformed bcrypt hash")
            | Some (rounds, salt, chk) =>
                match calc_checksum ident rounds salt secret with
                | Raise e => Raise e
                | Ret c => Ret (String.eqb c chk)
                end
            end
      end
  end.

Definition bcrypt_context : CryptContext :=
  {| hash := bcrypt_hash; verify := bcrypt_verify |}.

End Bcrypt.

End Passlib.

(** ** PyJWT

    The token library is not part of the repository either.  Its signing
    layer (serialisation, HMAC-SHA256, signature check) is an interface;
    the registered-claim handling around it follows the library: [encode]
    turns a datetime [exp] into a whole number of seconds, [decode]
    checks [iat], [nbf], [exp], [aud], [sub] and [jti] in that order, no
    audience being asked for and no leeway given. *)

Module Jwt.

Record JwtLib : Type := {
  (* serialise and sign a payload with a key *)
  jws_encode : Doc -> string -> string;
  (* check the signature with the key and parse the payload; any failure
     is an InvalidTokenError of the library *)
  jws_decode : string -> string -> outcome Doc;
  (* releases from 2.10 on reject a [sub] or a [jti] that is not a str *)
  validates_sub : bool;
  (* Python's [int(s)] on a str: the integer its literal spells *)
  int_of_str : string -> option Z
}.

Definition time_claims : list string := ["exp"; "iat"; "nbf"].

Definition to_timestamp (k : string) (v : Value) : Value :=
  match v with
  | VTime t => if bool_decide (k ∈ time_claims) then VInt t else v
  | _ => v
  end.

Definition encode (lib : JwtLib) (payload : Doc) (key : string) : string :=
  jws_encode lib (map_imap (fun k v => Some (to_timestamp k v)) payload) key.

(** [int(v)], as the checks of the time claims call it: a bool counts
    for 0 or 1, a number loses its fraction, a str is read as a literal
    (ValueError when it is none), and None is not taken (TypeError). *)
Definition to_int (lib : JwtLib) (v : Value) : outcome Z :=
  match v with
  | VInt n => Ret n
  | VBool b => Ret (if b then 1 else 0)
  | VFloat h | VDecimal h => Ret (Z.quot h 100)
  | VStr s =>
      match int_of_str lib s with
      | Some n => Ret n
      | None => Raise (ValueError "invalid literal for int() with base 10")
      end
  | VNull | VTime _ | VOid _ =>
      Raise (TypeError "int() argument must be a string, a bytes-like object or a real number")
  end.

(** The pattern of the three checks: [try: n = int(payload[k])], with
    [except ValueError] turned into a DecodeError; a TypeError is not
    caught. *)
Definition time_claim (lib : JwtLib) (k why : string) (payload : Doc)
  (check : Z -> outcome unit) : outcome unit :=
  match payload !! k with
  | None => Ret tt
  | Some v =>
      match to_int lib v with
      | Ret n => check n
      | Raise e =>
          if isinstance e CValueError then Raise (InvalidTokenError why)
          else Raise e
      end
  end.

Definition validate_iat (lib : JwtLib) (payload : Doc) (now : Z)
  : outcome unit :=
  time_claim lib "iat" "Issued At claim (iat) must be an integer." payload
    (fun iat =>
       if now <? iat
       then Raise (InvalidTokenError "The token is not yet valid (iat)")
       else Ret tt).

Definition validate_nbf (lib : JwtLib) (payload : Doc) (now : Z)
  : outcome unit :=
  time_claim lib "nbf" "Not Before claim (nbf) must be an integer." payload
    (fun nbf =>
       if now <? nbf
       then Raise (InvalidTokenError "The token is not yet valid (nbf)")
       else Ret tt).

Definition validate_exp (lib : JwtLib) (payload : Doc) (now : Z)
  : outcome unit :=
  time_claim lib "exp" "Expiration Time claim (exp) must be an integer."
    payload
    (fun exp => if exp <=? now then Raise ExpiredSignatureError else Ret tt).

(** No audience is passed to [decode]: a token that names one is
    refused. *)
Definition validate_aud (payload : Doc) : outcome unit :=
  match payload !! "aud" with
  | Some v =>
      if truthy v then Raise (InvalidTokenError "Invalid audience")
      else Ret tt
  | None => Ret tt
  end.

Definition validate_str (lib : JwtLib) (k why : string) (payload : Doc)
  : outcome unit :=
  match payload !! k with
  | Some (VStr _) | None => Ret tt
  | Some _ =>
      if validates_sub lib then Raise (InvalidTokenError why) else Ret tt
  end.

Definition validate_sub (lib : JwtLib) (payload : Doc) : outcome unit :=
  validate_str lib "sub" "Subject must be a string" payload.

Definition validate_jti (lib : JwtLib) (payload : Doc) : outcome unit :=
  validate_str lib "jti" "JWT ID must be a string" payload.

(** The checks one after the other; the first that raises ends them. *)
Fixpoint all_pass (checks : list (outcome unit)) : outcome unit :=
  match checks with
  | [] => Ret tt
  | Ret _ :: rest => all_pass rest
  | Raise e :: _ => Raise e
  end.

Definition validate_claims (lib : JwtLib) (payload : Doc) (now : Z)
  : outcome unit :=
  all_pass [ validate_iat lib payload now;
             validate_nbf lib payload now;
             validate_exp lib payload now;
             validate_aud payload;
             validate_sub lib payload;
             validate_jti lib payload ].

Definition decode (lib : JwtLib) (token key : string) (now : Z) : outcome Doc :=
  match jws_decode lib token key with
  | Raise e => Raise e
  | Ret payload =>
      match validate_claims lib payload now with
      | Raise e => Raise e
      | Ret _ => Ret payload
      end
  end.

End Jwt.

(** ** The world a request runs in *)

(** A document of the [users] collection, which is also what
    [AuthSchema] holds, built from the document, once [_id] is turned into a str.  The
    documents are written by [create_user] from a validated
    [CreateUserSchema], so the fields have their types.  The two times
    are whole seconds, as in [VTime]. *)
Record AuthSchema : Type := mkUser {
  u_id : string;            (* str of _id: the digits of its bytes *)
  u_email : string;
  u_username : string;
  u_full_name : string;
  u_password : string;      (* the stored hash *)
  u_is_active : bool;
  u_created_at : Z;
  u_updated_at : Z
}.

(** [CreateUserSchema], the registration form. *)
Record CreateUserSchema : Type := mkCandidate {
  c_email : string;
  c_username : string;
  c_full_name : string;
  c_password : string
}.

Record World : Type := mkWorld {
  users : list AuthSchema;     (* collection users, in scan order *)
  products : list Doc;         (* collection products, in scan order *)
  db_faults : list bool;       (* next driver calls: true = the call fails *)
  clock : Z;                   (* wall clock, whole seconds since the epoch *)
  entropy : list N;            (* what the random generator hands out next *)
  oid_counter : N              (* source of fresh ObjectIds *)
}.

Definition set_users (us : list AuthSchema) (w : World) : World :=
  mkWorld us (products w) (db_faults w) (clock w) (entropy w) (oid_counter w).
Definition set_products (ps : list Doc) (w : World) : World :=
  mkWorld (users w) ps (db_faults w) (clock w) (entropy w) (oid_counter w).
Definition set_db_faults (fs : list bool) (w : World) : World :=
  mkWorld (users w) (products w) fs (clock w) (entropy w) (oid_counter w).
Definition set_entropy (es : list N) (w : World) : World :=
  mkWorld (users w) (products w) (db_faults w) (clock w) es (oid_counter w).
Definition set_oid_counter (n : N) (w : World) : World :=
  mkWorld (users w) (products w) (db_faults w) (clock w) (entropy w) n.

(** A coroutine: state in, outcome and state out. *)
Definition M (A : Type) : Type := World -> outcome A * World.

Definition ret {A} (a : A) : M A := fun w => (Ret a, w).
Definition raise {A} (e : exn) : M A := fun w => (Raise e, w).
Definition lift {A} (o : outcome A) : M A := fun w => (o, w).

Definition bind {A B} (m : M A) (k : A -> M B) : M B :=
  fun w =>
    match m w with
    | (Ret a, w') => k a w'
    | (Raise e, w') => (Raise e, w')
    end.

(** [try: m  except cs1: h1  except cs2: h2 ...]: the first clause one of
    whose classes the raised exception is an instance of handles it; an
    exception no clause matches, or one raised by a handler, propagates. *)
Fixpoint select_handler {A} (e : exn) (clauses : list (list cls * (exn -> M A)))
  : option (exn -> M A) :=
  match clauses with
  | [] => None
  | (cs, h) :: rest =>
      if isinstance_any e cs then Some h else select_handler e rest
  end.

Definition try_except {A} (m : M A) (clauses : list (list cls * (exn -> M A)))
  : M A :=
  fun w =>
    match m w with
    | (Ret a, w') => (Ret a, w')
    | (Raise e, w') =>
        match select_handler e clauses with
        | Some h => h e w'
        | None => (Raise e, w')
        end
    end.

Declare Scope py_scope.
Delimit Scope py_scope with py.
Notation "x <- m ;; k" := (bind m (fun x => k))
  (at level 100, m at next level, right associativity) : py_scope.
Notation "m ;;; k" := (bind m (fun _ => k))
  (at level 100, right associativity) : py_scope.
Local Open Scope py_scope.

(** [datetime.utcnow()], [datetime.now(timezone.utc)]. *)
Definition utcnow : M Z := fun w => (Ret (clock w), w).

(** One draw from the random generator. *)
Definition urandom : M N :=
  fun w =>
    match entropy w with
    | [] => (Ret 0%N, w)
    | n :: es => (Ret n, set_entropy es w)
    end.

(** ** The Mongo collections *)

Module Mongo.

(** Every driver call first reaches the server, which may fail
    (ServerSelectionTimeoutError, AutoReconnect, ...: PyMongoErrors). *)
Definition round_trip : M unit :=
  fun w =>
    match db_faults w with
    | [] => (Ret tt, w)
    | false :: fs => (Ret tt, set_db_faults fs w)
    | true :: fs =>
        (Raise (PyMongoError "ServerSelectionTimeoutError"), set_db_faults fs w)
    end.

Definition hex_digit (n : N) : ascii :=
  match String.get (N.to_nat (n mod 16)) "0123456789abcdef" with
  | Some c => c
  | None => "0"%char
  end.

Fixpoint hex (len : nat) (n : N) (acc : string) : string :=
  match len with
  | O => acc
  | S len' => hex len' (n / 16) (String (hex_digit n) acc)
  end.

(** The ObjectId the driver generates: 24 hexadecimal digits from the
    counter.  Nothing keeps it apart from the ids in the store; it is
    the server that refuses a write whose [_id] is taken. *)
Definition new_oid : M string :=
  fun w => (Ret (hex 24 (oid_counter w) EmptyString),
            set_oid_counter (oid_counter w + 1) w).

(** [users.find_one(filter)]: the first document, in scan order, that
    satisfies the filter. *)
Definition users_find_one (filter : AuthSchema -> bool) : M (option AuthSchema) :=
  round_trip ;;; fun w => (Ret (find filter (users w)), w).

(** [users.insert_one(doc)]: the driver gives the document an [_id] and
    the server appends it; the result carries [inserted_id].  The index
    on [_id] is unique: when a stored document carries that [_id]
    already, the server refuses the write (DuplicateKeyError, a
    PyMongoError). *)
Definition users_insert_one (doc : string -> AuthSchema) : M string :=
  round_trip ;;;
  (oid <- new_oid ;;
   fun w =>
     if existsb (fun u => String.eqb (u_id u) oid) (users w)
     then (Raise (PyMongoError "DuplicateKeyError"), w)
     else (Ret oid, set_users (users w ++ [doc oid]) w)).

Definition has_id (oid : string) (d : Doc) : bool :=
  bool_decide (d !! "_id" = Some (VOid oid)).

(** [products.find_one({"_id": oid})]. *)
Definition products_find_one (oid : string) : M (option Doc) :=
  round_trip ;;; fun w => (Ret (find (has_id oid) (products w)), w).

(** [products.insert_one(doc)], likewise. *)
Definition products_insert_one (doc : Doc) : M string :=
  round_trip ;;;
  (oid <- new_oid ;;
   fun w =>
     if existsb (has_id oid) (products w)
     then (Raise (PyMongoError "DuplicateKeyError"), w)
     else (Ret oid,
           set_products (products w ++ [<["_id" := VOid oid]> doc]) w)).

(** A key of [$set] that names a top-level field: not [_id], no dot (a
    path into an embedded document) and no leading dollar. *)
Definition plain_key (k : string) : bool :=
  negb (String.eqb k "_id")
  && negb (Passlib.in_string "."%char k)
  && negb (String.prefix "$" k).

Definition plain_update (update : Doc) : bool :=
  bool_decide (map_Forall (fun k _ => plain_key k = true) update).

(** The server's reading of a [$set] document.  With plain keys only, each
    pair overwrites or adds a top-level field.  What the server does with
    the other keys (an attempt on [_id], a dotted path, a dollar name) is
    left to [set_paths]. *)
Definition apply_set (set_paths : Doc -> Doc -> outcome Doc)
  (update doc : Doc) : outcome Doc :=
  if plain_update update then Ret (update ∪ doc) else set_paths update doc.

(** Rewrite the first document that satisfies [filter]. *)
Fixpoint update_first (filter : Doc -> bool) (f : Doc -> outcome Doc)
  (docs : list Doc) : outcome (option Doc * list Doc) :=
  match docs with
  | [] => Ret (None, [])
  | d :: rest =>
      if filter d
      then match f d with
           | Raise e => Raise e
           | Ret d' => Ret (Some d', d' :: rest)
           end
      else match update_first filter f rest with
           | Raise e => Raise e
           | Ret (r, rest') => Ret (r, d :: rest')
           end
  end.

(** [products.find_one_and_update({"_id": oid}, {"$set": update},
    return_document=ReturnDocument.AFTER)]. *)
Definition products_find_one_and_update
  (set_paths : Doc -> Doc -> outcome Doc) (oid : string) (update : Doc)
  : M (option Doc) :=
  round_trip ;;;
  fun w =>
    match update_first (has_id oid) (apply_set set_paths update) (products w) with
    | Raise e => (Raise e, w)
    | Ret (r, docs) => (Ret r, set_products docs w)
    end.

Fixpoint delete_first (filter : Doc -> bool) (docs : list Doc) : Z * list Doc :=
  match docs with
  | [] => (0, [])
  | d :: rest =>
      if filter d then (1, rest)
      else let '(n, rest') := delete_first filter rest in (n, d :: rest')
  end.

(** [products.delete_one({"_id": oid})], giving [deleted_count]. *)
Definition products_delete_one (oid : string) : M Z :=
  round_trip ;;;
  fun w =>
    let '(n, docs) := delete_first (has_id oid) (products w) in
    (Ret n, set_products docs w).

(** [users.find()], read to the end. *)
Definition users_find : M (list AuthSchema) :=
  round_trip ;;; fun w => (Ret (users w), w).

(** [products.find()], read to the end. *)
Definition products_find : M (list Doc) :=
  round_trip ;;; fun w => (Ret (products w), w).

Fixpoint delete_first_user (filter : AuthSchema -> bool) (us : list AuthSchema)
  : Z * list AuthSchema :=
  match us with
  | [] => (0, [])
  | u :: rest =>
      if filter u then (1, rest)
      else let '(n, rest') := delete_first_user filter rest in (n, u :: rest')
  end.

(** [users.delete_one({"_id": oid})], giving [deleted_count]. *)
Definition users_delete_one (oid : string) : M Z :=
  round_trip ;;;
  fun w =>
    let '(n, us) :=
      delete_first_user (fun u => String.eqb (u_id u) oid) (users w) in
    (Ret n, set_users us w).

End Mongo.

(** ** pydantic

    The coercions of the validation library (lax mode) are an interface;
    the constraints checked after them are those the schemas declare. *)

Module Pydantic.

Record Coercions : Type := {
  to_str : Value -> option string;
  to_int : Value -> option Z;
  to_decimal : Value -> option Z;      (* in hundredths *)
  to_bool : Value -> option bool;
  to_datetime : Value -> option Z
}.

End Pydantic.

(** ** Configuration and libraries *)

(** [src/config.py], the two settings the token code reads. *)
Record Settings : Type := {
  SECRET_KEY : string;
  ACCESS_TOKEN_EXPIRE_MINUTES : Z
}.

Record Env : Type := {
  settings : Settings;
  pwd_context : Passlib.CryptContext;
  jwt : Jwt.JwtLib;
  pydantic : Pydantic.Coercions;
  set_paths : Doc -> Doc -> outcome Doc
}.

(** What a route hands to the framework: a model to serialise, or a
    [JSONResponse] it built itself. *)
Inductive reply (A : Type) : Type :=
| Model (a : A)
| JSONResponse (status_code : Z) (detail : string).
Arguments Model {A} a.
Arguments JSONResponse {A} status_code detail.

(** [Token(access_token=..., token_type="bearer")]. *)
Record Token : Type := { access_token : string; token_type : string }.

(** ** src/users/utils/password.py *)

Module Password.
Section Password.

Variable env : Env.

Definition ALGORITHM : string := "HS256".

Definition verify_password (plain_password hashed_password : string)
  : outcome bool :=
  Passlib.verify (pwd_context env) plain_password hashed_password.

Definition get_password_hash (password : string) : M string :=
  salt <- urandom ;;
  lift (Passlib.hash (pwd_context env) salt password).

(** [timedelta(minutes=m)], in seconds. *)
Definition timedelta_minutes (m : Z) : Z := m * 60.

(** [bool(td)] of a timedelta: false for the zero duration. *)
Definition timedelta_truthy (td : Z) : bool := negb (td =? 0).

(** [expires_delta if expires_delta else timedelta(minutes=...)]: [None]
    and a falsy duration both give the configured lifetime. *)
Definition token_lifetime (expires_delta : option Z) : Z :=
  match expires_delta with
  | Some td =>
      if timedelta_truthy td then td
      else timedelta_minutes (ACCESS_TOKEN_EXPIRE_MINUTES (settings env))
  | None => timedelta_minutes (ACCESS_TOKEN_EXPIRE_MINUTES (settings env))
  end.

Definition create_access_token (data : Doc) (expires_delta : option Z)
  : M string :=
  now <- utcnow ;;
  let expire := now + token_lifetime expires_delta in
  let to_encode := <["exp" := VTime expire]> data in
  ret (Jwt.encode (jwt env) to_encode (SECRET_KEY (settings env))).

Definition credentials_exception : exn :=
  HTTPException HTTP_401_UNAUTHORIZED "Could not validate credentials" true.

(** [payload.get("sub")]: [None] when the key is absent, and a JSON null
    is [None] too. *)
Definition payload_get (payload : Doc) (k : string) : Value :=
  match payload !! k with
  | Some v => v
  | None => VNull
  end.

Definition decode_token (token : string) : M Value :=
  try_except
    (now <- utcnow ;;
     payload <- lift (Jwt.decode (jwt env) token (SECRET_KEY (settings env)) now) ;;
     let user_id := payload_get payload "sub" in
     match user_id with
     | VNull => raise credentials_exception
     | _ => ret user_id
     end)
    [ ([CExpiredSignatureError],
       fun _ => raise (HTTPException HTTP_401_UNAUTHORIZED "Token has expired" false));
      ([CInvalidTokenError],
       fun _ => raise credentials_exception) ].

End Password.
End Password.

(** ** src/users/services.py *)

Module UserService.
Section UserService.

Variable env : Env.

(** [ObjectId(user_id)] on a value that passed [ObjectId.is_valid]. *)
Definition as_text (v : Value) : string :=
  match v with
  | VStr s | VOid s => s
  | _ => EmptyString
  end.

(** [raise HTTPException(...) if is_raise else True]: the conditional is
    the operand of [raise], so with [is_raise] false the statement raises
    a TypeError ([True] is not an exception). *)
Definition raise_if {A} (e : exn) (is_raise : bool) : M A :=
  if is_raise then raise e
  else raise (TypeError "exceptions must derive from BaseException").

Definition check_if_user_exists (username email : string) (is_raise : bool)
  : M bool :=
  existing_user <-
    Mongo.users_find_one
      (fun u => String.eqb (u_username u) username
                || String.eqb (u_email u) email) ;;
  match existing_user with
  | Some u =>
      if String.eqb (u_username u) username
      then raise_if (HTTPException 400 "Username already exists." false) is_raise
      else if String.eqb (u_email u) email
      then raise_if (HTTPException 400 "Email already exists." false) is_raise
      else ret false
  | None => ret false
  end.

Definition get_user_by_username (username : string) : M (option AuthSchema) :=
  try_except
    (Mongo.users_find_one (fun u => String.eqb (u_username u) username))
    [ ([CPyMongoError],
       fun e => raise (HTTPException 500
                         ("Error fetching user by email: " ++ Py.str e) false)) ].

Definition authenticate_user (username password : string)
  : M (option AuthSchema) :=
  user <- get_user_by_username username ;;
  match user with
  | None => ret None
  | Some u =>
      ok <- lift (Password.verify_password env password (u_password u)) ;;
      if ok then ret (Some u) else ret None
  end.

Definition create_user (user_data : CreateUserSchema) : M AuthSchema :=
  try_except
    (now <- utcnow ;;
     hashed <- Password.get_password_hash env (c_password user_data) ;;
     let user_dict oid :=
       mkUser oid (c_email user_data) (c_username user_data)
         (c_full_name user_data) hashed true now now in
     oid <- Mongo.users_insert_one user_dict ;;
     ret (user_dict oid))
    [ ([CException],
       fun e => raise (HTTPException 500
                         ("Database error while creating user: " ++ Py.str e)
                         false)) ].

Definition get_user_by_id (user_id : string) : M (option AuthSchema) :=
  try_except
    (oid <- lift (ObjectId.make user_id) ;;
     Mongo.users_find_one (fun u => String.eqb (u_id u) oid))
    [ ([CPyMongoError; CValueError],
       fun e => raise (HTTPException 500
                         ("Error fetching user by ID: " ++ Py.str e) false)) ].

Definition is_valid_object_id (id : string) : M string :=
  if negb (ObjectId.is_valid_str id)
  then raise (HTTPException 400 "Invalid user ID format" false)
  else lift (ObjectId.make id).

Definition get_all_users : M (list AuthSchema) :=
  try_except Mongo.users_find
    [ ([CPyMongoError],
       fun e => raise (HTTPException 500
                         ("Database error while fetching users: " ++ Py.str e)
                         false)) ].

Definition delete_user (user_id : string) : M bool :=
  try_except
    (oid <- lift (ObjectId.make user_id) ;;
     deleted_count <- Mongo.users_delete_one oid ;;
     ret (0 <? deleted_count))
    [ ([CPyMongoError; CValueError],
       fun e => raise (HTTPException 500
                         ("Error deleting user: " ++ Py.str e) false)) ].

Definition get_user_by_email (email : string) : M (option AuthSchema) :=
  try_except
    (Mongo.users_find_one (fun u => String.eqb (u_email u) email))
    [ ([CPyMongoError],
       fun e => raise (HTTPException 500
                         ("Error fetching user by email: " ++ Py.str e) false)) ].

End UserService.
End UserService.

(** ** src/users/dependencies/permissions.py *)

Module Permissions.
Section Permissions.

Variable env : Env.

Definition credentials_exception : exn :=
  HTTPException HTTP_401_UNAUTHORIZED "Could not validate credentials" true.

Definition get_current_user (token : string) : M AuthSchema :=
  try_except
    (user_id <- Password.decode_token env token ;;
     if negb (truthy user_id) || negb (ObjectId.is_valid user_id)
     then raise credentials_exception
     else
       user_data <- UserService.get_user_by_id (UserService.as_text user_id) ;;
       match user_data with
       | None => raise credentials_exception
       | Some u => ret u
       end)
    [ ([CException], fun _ => raise credentials_exception) ].

End Permissions.
End Permissions.

(** ** src/users/routes.py *)

Module UserRoutes.
Section UserRoutes.

Variable env : Env.

(** [POST /register], run with no other request in between. *)
Definition register (data : CreateUserSchema) : M (reply AuthSchema) :=
  UserService.check_if_user_exists (c_username data) (c_email data) true ;;;
  try_except
    (user <- UserService.create_user env data ;; ret (Model user))
    [ ([CValidationError],
       fun e => ret (JSONResponse 422 (Py.str e)));
      ([CException],
       fun e => ret (JSONResponse 500 ("Internal server error: " ++ Py.str e))) ].

(** The same handler on a busy event loop.  It awaits twice, for the
    check and for [create_user]; [others] is what the requests that run
    between the two do to the world. *)
Definition register_among (others : World -> World) (data : CreateUserSchema)
  : M (reply AuthSchema) :=
  UserService.check_if_user_exists (c_username data) (c_email data) true ;;;
  (fun w => (Ret tt, others w)) ;;;
  try_except
    (user <- UserService.create_user env data ;; ret (Model user))
    [ ([CValidationError],
       fun e => ret (JSONResponse 422 (Py.str e)));
      ([CException],
       fun e => ret (JSONResponse 500 ("Internal server error: " ++ Py.str e))) ].

(** [POST /token]. *)
Definition login_for_access_token (username password : string) : M Token :=
  user <- UserService.authenticate_user env username password ;;
  match user with
  | None =>
      raise (HTTPException HTTP_401_UNAUTHORIZED
               "Incorrect username or password" true)
  | Some u =>
      access_token <- Password.create_access_token env {[ "sub" := VStr (u_id u) ]} None ;;
      ret {| access_token := access_token; token_type := "bearer" |}
  end.

End UserRoutes.
End UserRoutes.

(** ** src/product/schemas.py *)

Module ProductSchemas.

Record ProductSchema : Type := mkProduct {
  p_name : string;
  p_description : option string;
  p_price : Z;                  (* hundredths *)
  p_stock : option Z;
  p_id : option string;         (* alias _id *)
  p_owner_id : string;
  p_is_active : bool;
  p_created_at : Z;
  p_updated_at : Z
}.

(** [ProductUpdateSchema]: every field optional, [None] by default. *)
Record ProductUpdateSchema : Type := mkUpdate {
  up_name : option string;
  up_description : option string;
  up_price : option Z;          (* a Decimal, in hundredths *)
  up_stock : option Z
}.

(** [model_dump(exclude_unset=True, exclude_defaults=True)]: the fields
    that were given a value other than the default [None]. *)
Definition model_dump (u : ProductUpdateSchema) : Doc :=
  let put {A} (k : string) (f : A -> Value) (o : option A) (d : Doc) : Doc :=
    match o with Some a => <[k := f a]> d | None => d end in
  put "name" VStr (up_name u)
    (put "description" VStr (up_description u)
       (put "price" VDecimal (up_price u)
          (put "stock" VInt (up_stock u) ∅))).

(** [ProductCreateSchema]: [name] and [price] are required; [description]
    is [None] and [stock] is [0] unless the request sets them. *)
Record ProductCreateSchema : Type := mkCreate {
  cr_name : string;
  cr_description : option string;
  cr_price : Z;                 (* a Decimal, in hundredths *)
  cr_stock : option Z           (* [None]: not set *)
}.

(** [model_dump(exclude_unset=True, by_alias=True, exclude_defaults=True)]
    of a [ProductCreateSchema]: a field that is unset, or set to its
    default, is left out. *)
Definition create_dump (c : ProductCreateSchema) : Doc :=
  let with_description (d : Doc) : Doc :=
    match cr_description c with
    | Some t => <["description" := VStr t]> d
    | None => d
    end in
  let with_stock (d : Doc) : Doc :=
    match cr_stock c with
    | Some n => if n =? 0 then d else <["stock" := VInt n]> d
    | None => d
    end in
  <["name" := VStr (cr_name c)]>
    (with_description
       (<["price" := VDecimal (cr_price c)]> (with_stock ∅))).

Section Validate.

Variable co : Pydantic.Coercions.
Variable now : Z.   (* for the [default_factory=datetime.utcnow] fields *)

Definition required {A} (coerce : Value -> option A) (doc : Doc) (k : string)
  : option A :=
  match doc !! k with
  | Some v => coerce v
  | None => None
  end.

Definition with_default {A} (coerce : Value -> option A) (doc : Doc)
  (k : string) (default : A) : option A :=
  match doc !! k with
  | Some v => coerce v
  | None => Some default
  end.

(** An [Optional[...]] field: a null is accepted as [None]. *)
Definition optional {A} (coerce : Value -> option A) (doc : Doc) (k : string)
  (default : option A) : option (option A) :=
  match doc !! k with
  | Some VNull => Some None
  | Some v => Some <$> coerce v
  | None => Some default
  end.

Definition check {A} (P : A -> bool) (o : option A) : option A :=
  match o with
  | Some a => if P a then Some a else None
  | None => None
  end.

Definition valid_name (s : string) : bool :=
  (3 <=? String.length s)%nat && (String.length s <=? 50)%nat.

(** [validate_description]: [if value and len(value) > 500]. *)
Definition valid_description (d : option string) : bool :=
  match d with
  | Some s => (String.length s <=? 500)%nat
  | None => true
  end.

(** [condecimal(gt=0, max_digits=10, decimal_places=2)]. *)
Definition valid_price (h : Z) : bool := (0 <? h) && (h <? 10 ^ 10).

Definition valid_stock (s : option Z) : bool :=
  match s with
  | Some n => 0 <=? n
  | None => true
  end.

(** [ProductSchema] built from a document.  [validate_stock] compares its argument with
    [0]: on an explicit null that comparison raises a TypeError, which the
    library does not turn into a ValidationError. *)
Definition ProductSchema_validate (doc : Doc) : outcome ProductSchema :=
  if bool_decide (doc !! "stock" = Some VNull)
  then Raise (TypeError "'<' not supported between instances of 'NoneType' and 'int'")
  else
    match
      name ← check valid_name (required (Pydantic.to_str co) doc "name");
      description ← check valid_description
                      (optional (Pydantic.to_str co) doc "description" None);
      price ← check valid_price (required (Pydantic.to_decimal co) doc "price");
      stock ← check valid_stock
                (optional (Pydantic.to_int co) doc "stock" (Some 0));
      id ← optional (Pydantic.to_str co) doc "_id" None;
      owner_id ← required (Pydantic.to_str co) doc "owner_id";
      is_active ← with_default (Pydantic.to_bool co) doc "is_active" true;
      created_at ← with_default (Pydantic.to_datetime co) doc "created_at" now;
      updated_at ← with_default (Pydantic.to_datetime co) doc "updated_at" now;
      Some (mkProduct name description price stock id owner_id is_active
              created_at updated_at)
    with
    | Some p => Ret p
    | None => Raise (ValidationError "validation errors for ProductSchema")
    end.

End Validate.

End ProductSchemas.
Export ProductSchemas.

(** ** src/product/services.py *)

Module ProductService.
Section ProductService.

Variable env : Env.

(** [doc["_id"] = str(doc["_id"])]. *)
Definition stringify_id (doc : Doc) : Doc :=
  match doc !! "_id" with
  | Some (VOid hex) => <["_id" := VStr hex]> doc
  | _ => doc
  end.

(** [doc["_id"] = str(doc["_id"])], then the [ProductSchema] of [doc]. *)
Definition to_schema (doc : Doc) : M ProductSchema :=
  now <- utcnow ;;
  lift (ProductSchema_validate (pydantic env) now (stringify_id doc)).

Definition found (r : option Doc) : M (option ProductSchema) :=
  match r with
  | Some doc => p <- to_schema doc ;; ret (Some p)
  | None => ret None
  end.

(** [if "price" in d and isinstance(d["price"], Decimal):
       d["price"] = float(d["price"])]. *)
Definition price_to_float (d : Doc) : Doc :=
  match d !! "price" with
  | Some (VDecimal h) => <["price" := VFloat h]> d
  | _ => d
  end.

Definition get_product_by_id (product_id : string) : M (option ProductSchema) :=
  try_except
    (oid <- lift (ObjectId.make product_id) ;;
     product <- Mongo.products_find_one oid ;;
     found product)
    [ ([CPyMongoError; CValueError],
       fun e => raise (Exception_ ("Error fetching product by ID: " ++ Py.str e))) ].

Definition update_product (product_id : string) (update_data : ProductUpdateSchema)
  : M (option ProductSchema) :=
  try_except
    (if negb (ObjectId.is_valid_str product_id)
     then raise (ValueError "Invalid product ID format")
     else
       let update_dict := price_to_float (model_dump update_data) in
       now <- utcnow ;;
       let update_dict := <["updated_at" := VTime now]> update_dict in
       oid <- lift (ObjectId.make product_id) ;;
       result <- Mongo.products_find_one_and_update (set_paths env) oid update_dict ;;
       found result)
    [ ([CInvalidId; CPyMongoError; CValueError],
       fun e => raise (Exception_ ("Error updating product: " ++ Py.str e))) ].

Definition partial_update_product (product_id : string) (update_data : Doc)
  : M (option ProductSchema) :=
  try_except
    (if negb (ObjectId.is_valid_str product_id)
     then raise (ValueError "Invalid product ID format")
     else if bool_decide (update_data = ∅)
     then raise (HTTPException 400 "No fields to update" false)
     else
       let update_data := price_to_float update_data in
       now <- utcnow ;;
       let update_data := <["updated_at" := VTime now]> update_data in
       oid <- lift (ObjectId.make product_id) ;;
       result <- Mongo.products_find_one_and_update (set_paths env) oid update_data ;;
       found result)
    [ ([CInvalidId; CPyMongoError; CValueError],
       fun e => raise (Exception_ ("Error updating product: " ++ Py.str e))) ].

Definition delete_product (product_id : string) : M bool :=
  try_except
    (oid <- lift (ObjectId.make product_id) ;;
     deleted_count <- Mongo.products_delete_one oid ;;
     ret (0 <? deleted_count))
    [ ([CPyMongoError; CValueError],
       fun e => raise (Exception_ ("Error deleting product: " ++ Py.str e))) ].

Definition is_object_id (id : string) : M string :=
  if negb (ObjectId.is_valid_str id)
  then raise (HTTPException 400 "Invalid product ID format" false)
  else ret id.

Definition create_product (current_user : AuthSchema)
  (product_data : ProductCreateSchema) : M ProductSchema :=
  try_except
    (let product_dict := price_to_float (create_dump product_data) in
     now <- utcnow ;;
     let product_dict :=
       <["owner_id" := VStr (u_id current_user)]>
         (<["updated_at" := VTime now]>
            (<["created_at" := VTime now]> product_dict)) in
     inserted_id <- Mongo.products_insert_one product_dict ;;
     to_schema (<["_id" := VOid inserted_id]> product_dict))
    [ ([CException],
       fun e => raise (Exception_ ("Database error while creating product: "
                                   ++ Py.str e))) ].

(** The comprehension of [get_all_products]: each document in turn, the
    first that fails validation ends it. *)
Fixpoint to_schemas (now : Z) (docs : list Doc) : outcome (list ProductSchema) :=
  match docs with
  | [] => Ret []
  | d :: rest =>
      match ProductSchema_validate (pydantic env) now (stringify_id d) with
      | Raise e => Raise e
      | Ret p =>
          match to_schemas now rest with
          | Raise e => Raise e
          | Ret ps => Ret (p :: ps)
          end
      end
  end.

Definition get_all_products : M (list ProductSchema) :=
  try_except
    (docs <- Mongo.products_find ;;
     now <- utcnow ;;
     lift (to_schemas now docs))
    [ ([CPyMongoError],
       fun e => raise (Exception_ ("Database error while fetching products: "
                                   ++ Py.str e))) ].

End ProductService.
End ProductService.

(** ** src/product/api/crud.py *)

Module Crud.
Section Crud.

Variable env : Env.

Definition invalid_product_id : exn :=
  HTTPException 400 "Invalid product ID format" false.
Definition product_not_found : exn :=
  HTTPException 404 "Product not found" false.
Definition forbidden (verb : string) : exn :=
  HTTPException 403
    ("You do not have permission to " ++ verb ++ " this product") false.

(** The two [except] clauses every route body ends with. *)
Definition route_handlers {A} : list (list cls * (exn -> M (reply A))) :=
  [ ([CValidationError], fun e => ret (JSONResponse 422 (Py.str e)));
    ([CException],
     fun e => ret (JSONResponse 500 ("Internal server error: " ++ Py.str e))) ].

Definition updated (r : option ProductSchema) : M (reply ProductSchema) :=
  match r with
  | None => ret (JSONResponse 404 "Product not found")
  | Some p => ret (Model p)
  end.

(** [PUT /products/{product_id}]. *)
Definition update_product (product_id : string)
  (update_data : ProductUpdateSchema) (current_user : AuthSchema)
  : M (reply ProductSchema) :=
  if negb (ObjectId.is_valid_str product_id) then raise invalid_product_id
  else
    product <- ProductService.get_product_by_id env product_id ;;
    match product with
    | None => raise product_not_found
    | Some product =>
        if negb (String.eqb (p_owner_id product) (u_id current_user))
        then raise (forbidden "update")
        else
          try_except
            (updated_product <-
               ProductService.update_product env product_id update_data ;;
             updated updated_product)
            route_handlers
    end.

(** [PATCH /products/{product_id}]. *)
Definition partial_update_product (product_id : string) (update_data : Doc)
  (current_user : AuthSchema) : M (reply ProductSchema) :=
  if negb (ObjectId.is_valid_str product_id) then raise invalid_product_id
  else
    product <- ProductService.get_product_by_id env product_id ;;
    match product with
    | None => raise product_not_found
    | Some product =>
        if negb (String.eqb (p_owner_id product) (u_id current_user))
        then raise (forbidden "update")
        else
          try_except
            (updated_product <-
               ProductService.partial_update_product env product_id update_data ;;
             updated updated_product)
            route_handlers
    end.

(** [DELETE /products/{product_id}]. *)
Definition delete_product (product_id : string) (current_user : AuthSchema)
  : M (reply ProductSchema) :=
  if negb (ObjectId.is_valid_str product_id) then raise invalid_product_id
  else
    product <- ProductService.get_product_by_id env product_id ;;
    match product with
    | None => raise product_not_found
    | Some product =>
        if negb (String.eqb (p_owner_id product) (u_id current_user))
        then raise (forbidden "delete")
        else
          success <- ProductService.delete_product product_id ;;
          if negb success
          then raise (HTTPException 500 "Failed to delete product" false)
          else ret (JSONResponse 200 "Product deleted successfully")
    end.

(** [POST /products/]. *)
Definition create_product (product_schema : ProductCreateSchema)
  (current_user : AuthSchema) : M (reply ProductSchema) :=
  try_except
    (created_product <-
       ProductService.create_product env current_user product_schema ;;
     ret (Model created_product))
    route_handlers.

(** [GET /products/{product_id}]. *)
Definition get_product (product_id : string) : M ProductSchema :=
  if negb (ObjectId.is_valid_str product_id) then raise invalid_product_id
  else
    product <- ProductService.get_product_by_id env product_id ;;
    match product with
    | None => raise product_not_found
    | Some product => ret product
    end.

(** [GET /products/]. *)
Definition get_all_products : M (list ProductSchema) :=
  ProductService.get_all_products env.

End Crud.
End Crud.

(** ** The mutating product operations, taken together *)

Inductive mutation : Type :=
| Put (update_data : ProductUpdateSchema)
| Patch (update_data : Doc)
| Delete.

(** The route that serves a mutation. *)
Definition handle (env : Env) (op : mutation) (product_id : string)
  (current_user : AuthSchema) : M (reply ProductSchema) :=
  match op with
  | Put u => Crud.update_product env product_id u current_user
  | Patch d => Crud.partial_update_product env product_id d current_user
  | Delete => Crud.delete_product env product_id current_user
  end.

(** The statements of each route that follow its ownership check. *)
Definition mutate (env : Env) (op : mutation) (product_id : string)
  : M (reply ProductSchema) :=
  match op with
  | Put u =>
      try_except
        (updated_product <- ProductService.update_product env product_id u ;;
         Crud.updated updated_product)
        Crud.route_handlers
  | Patch d =>
      try_except
        (updated_product <-
           ProductService.partial_update_product env product_id d ;;
         Crud.updated updated_product)
        Crud.route_handlers
  | Delete =>
      success <- ProductService.delete_product product_id ;;
      if negb success
      then raise (HTTPException 500 "Failed to delete product" false)
      else ret (JSONResponse 200 "Product deleted successfully")
  end.

Definition verb (op : mutation) : string :=
  match op with
  | Delete => "delete"
  | _ => "update"
  end.

(** ** An instance of the libraries to run the model on

    The theorems below hold for every instance of the library interfaces.
    This one makes the model executable on examples: a checksum stands
    for the Blowfish digest and for the HMAC, a plain text format for the
    JSON payload, and the coercions accept a value of the target type
    only.  The default settings are those of [src/config.py]. *)

Module Demo.

Fixpoint checksum (s : string) (acc : N) : N :=
  match s with
  | EmptyString => acc
  | String c s' => checksum s' ((acc * 131 + N_of_ascii c) mod 4294967291)%N
  end.

Definition raw (ident rounds salt key : string) : N :=
  checksum (ident ++ rounds ++ salt ++ key) 7.

Definition pwd_context : Passlib.CryptContext := Passlib.bcrypt_context raw.

(** The text between separators. *)
Fixpoint fields (sep : ascii) (s cur : string) : list string :=
  match s with
  | EmptyString => [cur]
  | String c s' =>
      if Ascii.eqb c sep then cur :: fields sep s' EmptyString
      else fields sep s' (cur ++ String c EmptyString)
  end.

Fixpoint split_at (sep : ascii) (s cur : string) : option (string * string) :=
  match s with
  | EmptyString => None
  | String c s' =>
      if Ascii.eqb c sep then Some (cur, s')
      else split_at sep s' (cur ++ String c EmptyString)
  end.

Fixpoint parse_N (s : string) (acc : N) : option N :=
  match s with
  | EmptyString => Some acc
  | String c s' =>
      if Passlib.is_digit c
      then parse_N s' (acc * 10 + (N_of_ascii c - 48))%N
      else None
  end.

Definition parse_Z (s : string) : option Z :=
  match s with
  | EmptyString => None
  | String "-" s' => (fun n => - Z.of_N n) <$> parse_N s' 0%N
  | _ => Z.of_N <$> parse_N s 0%N
  end.

Definition print_Z (z : Z) : string :=
  if z <? 0 then "-" ++ pretty (Z.to_N (- z)) else pretty (Z.to_N z).

Definition print_value (v : Value) : string :=
  match v with
  | VNull => "n"
  | VBool true => "bT"
  | VBool false => "bF"
  | VInt n => "i" ++ print_Z n
  | VFloat h => "f" ++ print_Z h
  | VDecimal h => "d" ++ print_Z h
  | VStr s => "s" ++ s
  | VTime t => "t" ++ print_Z t
  | VOid h => "o" ++ h
  end.

Definition parse_value (s : string) : option Value :=
  match s with
  | String "n" EmptyString => Some VNull
  | String "b" (String "T" EmptyString) => Some (VBool true)
  | String "b" (String "F" EmptyString) => Some (VBool false)
  | String "i" r => VInt <$> parse_Z r
  | String "f" r => VFloat <$> parse_Z r
  | String "d" r => VDecimal <$> parse_Z r
  | String "s" r => Some (VStr r)
  | String "t" r => VTime <$> parse_Z r
  | String "o" r => Some (VOid r)
  | _ => None
  end.

Definition print_payload (payload : Doc) : string :=
  String.concat ";"
    ((fun kv => fst kv ++ "=" ++ print_value (snd kv)) <$> map_to_list payload).

Definition parse_entry (s : string) : option (string * Value) :=
  match split_at "="%char s EmptyString with
  | Some (k, r) => (fun v => (k, v)) <$> parse_value r
  | None => None
  end.

Definition parse_payload (s : string) : option Doc :=
  if String.eqb s EmptyString then Some ∅
  else list_to_map <$> mapM parse_entry (fields ";"%char s EmptyString).

Definition mac (key body : string) : string :=
  pretty (checksum (key ++ "/" ++ body) 11).

Definition jws_encode (payload : Doc) (key : string) : string :=
  let body := print_payload payload in
  "HS256." ++ body ++ "." ++ mac key body.

Definition jws_decode (token key : string) : outcome Doc :=
  match fields "."%char token EmptyString with
  | [header; body; signature] =>
      if negb (String.eqb header "HS256")
      then Raise (InvalidTokenError "The specified alg value is not allowed")
      else if negb (String.eqb signature (mac key body))
      then Raise (InvalidTokenError "Signature verification failed")
      else match parse_payload body with
           | Some payload => Ret payload
           | None => Raise (InvalidTokenError "Invalid payload string")
           end
  | _ => Raise (InvalidTokenError "Not enough segments")
  end.

Definition jwt : Jwt.JwtLib :=
  {| Jwt.jws_encode := jws_encode; Jwt.jws_decode := jws_decode;
     Jwt.validates_sub := true; Jwt.int_of_str := parse_Z |}.

Definition coercions : Pydantic.Coercions :=
  {| Pydantic.to_str := fun v => match v with VStr s => Some s | _ => None end;
     Pydantic.to_int := fun v => match v with VInt n => Some n | _ => None end;
     Pydantic.to_decimal :=
       fun v => match v with
                | VInt n => Some (100 * n)
                | VFloat h | VDecimal h => Some h
                | _ => None
                end;
     Pydantic.to_bool := fun v => match v with VBool b => Some b | _ => None end;
     Pydantic.to_datetime :=
       fun v => match v with VTime t => Some t | _ => None end |}.

Definition settings : Settings :=
  {| SECRET_KEY := "your_super_secret_key"; ACCESS_TOKEN_EXPIRE_MINUTES := 60 |}.

Definition env : Env :=
  Build_Env settings pwd_context jwt coercions
    (fun _ _ => Raise (PyMongoError "WriteError")).

End Demo.

(** ** A small deployment to evaluate the model on *)

Module Scenario.

Definition alice_id : string := "000000000000000000000001".
Definition mallory_id : string := "000000000000000000000002".
Definition widget_id : string := "0000000000000000000000aa".

(** The hash [Demo.pwd_context] gives for the password "secret" with the
    salt drawn from the entropy 5. *)
Definition alice_hash : string :=
  Eval vm_compute in
    match Passlib.hash Demo.pwd_context 5 "secret" with
    | Ret h => h
    | Raise _ => EmptyString
    end.

Definition alice : AuthSchema :=
  mkUser alice_id "a@x.com" "alice" "Alice" alice_hash true 1000 1000.

Definition mallory : AuthSchema :=
  mkUser mallory_id "m@x.com" "mallory" "Mallory" alice_hash true 1000 1000.

Definition widget : Doc :=
  <["_id" := VOid widget_id]>
    (<["name" := VStr "widget"]>
       (<["price" := VFloat 999]>
          (<["owner_id" := VStr alice_id]>
             (<["created_at" := VTime 1000]>
                (<["updated_at" := VTime 1000]> ∅))))).

(** Two users, one product of alice's, a healthy database. *)
Definition world : World :=
  mkWorld [alice; mallory] [widget] [] 2000 [] 3.

(** The same deployment when the next call to the database times out. *)
Definition world_db_down : World :=
  mkWorld [alice; mallory] [widget] [true] 2000 [] 3.

(** A bearer token of alice's, issued at time 2000 for the default hour. *)
Definition alice_token : string :=
  Eval vm_compute in
    match fst (Password.create_access_token Demo.env
                 {[ "sub" := VStr alice_id ]} None world) with
    | Ret t => t
    | Raise _ => EmptyString
    end.

(** A store where the record found first shares only the email with the
    candidate below, and a later record has the candidate's username. *)
Definition carol : AuthSchema :=
  mkUser "000000000000000000000003" "a@x.com" "carol" "Carol" alice_hash
    true 1000 1000.
Definition alice_elsewhere : AuthSchema :=
  mkUser "000000000000000000000004" "c@x.com" "alice" "Alice" alice_hash
    true 1000 1000.
Definition world_two_collisions : World :=
  mkWorld [carol; alice_elsewhere] [] [] 2000 [] 5.
Definition candidate : CreateUserSchema :=
  mkCandidate "a@x.com" "alice" "Alice A." "secret".




(** A token of alice's issued at time 2000 for ninety seconds. *)
Definition short_token : string :=
  Eval vm_compute in
    Jwt.jws_encode Demo.jwt
      (<["exp" := VInt 2090]> {[ "sub" := VStr alice_id ]})
      (SECRET_KEY Demo.settings).

(** What [create_access_token] returns when asked for a zero lifetime. *)
Definition zero_ttl_token : string :=
  Eval vm_compute in
    match fst (Password.create_access_token Demo.env
                 {[ "sub" := VStr alice_id ]} (Some 0) world) with
    | Ret t => t
    | Raise _ => EmptyString
    end.



End Scenario.

(** ** Vocabulary of the statements *)

Definition username_taken : exn :=
  HTTPException 400 "Username already exists." false.
Definition email_taken : exn :=
  HTTPException 400 "Email already exists." false.

(** The filter of the combined lookup. *)
Definition collides (username email : string) (u : AuthSchema) : bool :=
  String.eqb (u_username u) username || String.eqb (u_email u) email.

(** The claims of a token issued at time [now] for [sub] with lifetime
    [lifetime], as they are signed. *)
Definition issued_claims (sub : string) (now lifetime : Z) : Doc :=
  <["exp" := VInt (now + lifetime)]> {[ "sub" := VStr sub ]}.

(** The same world at a later (or earlier) time. *)
Definition at_time (t : Z) (w : World) : World :=
  mkWorld (users w) (products w) (db_faults w) t (entropy w) (oid_counter w).

(** No two records of the store share a username, and no two an email. *)
Definition unique_accounts (w : World) : Prop :=
  NoDup (u_username <$> users w) /\ NoDup (u_email <$> users w).

(** Two states with the same collections and the same clock. *)
Definition same_data (w w' : World) : Prop :=
  users w' = users w /\ products w' = products w /\ clock w' = clock w.

(** Two records that agree on every field but the timestamps.  Times
    are whole seconds here; in the source a model built in memory carries
    the clock's microseconds and a document read back from the store
    carries milliseconds, so a statement that compares the two leaves
    the timestamps out. *)
Definition same_account (u u' : AuthSchema) : Prop :=
  u_id u' = u_id u /\ u_email u' = u_email u
  /\ u_username u' = u_username u /\ u_full_name u' = u_full_name u
  /\ u_password u' = u_password u /\ u_is_active u' = u_is_active u.

Definition same_product (p p' : ProductSchema) : Prop :=
  p_id p' = p_id p /\ p_name p' = p_name p
  /\ p_description p' = p_description p /\ p_price p' = p_price p
  /\ p_stock p' = p_stock p /\ p_owner_id p' = p_owner_id p
  /\ p_is_active p' = p_is_active p.

(** A computation that writes to neither collection. *)
Definition read_only {A} (m : M A) : Prop :=
  forall w, same_data w (snd (m w)).

(** * Properties *)

(** ** The outcome monad *)

Lemma isinstance_Exception (e : exn) : isinstance e CException = true.
Proof. destruct e; reflexivity. Qed.

Lemma select_handler_Exception {A} (e : exn) (h : exn -> M A) rest :
  select_handler e (([CException], h) :: rest) = Some h.
Proof.
  cbn [select_handler isinstance_any existsb].
  rewrite isinstance_Exception. reflexivity.
Qed.

Lemma try_except_Exception {A} (m : M A) (h : exn -> M A) (w : World) :
  try_except m [([CException], h)] w =
  match m w with
  | (Ret a, w') => (Ret a, w')
  | (Raise e, w') => h e w'
  end.
Proof.
  unfold try_except. destruct (m w) as [[a | e] w']; [reflexivity |].
  rewrite select_handler_Exception. reflexivity.
Qed.

(** ** Identity resolution *)

Lemma get_current_user_cases (env : Env) (token : string) (w : World) :
  fst (Permissions.get_current_user env token w) =
  match Password.decode_token env token w with
  | (Raise _, _) => Raise Permissions.credentials_exception
  | (Ret user_id, w1) =>
      if truthy user_id && ObjectId.is_valid user_id
      then match fst (UserService.get_user_by_id
                        (UserService.as_text user_id) w1) with
           | Ret (Some u) => Ret u
           | _ => Raise Permissions.credentials_exception
           end
      else Raise Permissions.credentials_exception
  end.
Proof.
  unfold Permissions.get_current_user. rewrite try_except_Exception.
  unfold bind at 1.
  destruct (Password.decode_token env token w) as [[v | e] w1];
    [| reflexivity].
  destruct (truthy v); [| reflexivity].
  destruct (ObjectId.is_valid v); [| reflexivity].
  simpl. unfold bind.
  destruct (UserService.get_user_by_id (UserService.as_text v) w1)
    as [[[u |] | e] w2]; reflexivity.
Qed.

(** C2.  For every token and every state of the world,
    [get_current_user] returns a user record or raises the one generic
    401 "Could not validate credentials": it does so when the token is
    rejected for whatever reason, when the subject is falsy or not a
    valid ObjectId, when the lookup finds nobody, and when the lookup
    itself raises; no other exception leaves the function. *)
Theorem get_current_user_user_or_unauthorized (env : Env) (token : string)
  (w : World) :
  ((exists u, fst (Permissions.get_current_user env token w) = Ret u)
   \/ fst (Permissions.get_current_user env token w)
      = Raise (HTTPException 401 "Could not validate credentials" true))
  /\ fst (Permissions.get_current_user env token w) =
     match Password.decode_token env token w with
     | (Raise _, _) =>
         Raise (HTTPException 401 "Could not validate credentials" true)
     | (Ret user_id, w1) =>
         if truthy user_id && ObjectId.is_valid user_id
         then match fst (UserService.get_user_by_id
                           (UserService.as_text user_id) w1) with
              | Ret (Some u) => Ret u
              | _ => Raise (HTTPException 401 "Could not validate credentials"
                              true)
              end
         else Raise (HTTPException 401 "Could not validate credentials" true)
     end.
Proof.
  split; [| apply get_current_user_cases].
  rewrite get_current_user_cases.
  destruct (Password.decode_token env token w) as [[v | e] w1];
    [| right; reflexivity].
  destruct (truthy v && ObjectId.is_valid v); [| right; reflexivity].
  destruct (fst (UserService.get_user_by_id (UserService.as_text v) w1))
    as [[u |] | e]; [left; eauto | right; reflexivity ..].
Qed.

(** ** Ownership *)

Lemma round_trip_data (w : World) :
  users (snd (Mongo.round_trip w)) = users w
  /\ products (snd (Mongo.round_trip w)) = products w
  /\ clock (snd (Mongo.round_trip w)) = clock w.
Proof.
  unfold Mongo.round_trip. destruct (db_faults w) as [| [|] fs]; simpl; auto.
Qed.

(** A clause that only raises another exception leaves the state alone. *)
Lemma try_except_raise_state {A} (m : M A) (cs : list cls) (f : exn -> exn)
  (w : World) :
  snd (try_except m [(cs, fun e => raise (f e))] w) = snd (m w).
Proof.
  unfold try_except. destruct (m w) as [[a | e] w']; [reflexivity |].
  cbn [select_handler]. destruct (isinstance_any e cs); reflexivity.
Qed.

Lemma found_state (env : Env) (r : option Doc) (w : World) :
  snd (ProductService.found env r w) = w.
Proof.
  destruct r as [doc |]; [| reflexivity].
  unfold ProductService.found, ProductService.to_schema, bind, utcnow, lift, ret.
  destruct (ProductSchema_validate _ _ _); reflexivity.
Qed.

(** A lookup of a product leaves both collections as they were. *)
Lemma get_product_by_id_state (env : Env) (pid : string) (w : World) :
  let w1 := snd (ProductService.get_product_by_id env pid w) in
  products w1 = products w /\ users w1 = users w /\ clock w1 = clock w.
Proof.
  unfold ProductService.get_product_by_id.
  rewrite try_except_raise_state.
  unfold bind at 1, lift.
  destruct (ObjectId.make pid) as [oid | e]; [| simpl; auto].
  unfold Mongo.products_find_one, bind.
  pose proof (round_trip_data w) as (Hu & Hp & Hc).
  destruct (Mongo.round_trip w) as [[[] | e] w']; simpl in *; [| auto].
  rewrite found_state. auto.
Qed.

Lemma get_product_by_id_data (env : Env) (pid : string) (w w1 : World)
  (r : outcome (option ProductSchema)) :
  ProductService.get_product_by_id env pid w = (r, w1) ->
  products w1 = products w /\ users w1 = users w.
Proof.
  intros H. pose proof (get_product_by_id_state env pid w) as (Hp & Hu & _).
  rewrite H in Hp, Hu. auto.
Qed.

Lemma get_product_by_id_valid (env : Env) (pid : string) (w w1 : World)
  (r : option ProductSchema) :
  ProductService.get_product_by_id env pid w = (Ret r, w1) ->
  ObjectId.is_valid_str pid = true.
Proof.
  unfold ProductService.get_product_by_id, try_except, bind, lift,
    ObjectId.make.
  destruct (ObjectId.is_valid_str pid); [reflexivity |].
  simpl. unfold raise. discriminate.
Qed.

(** C1.  Whatever the mutation (PUT, PATCH or DELETE) and whoever the
    authenticated user, once the product has been fetched: if its owner
    is not the user the route raises 403 and both collections are as they
    were before the request; if its owner is the user the route goes on
    with the statements after the check, from a state whose collections
    are still untouched.  The comparison thus comes before the write. *)
Theorem ownership_checked_before_mutation (env : Env) (op : mutation)
  (product_id : string) (current_user : AuthSchema) (w w1 : World)
  (product : ProductSchema) :
  ProductService.get_product_by_id env product_id w = (Ret (Some product), w1) ->
  products w1 = products w
  /\ (p_owner_id product <> u_id current_user ->
      handle env op product_id current_user w
      = (Raise (HTTPException 403
                  ("You do not have permission to " ++ verb op ++ " this product")
                  false), w1))
  /\ (p_owner_id product = u_id current_user ->
      handle env op product_id current_user w = mutate env op product_id w1).
Proof.
  intros Hget.
  pose proof (get_product_by_id_data _ _ _ _ _ Hget) as [Hp _].
  pose proof (get_product_by_id_valid _ _ _ _ _ Hget) as Hvalid.
  split; [exact Hp |].
  split; intros Hown.
  - apply String.eqb_neq in Hown.
    destruct op; simpl;
      unfold Crud.update_product, Crud.partial_update_product,
        Crud.delete_product;
      rewrite Hvalid; simpl; unfold bind at 1; rewrite Hget, Hown;
      reflexivity.
  - apply String.eqb_eq in Hown.
    destruct op; simpl;
      unfold Crud.update_product, Crud.partial_update_product,
        Crud.delete_product;
      rewrite Hvalid; simpl; unfold bind at 1; rewrite Hget, Hown;
      reflexivity.
Qed.

Lemma ownership_checked_before_mutation_witness :
  ProductService.get_product_by_id Demo.env Scenario.widget_id Scenario.world
  = (Ret (Some (mkProduct "widget" None 999 (Some 0) (Some Scenario.widget_id)
                  Scenario.alice_id true 1000 1000)), Scenario.world)
  /\ handle Demo.env (Patch {[ "name" := VStr "gadget" ]}) Scenario.widget_id
       Scenario.mallory Scenario.world
     = (Raise (HTTPException 403
                 "You do not have permission to update this product" false),
        Scenario.world)
  /\ handle Demo.env Delete Scenario.widget_id Scenario.alice Scenario.world
     = mutate Demo.env Delete Scenario.widget_id Scenario.world.
Proof.
  assert (H : ProductService.get_product_by_id Demo.env Scenario.widget_id
                Scenario.world
              = (Ret (Some (mkProduct "widget" None 999 (Some 0)
                              (Some Scenario.widget_id) Scenario.alice_id
                              true 1000 1000)), Scenario.world))
    by (vm_compute; reflexivity).
  split; [exact H |]. split.
  - apply (ownership_checked_before_mutation Demo.env
             (Patch {[ "name" := VStr "gadget" ]}) _ Scenario.mallory _ _ _ H).
    simpl. discriminate.
  - apply (ownership_checked_before_mutation Demo.env Delete _
             Scenario.alice _ _ _ H).
    reflexivity.
Defined.

(** ** Connectivity failures during identity resolution *)

(** C9, at a failing input.  With a valid token of alice's and a database
    that times out on the next call, [get_user_by_id] raises the 500 it
    builds for driver errors, and so does the login path; but
    [get_current_user], the only caller of [get_user_by_id], replaces it
    by the 401 of a bad token. *)
Theorem connectivity_failure_reported_as_unauthorized :
  fst (UserService.get_user_by_id Scenario.alice_id Scenario.world_db_down)
  = Raise (HTTPException 500
             "Error fetching user by ID: ServerSelectionTimeoutError" false)
  /\ fst (UserService.authenticate_user Demo.env "alice" "secret"
            Scenario.world_db_down)
     = Raise (HTTPException 500
                "Error fetching user by email: ServerSelectionTimeoutError" false)
  /\ fst (Permissions.get_current_user Demo.env Scenario.alice_token
            Scenario.world)
     = Ret Scenario.alice
  /\ fst (Permissions.get_current_user Demo.env Scenario.alice_token
            Scenario.world_db_down)
     = Raise (HTTPException 401 "Could not validate credentials" true).
Proof. repeat split; vm_compute; reflexivity. Qed.

(** ** Partial update *)

Lemma select_handler_In {A} (e : exn) (clauses : list (list cls * (exn -> M A)))
  (h : exn -> M A) :
  select_handler e clauses = Some h -> exists cs, In (cs, h) clauses.
Proof.
  induction clauses as [| [cs h'] rest IH]; simpl; [discriminate |].
  destruct (isinstance_any e cs).
  - intros [= ->]. eauto.
  - intros H. destruct (IH H) as [cs' Hin]. eauto.
Qed.

(** Handlers that leave the state alone make [try ... except] leave it as
    its body left it. *)
Lemma try_except_state {A} (m : M A) (clauses : list (list cls * (exn -> M A)))
  (w : World) :
  (forall cs h e w', In (cs, h) clauses -> snd (h e w') = w') ->
  snd (try_except m clauses w) = snd (m w).
Proof.
  intros Hh. unfold try_except. destruct (m w) as [[a | e] w']; [reflexivity |].
  destruct (select_handler e clauses) as [h |] eqn:Hsel; [| reflexivity].
  destruct (select_handler_In _ _ _ Hsel) as [cs Hin]. simpl. eauto.
Qed.

Lemma route_handlers_state {A} (cs : list cls) (h : exn -> M (reply A))
  (e : exn) (w : World) :
  In (cs, h) (@Crud.route_handlers A) -> snd (h e w) = w.
Proof. intros [[= <- <-] | [[= <- <-] | []]]; reflexivity. Qed.

Lemma update_first_split (filter : Doc -> bool) (f : Doc -> outcome Doc)
  (pre post : list Doc) (doc doc' : Doc) :
  Forall (fun d => filter d = false) pre ->
  filter doc = true ->
  f doc = Ret doc' ->
  Mongo.update_first filter f (pre ++ doc :: post)%list
  = Ret (Some doc', (pre ++ doc' :: post)%list).
Proof.
  intros Hpre Hdoc Hf. induction Hpre as [| d pre Hd _ IH]; simpl.
  - rewrite Hdoc, Hf. reflexivity.
  - rewrite Hd, IH. reflexivity.
Qed.

Lemma plain_update_insert (k : string) (v : Value) (update : Doc) :
  Mongo.plain_key k = true ->
  Mongo.plain_update update = true ->
  Mongo.plain_update (<[k := v]> update) = true.
Proof.
  unfold Mongo.plain_update. rewrite !bool_decide_eq_true.
  intros Hk Hu. apply map_Forall_insert_2; assumption.
Qed.

Lemma price_to_float_json (update : Doc) :
  (forall h, update !! "price" <> Some (VDecimal h)) ->
  ProductService.price_to_float update = update.
Proof.
  intros H. unfold ProductService.price_to_float.
  destruct (update !! "price") as [[] |] eqn:E; try reflexivity.
  exfalso. eapply H. reflexivity.
Qed.

(** The state the PATCH service leaves, for a well-formed request on a
    stored product and a database that answers. *)
Lemma partial_update_product_state (env : Env) (product_id : string)
  (update_data : Doc) (w : World) (pre post : list Doc) (doc : Doc) :
  ObjectId.is_valid_str product_id = true ->
  products w = (pre ++ doc :: post)%list ->
  Forall (fun d => Mongo.has_id (ObjectId.binary product_id) d = false) pre ->
  Mongo.has_id (ObjectId.binary product_id) doc = true ->
  update_data <> ∅ ->
  Mongo.plain_update update_data = true ->
  (forall h, update_data !! "price" <> Some (VDecimal h)) ->
  head (db_faults w) <> Some true ->
  products (snd (ProductService.partial_update_product env product_id
                   update_data w))
  = (pre ++ (<["updated_at" := VTime (clock w)]> update_data ∪ doc) :: post)%list.
Proof.
  intros Hvalid Hprod Hpre Hdoc Hne Hplain Hjson Hdb.
  unfold ProductService.partial_update_product.
  rewrite try_except_raise_state, Hvalid. simpl negb. cbv iota.
  rewrite bool_decide_eq_false_2 by assumption.
  rewrite price_to_float_json by assumption.
  unfold bind at 1, utcnow. unfold bind at 1, lift, ObjectId.make.
  rewrite Hvalid. cbn [negb]. cbv beta iota.
  unfold Mongo.products_find_one_and_update, bind.
  assert (Hrt : exists w', Mongo.round_trip w = (Ret tt, w')
                           /\ products w' = products w).
  { unfold Mongo.round_trip. destruct (db_faults w) as [| [|] fs]; simpl in *.
    - eauto.
    - congruence.
    - eauto. }
  destruct Hrt as (w' & -> & Hw').
  rewrite Hw', Hprod.
  rewrite (update_first_split _ _ pre post doc
             (<["updated_at" := VTime (clock w)]> update_data ∪ doc));
    [| assumption | assumption |].
  - rewrite found_state. reflexivity.
  - unfold Mongo.apply_set.
    rewrite plain_update_insert; [reflexivity | reflexivity | assumption].
Qed.

Lemma updated_state (m : M (option ProductSchema)) (w : World) :
  snd ((updated_product <- m ;; Crud.updated updated_product) w) = snd (m w).
Proof.
  unfold bind. destruct (m w) as [[[p |] | e] w']; reflexivity.
Qed.

(** C10.  PATCH by the owner of a stored product, with a non-empty JSON
    body whose keys name top-level fields and a database that answers:
    the stored document becomes the body's pairs, with [updated_at] set
    to the current time, laid over the old document.  Every pair of the
    body is written, whatever its key, and the fields the body does not
    name are kept; so a body with an [owner_id] key replaces the stored
    owner, although the ownership check was made against the old one. *)
Theorem patch_writes_every_supplied_field (env : Env) (product_id : string)
  (update_data : Doc) (current_user : AuthSchema) (w w1 : World)
  (pre post : list Doc) (doc : Doc) (product : ProductSchema) :
  ProductService.get_product_by_id env product_id w = (Ret (Some product), w1) ->
  p_owner_id product = u_id current_user ->
  products w = (pre ++ doc :: post)%list ->
  Forall (fun d => Mongo.has_id (ObjectId.binary product_id) d = false) pre ->
  Mongo.has_id (ObjectId.binary product_id) doc = true ->
  update_data <> ∅ ->
  Mongo.plain_update update_data = true ->
  (forall h, update_data !! "price" <> Some (VDecimal h)) ->
  head (db_faults w1) <> Some true ->
  let doc' := <["updated_at" := VTime (clock w)]> update_data ∪ doc in
  products (snd (Crud.partial_update_product env product_id update_data
                   current_user w))
  = (pre ++ doc' :: post)%list
  /\ doc' !! "updated_at" = Some (VTime (clock w))
  /\ (forall k v, k <> "updated_at" -> update_data !! k = Some v ->
                  doc' !! k = Some v)
  /\ (forall k, k <> "updated_at" -> update_data !! k = None ->
                doc' !! k = doc !! k)
  /\ (forall v, update_data !! "owner_id" = Some v ->
                doc' !! "owner_id" = Some v).
Proof.
  intros Hget Hown Hprod Hpre Hdoc Hne Hplain Hjson Hdb doc'.
  pose proof (get_product_by_id_valid _ _ _ _ _ Hget) as Hvalid.
  pose proof (get_product_by_id_state env product_id w) as (Hp1 & _ & Hc1).
  rewrite Hget in Hp1, Hc1. simpl in Hp1, Hc1.
  assert (Hk : forall k v, k <> "updated_at" -> update_data !! k = Some v ->
                           doc' !! k = Some v).
  { intros k v Hk Hv. unfold doc'.
    apply lookup_union_Some_l. rewrite lookup_insert_ne by congruence.
    exact Hv. }
  repeat split.
  - unfold Crud.partial_update_product. rewrite Hvalid. cbn [negb].
    unfold bind at 1. rewrite Hget.
    apply String.eqb_eq in Hown. rewrite Hown. cbn [negb].
    rewrite try_except_state by (intros; eapply route_handlers_state; eauto).
    rewrite updated_state.
    rewrite (partial_update_product_state env product_id update_data w1
               pre post doc); try assumption; [| congruence].
    rewrite Hc1. reflexivity.
  - unfold doc'. apply lookup_union_Some_l. apply lookup_insert_eq.
  - exact Hk.
  - intros k Hk' Hnone. unfold doc'.
    apply lookup_union_r. rewrite lookup_insert_ne by congruence. exact Hnone.
  - intros v Hv. apply Hk; [discriminate | exact Hv].
Qed.

Lemma patch_writes_every_supplied_field_witness :
  let body : Doc := {[ "owner_id" := VStr Scenario.mallory_id ]} in
  let w2 := snd (Crud.partial_update_product Demo.env Scenario.widget_id body
                   Scenario.alice Scenario.world) in
  products w2
  = [ <["updated_at" := VTime 2000]> body ∪ Scenario.widget ]
  /\ (<["updated_at" := VTime 2000]> body ∪ Scenario.widget) !! "owner_id"
     = Some (VStr Scenario.mallory_id)
  /\ Scenario.widget !! "owner_id" = Some (VStr Scenario.alice_id).
Proof.
  intros body w2.
  destruct (patch_writes_every_supplied_field Demo.env Scenario.widget_id body
              Scenario.alice Scenario.world Scenario.world [] [] Scenario.widget
              (mkProduct "widget" None 999 (Some 0) (Some Scenario.widget_id)
                 Scenario.alice_id true 1000 1000))
    as (Hproducts & _ & _ & _ & Howner).
  - vm_compute. reflexivity.
  - reflexivity.
  - reflexivity.
  - constructor.
  - vm_compute. reflexivity.
  - vm_compute. discriminate.
  - vm_compute. reflexivity.
  - intros h. vm_compute. discriminate.
  - simpl. discriminate.
  - split; [exact Hproducts |]. split; [| vm_compute; reflexivity].
    apply Howner. vm_compute. reflexivity.
Defined.

(** ** Registration *)

Lemma round_trip_ok (w : World) :
  head (db_faults w) <> Some true ->
  exists w', Mongo.round_trip w = (Ret tt, w') /\ users w' = users w
             /\ products w' = products w /\ clock w' = clock w
             /\ entropy w' = entropy w /\ oid_counter w' = oid_counter w.
Proof.
  intros H. unfold Mongo.round_trip.
  destruct (db_faults w) as [| [|] fs]; simpl in *; [| congruence |];
    eexists; repeat split.
Qed.

Lemma check_if_user_exists_first_match (username email : string) (w : World) :
  head (db_faults w) <> Some true ->
  fst (UserService.check_if_user_exists username email true w) =
  match find (collides username email) (users w) with
  | Some u =>
      if String.eqb (u_username u) username
      then Raise username_taken else Raise email_taken
  | None => Ret false
  end.
Proof.
  intros Hdb. destruct (round_trip_ok w Hdb) as (w' & Hrt & Hu & _).
  unfold UserService.check_if_user_exists, Mongo.users_find_one, bind.
  rewrite Hrt, Hu. fold (collides username email).
  destruct (find (collides username email) (users w)) as [u |] eqn:Hfind;
    [| reflexivity].
  apply find_some in Hfind as [_ Hc]. unfold collides in Hc.
  destruct (String.eqb (u_username u) username); [reflexivity |].
  simpl in Hc. rewrite Hc. reflexivity.
Qed.

Lemma register_check_raises (env : Env) (data : CreateUserSchema) (w : World)
  (e : exn) :
  fst (UserService.check_if_user_exists (c_username data) (c_email data) true w)
  = Raise e ->
  fst (UserRoutes.register env data w) = Raise e.
Proof.
  unfold UserRoutes.register, bind.
  destruct (UserService.check_if_user_exists _ _ _ w) as [[b | e'] w'];
    simpl; [discriminate | intros [= ->]; reflexivity].
Qed.

(** C5, as the code has it.  With a database that answers, registration
    is decided by one record: the first, in scan order, that has the
    candidate's username or email.  If that record has the username the
    request fails with "Username already exists." (also when the email
    matches too); otherwise it fails with "Email already exists.".  When
    no record has the username and some record has the email the answer
    is therefore "Email already exists."; when no record has either, the
    check returns [False] and registration goes on. *)
Theorem register_decided_by_first_match (env : Env) (data : CreateUserSchema)
  (w : World) :
  head (db_faults w) <> Some true ->
  match find (collides (c_username data) (c_email data)) (users w) with
  | Some u =>
      fst (UserRoutes.register env data w)
      = Raise (if String.eqb (u_username u) (c_username data)
               then username_taken else email_taken)
  | None =>
      fst (UserService.check_if_user_exists
             (c_username data) (c_email data) true w) = Ret false
  end
  /\ ((forall u, In u (users w) -> u_username u <> c_username data) ->
      (exists u, In u (users w) /\ u_email u = c_email data) ->
      fst (UserRoutes.register env data w) = Raise email_taken)
  /\ ((forall u, In u (users w) ->
                 u_username u <> c_username data /\ u_email u <> c_email data) ->
      fst (UserService.check_if_user_exists
             (c_username data) (c_email data) true w) = Ret false).
Proof.
  intros Hdb.
  pose proof (check_if_user_exists_first_match
                (c_username data) (c_email data) w Hdb) as Hchk.
  repeat split.
  - destruct (find _ (users w)) as [u |]; [| exact Hchk].
    apply register_check_raises. rewrite Hchk.
    destruct (String.eqb (u_username u) (c_username data)); reflexivity.
  - intros Hname (u & Hin & Hmail).
    apply register_check_raises. rewrite Hchk.
    destruct (find _ (users w)) as [u' |] eqn:Hfind.
    + apply find_some in Hfind as [Hin' _].
      apply Hname, String.eqb_neq in Hin'. rewrite Hin'. reflexivity.
    + pose proof (find_none _ _ Hfind u Hin) as Hc. unfold collides in Hc.
      apply String.eqb_eq in Hmail. rewrite Hmail, orb_true_r in Hc.
      discriminate.
  - intros Hnone. rewrite Hchk.
    destruct (find _ (users w)) as [u |] eqn:Hfind; [| reflexivity].
    apply find_some in Hfind as [Hin Hc]. unfold collides in Hc.
    destruct (Hnone u Hin) as [Hn He].
    apply String.eqb_neq in Hn, He. rewrite Hn, He in Hc. discriminate.
Qed.

Lemma register_decided_by_first_match_witness :
  fst (UserRoutes.register Demo.env
         (mkCandidate "b@x.com" "alice" "Alice B." "secret") Scenario.world)
  = Raise username_taken
  /\ fst (UserRoutes.register Demo.env
            (mkCandidate "a@x.com" "bob" "Bob" "secret") Scenario.world)
     = Raise email_taken
  /\ fst (UserService.check_if_user_exists "bob" "b@x.com" true Scenario.world)
     = Ret false.
Proof.
  assert (Hdb : head (db_faults Scenario.world) <> Some true)
    by (simpl; discriminate).
  split; [| split].
  - exact (proj1 (register_decided_by_first_match Demo.env
                    (mkCandidate "b@x.com" "alice" "Alice B." "secret")
                    Scenario.world Hdb)).
  - exact (proj1 (register_decided_by_first_match Demo.env
                    (mkCandidate "a@x.com" "bob" "Bob" "secret")
                    Scenario.world Hdb)).
  - exact (proj1 (register_decided_by_first_match Demo.env
                    (mkCandidate "b@x.com" "bob" "Bob" "secret")
                    Scenario.world Hdb)).
Defined.

(** C5 as stated fails: a record of the store has the candidate's
    username, yet registration answers "Email already exists.", because
    the record the lookup returns is an earlier one that shares the
    email only. *)
Lemma username_collision_reported_as_email_taken :
  In Scenario.alice_elsewhere (users Scenario.world_two_collisions)
  /\ u_username Scenario.alice_elsewhere = c_username Scenario.candidate
  /\ fst (UserRoutes.register Demo.env Scenario.candidate
            Scenario.world_two_collisions)
     = Raise (HTTPException 400 "Email already exists." false)
  /\ fst (UserRoutes.register Demo.env Scenario.candidate
            Scenario.world_two_collisions)
     <> Raise (HTTPException 400 "Username already exists." false).
Proof.
  split; [right; left; reflexivity |]. split; [reflexivity |].
  split; [vm_compute; reflexivity | vm_compute; discriminate].
Qed.

(** ** Authentication *)

Lemma get_user_by_username_ok (username : string) (w : World) :
  head (db_faults w) <> Some true ->
  exists w',
    UserService.get_user_by_username username w
    = (Ret (find (fun u => String.eqb (u_username u) username) (users w)), w').
Proof.
  intros Hdb. destruct (round_trip_ok w Hdb) as (w' & Hrt & Hu & _).
  exists w'.
  unfold UserService.get_user_by_username, try_except, Mongo.users_find_one,
    bind.
  rewrite Hrt, Hu. reflexivity.
Qed.






(** ** The subject of a token *)






(** ** Issuing and checking tokens *)

Lemma create_access_token_claims (env : Env) (sub : string)
  (expires_delta : option Z) (w : World) :
  Password.create_access_token env {[ "sub" := VStr sub ]} expires_delta w
  = (Ret (Jwt.jws_encode (jwt env)
            (issued_claims sub (clock w)
               (Password.token_lifetime env expires_delta))
            (SECRET_KEY (settings env))), w).
Proof.
  unfold Password.create_access_token, bind, utcnow, ret, Jwt.encode,
    issued_claims.
  (* the keys are literals: both maps compute to the same tree *)
  reflexivity.
Qed.

(** A token whose claims are [issued_claims sub now lifetime] is accepted
    strictly before [now + lifetime] and refused as expired from then on. *)
Lemma issued_claims_checked (lib : Jwt.JwtLib) (sub : string)
  (now lifetime t : Z) :
  Jwt.validate_claims lib (issued_claims sub now lifetime) t
  = if now + lifetime <=? t then Raise ExpiredSignatureError else Ret tt.
Proof.
  unfold Jwt.validate_claims, Jwt.validate_iat, Jwt.validate_nbf,
    Jwt.validate_exp, Jwt.validate_aud, Jwt.validate_sub, Jwt.validate_jti,
    Jwt.validate_str, Jwt.time_claim, issued_claims.
  rewrite lookup_insert_eq.
  rewrite !lookup_insert_ne by discriminate.
  rewrite lookup_singleton_eq.
  rewrite !lookup_singleton_ne by discriminate.
  cbn [Jwt.to_int Jwt.all_pass].
  destruct (now + lifetime <=? t); reflexivity.
Qed.

Lemma decode_token_expiry (env : Env) (token sub : string) (now lifetime : Z)
  (w : World) :
  Jwt.jws_decode (jwt env) token (SECRET_KEY (settings env))
  = Ret (issued_claims sub now lifetime) ->
  fst (Password.decode_token env token w)
  = if now + lifetime <=? clock w
    then Raise (HTTPException 401 "Token has expired" false)
    else Ret (VStr sub).
Proof.
  intros Hjws.
  unfold Password.decode_token, try_except, bind, utcnow, lift, Jwt.decode.
  rewrite Hjws, issued_claims_checked.
  destruct (now + lifetime <=? clock w); [reflexivity |].
  unfold Password.payload_get, issued_claims.
  rewrite lookup_insert_ne by discriminate. rewrite lookup_singleton_eq.
  reflexivity.
Qed.

(** The part of C7 the code satisfies: with an explicit lifetime other
    than zero, or with none (the configured minutes then apply), the
    token carries exactly [sub] and [exp = now + lifetime]; provided the
    library reads back what it signed, [decode_token] returns the subject
    at any time before [exp] and raises "Token has expired" at [exp] and
    after. *)
Lemma issued_token_valid_until_expiry (env : Env) (sub : string)
  (expires_delta : option Z) (w : World) (t : Z) :
  expires_delta <> Some 0 ->
  let lifetime :=
    match expires_delta with
    | Some T => T
    | None => 60 * ACCESS_TOKEN_EXPIRE_MINUTES (settings env)
    end in
  let token :=
    Jwt.jws_encode (jwt env) (issued_claims sub (clock w) lifetime)
      (SECRET_KEY (settings env)) in
  Jwt.jws_decode (jwt env) token (SECRET_KEY (settings env))
  = Ret (issued_claims sub (clock w) lifetime) ->
  Password.create_access_token env {[ "sub" := VStr sub ]} expires_delta w
  = (Ret token, w)
  /\ (t < clock w + lifetime ->
      fst (Password.decode_token env token (at_time t w)) = Ret (VStr sub))
  /\ (clock w + lifetime <= t ->
      fst (Password.decode_token env token (at_time t w))
      = Raise (HTTPException 401 "Token has expired" false)).
Proof.
  intros Hnz lifetime token Hrt.
  assert (Hlife : Password.token_lifetime env expires_delta = lifetime).
  { unfold Password.token_lifetime, lifetime, Password.timedelta_truthy,
      Password.timedelta_minutes.
    destruct expires_delta as [T |]; [| lia].
    destruct (Z.eqb_spec T 0) as [-> | _]; [congruence | reflexivity]. }
  split; [| split].
  - rewrite create_access_token_claims, Hlife. reflexivity.
  - intros Hlt. rewrite (decode_token_expiry env token sub _ _ _ Hrt).
    simpl clock. destruct (Z.leb_spec (clock w + lifetime) t); [lia | reflexivity].
  - intros Hge. rewrite (decode_token_expiry env token sub _ _ _ Hrt).
    simpl clock. destruct (Z.leb_spec (clock w + lifetime) t); [reflexivity | lia].
Qed.

Lemma issued_token_valid_until_expiry_example :
  Password.create_access_token Demo.env {[ "sub" := VStr Scenario.alice_id ]}
    (Some 90) Scenario.world
  = (Ret Scenario.short_token, Scenario.world)
  /\ fst (Password.decode_token Demo.env Scenario.short_token
            (at_time 2089 Scenario.world)) = Ret (VStr Scenario.alice_id)
  /\ fst (Password.decode_token Demo.env Scenario.short_token
            (at_time 2090 Scenario.world))
     = Raise (HTTPException 401 "Token has expired" false).
Proof.
  assert (Hnz : Some 90 <> Some 0) by discriminate.
  assert (Hrt : Jwt.jws_decode (jwt Demo.env) Scenario.short_token
                  (SECRET_KEY (settings Demo.env))
                = Ret (issued_claims Scenario.alice_id
                         (clock Scenario.world) 90))
    by (vm_compute; reflexivity).
  destruct (issued_token_valid_until_expiry Demo.env Scenario.alice_id
              (Some 90) Scenario.world 2089 Hnz Hrt) as (Hissue & Hbefore & _).
  destruct (issued_token_valid_until_expiry Demo.env Scenario.alice_id
              (Some 90) Scenario.world 2090 Hnz Hrt) as (_ & _ & Hafter).
  split; [exact Hissue |]. split.
  - apply Hbefore. reflexivity.
  - apply Hafter. discriminate.
Defined.

(** C7, at a failing input.  Asked for a lifetime of zero,
    [create_access_token] takes the zero duration for an absent one: the
    token expires an hour later ([exp = 2000 + 3600]), and a check made
    at the time of issue, which is at [now + 0], returns the subject
    instead of raising "Token has expired". *)
Theorem zero_lifetime_replaced_by_default :
  (forall env, Password.token_lifetime env (Some 0)
               = 60 * ACCESS_TOKEN_EXPIRE_MINUTES (settings env))
  /\ Password.create_access_token Demo.env
       {[ "sub" := VStr Scenario.alice_id ]} (Some 0) Scenario.world
     = (Ret (Jwt.jws_encode Demo.jwt
               (issued_claims Scenario.alice_id 2000 3600)
               (SECRET_KEY Demo.settings)), Scenario.world)
  /\ fst (Password.decode_token Demo.env Scenario.zero_ttl_token
            (at_time 2000 Scenario.world))
     = Ret (VStr Scenario.alice_id).
Proof.
  split; [| split].
  - intros env. unfold Password.token_lifetime, Password.timedelta_truthy,
      Password.timedelta_minutes. simpl. lia.
  - rewrite create_access_token_claims. reflexivity.
  - vm_compute. reflexivity.
Qed.

(** ** A stored value that is not a hash *)




(** * Further properties *)

(** ** Registration keeps accounts unique *)

Lemma round_trip_frame (w : World) :
  users (snd (Mongo.round_trip w)) = users w
  /\ products (snd (Mongo.round_trip w)) = products w
  /\ clock (snd (Mongo.round_trip w)) = clock w
  /\ entropy (snd (Mongo.round_trip w)) = entropy w
  /\ oid_counter (snd (Mongo.round_trip w)) = oid_counter w.
Proof.
  unfold Mongo.round_trip.
  destruct (db_faults w) as [| [|] fs]; simpl; auto.
Qed.

Lemma users_find_one_result (filter : AuthSchema -> bool) (w : World) :
  users (snd (Mongo.users_find_one filter w)) = users w
  /\ products (snd (Mongo.users_find_one filter w)) = products w
  /\ clock (snd (Mongo.users_find_one filter w)) = clock w
  /\ (forall r, fst (Mongo.users_find_one filter w) = Ret r ->
                r = find filter (users w)).
Proof.
  unfold Mongo.users_find_one, bind.
  pose proof (round_trip_frame w) as (Hu & Hp & Hc & _).
  destruct (Mongo.round_trip w) as [[[] | e] w']; simpl in *.
  - split; [auto | split; [auto | split; [auto |]]].
    intros r [= <-]. rewrite Hu. reflexivity.
  - split; [auto | split; [auto | split; [auto | discriminate]]].
Qed.

Lemma check_if_user_exists_result (username email : string) (is_raise : bool)
  (w : World) :
  users (snd (UserService.check_if_user_exists username email is_raise w))
  = users w
  /\ products (snd (UserService.check_if_user_exists username email is_raise w))
     = products w
  /\ (forall b,
        fst (UserService.check_if_user_exists username email is_raise w) = Ret b ->
        b = false /\ find (collides username email) (users w) = None).
Proof.
  unfold UserService.check_if_user_exists, bind.
  fold (collides username email).
  pose proof (users_find_one_result (collides username email) w)
    as (Hu & Hp & _ & Hr).
  destruct (Mongo.users_find_one (collides username email) w)
    as [[r | e] w']; simpl in *;
    [| split; [auto | split; [auto | discriminate]]].
  specialize (Hr r eq_refl). subst r.
  destruct (find (collides username email) (users w)) as [u |] eqn:Hfind.
  - apply find_some in Hfind as [_ Hc]. unfold collides in Hc.
    destruct (String.eqb (u_username u) username).
    + destruct is_raise; simpl;
        (split; [auto | split; [auto | discriminate]]).
    + simpl in Hc. rewrite Hc.
      destruct is_raise; simpl;
        (split; [auto | split; [auto | discriminate]]).
  - simpl. split; [auto | split; [auto |]]. intros b [= <-]. auto.
Qed.

Lemma get_password_hash_frame (env : Env) (password : string) (w : World) :
  let r := Password.get_password_hash env password w in
  users (snd r) = users w /\ products (snd r) = products w
  /\ clock (snd r) = clock w
  /\ db_faults (snd r) = db_faults w /\ oid_counter (snd r) = oid_counter w
  /\ exists n, fst r = Passlib.hash (pwd_context env) n password.
Proof.
  unfold Password.get_password_hash, bind, urandom, lift.
  destruct (entropy w) as [| n es]; cbv beta iota zeta;
    match goal with
    | |- context [Passlib.hash ?c ?n ?p] =>
        destruct (Passlib.hash c n p) eqn:E
    end; cbn; rewrite <- ?E; eauto 10.
Qed.

Lemma users_insert_one_result (doc : string -> AuthSchema) (w : World) :
  let r := Mongo.users_insert_one doc w in
  products (snd r) = products w
  /\ clock (snd r) = clock w
  /\ ((exists e, fst r = Raise e /\ users (snd r) = users w)
      \/ (exists oid, fst r = Ret oid
                      /\ users (snd r) = (users w ++ [doc oid])%list)).
Proof.
  unfold Mongo.users_insert_one, bind, Mongo.new_oid.
  pose proof (round_trip_frame w) as (Hu & Hp & Hc & _).
  destruct (Mongo.round_trip w) as [[[] | e] w']; cbn [fst snd] in *.
  - cbn. destruct (existsb _ (users w')); cbn; rewrite Hu; eauto 6.
  - eauto 6.
Qed.

(** [create_user] either raises a 500 and leaves the users as they were,
    or appends one record made of the candidate's fields and of a hash
    of the candidate's password, and returns it. *)
Lemma create_user_users (env : Env) (data : CreateUserSchema) (w : World) :
  let r := UserService.create_user env data w in
  products (snd r) = products w
  /\ ((users (snd r) = users w
       /\ exists detail, fst r = Raise (HTTPException 500 detail false))
      \/ exists u, users (snd r) = (users w ++ [u])%list
                   /\ u_username u = c_username data
                   /\ u_email u = c_email data
                   /\ u_full_name u = c_full_name data
                   /\ u_created_at u = clock w
                   /\ (exists n, Passlib.hash (pwd_context env) n
                                   (c_password data) = Ret (u_password u))
                   /\ fst r = Ret u).
Proof.
  unfold UserService.create_user, try_except, bind, utcnow, ret.
  pose proof (get_password_hash_frame env (c_password data) w)
    as (Hu1 & Hp1 & _ & _ & _ & n & Hn).
  destruct (Password.get_password_hash env (c_password data) w)
    as [[h | e] w1]; cbn [fst snd] in *.
  - match goal with
    | |- context [Mongo.users_insert_one ?d w1] =>
        pose proof (users_insert_one_result d w1) as (Hp2 & _ & Hins);
        destruct (Mongo.users_insert_one d w1) as [[oid | e] w2]
    end; cbn [fst snd] in *.
    + destruct Hins as [(e & [=] & _) | (oid' & [= <-] & Hu2)].
      split; [congruence |]. right. eexists.
      rewrite Hu2, Hu1. cbn. repeat split; eauto.
    + rewrite select_handler_Exception.
      destruct Hins as [(e' & _ & Hu2) | (oid' & [=] & _)].
      cbn. split; [congruence |]. left. split; [congruence | eauto].
  - rewrite select_handler_Exception. cbn. split; [auto |]. left. eauto.
Qed.

(** Both clauses of a route's [except] answer with a [JSONResponse] and
    leave the state alone. *)
Lemma route_handlers_catch {A} (e : exn) (w : World) :
  exists h : exn -> M (reply A),
    select_handler e
      [ ([CValidationError], fun e0 => ret (JSONResponse 422 (Py.str e0)));
        ([CException],
         fun e0 => ret (JSONResponse 500
                          ("Internal server error: " ++ Py.str e0))) ]
    = Some h
    /\ snd (h e w) = w
    /\ exists status detail, fst (h e w) = Ret (JSONResponse status detail)
                             /\ (status = 422 \/ status = 500)
                             /\ (status = 422 ->
                                 isinstance e CValidationError = true).
Proof.
  cbn [select_handler isinstance_any existsb].
  destruct (isinstance e CValidationError) eqn:Hv; cbn [orb].
  - eexists. split; [reflexivity |]. split; [reflexivity |].
    do 2 eexists. split; [reflexivity |]. auto.
  - rewrite isinstance_Exception. cbn [orb].
    eexists. split; [reflexivity |]. split; [reflexivity |].
    do 2 eexists. split; [reflexivity |]. split; [auto | discriminate].
Qed.

(** The three ways the register route ends: the check raises and nothing
    is written; the check passes, [create_user] fails and the route
    answers 500 with nothing written; the check passes and the new record
    is appended and returned. *)
Lemma register_users (env : Env) (data : CreateUserSchema) (w : World) :
  let r := UserRoutes.register env data w in
  products (snd r) = products w
  /\ ((users (snd r) = users w
       /\ ((exists e, fst r = Raise e
                      /\ fst (UserService.check_if_user_exists
                                (c_username data) (c_email data) true w)
                         = Raise e)
           \/ exists detail, fst r = Ret (JSONResponse 500 detail)))
      \/ (find (collides (c_username data) (c_email data)) (users w) = None
          /\ exists u, users (snd r) = (users w ++ [u])%list
                       /\ u_username u = c_username data
                       /\ u_email u = c_email data
                       /\ (exists n, Passlib.hash (pwd_context env) n
                                       (c_password data) = Ret (u_password u))
                       /\ fst r = Ret (Model u))).
Proof.
  cbv zeta. remember (UserRoutes.register env data w) as r eqn:Hr.
  unfold UserRoutes.register, bind, try_except in Hr.
  pose proof (check_if_user_exists_result (c_username data) (c_email data)
                true w) as (Hu & Hp & Hret).
  destruct (UserService.check_if_user_exists _ _ _ w) as [[b | e] w0];
    cbn [fst snd] in *; [| subst r; eauto 8].
  destruct (Hret b eq_refl) as [_ Hnone].
  pose proof (create_user_users env data w0) as (Hp1 & Hcase).
  destruct (UserService.create_user env data w0) as [[u | e] w1];
    cbn [fst snd] in *.
  - subst r. cbn. split; [congruence |].
    destruct Hcase
      as [[_ (d & [=])] | (u' & Hus & Hn & He & _ & _ & Hpw & [= <-])].
    right. split; [exact Hnone |]. exists u. rewrite Hus, Hu. auto.
  - destruct Hcase as [[Hus (d & [= ->])] | (u' & _ & _ & _ & _ & _ & _ & [=])].
    subst r. cbn. split; [congruence |]. left. split; [congruence |].
    right. eauto.
Qed.

Lemma register_among_alone (env : Env) (data : CreateUserSchema) (w : World) :
  UserRoutes.register_among env (fun w0 => w0) data w
  = UserRoutes.register env data w.
Proof.
  unfold UserRoutes.register_among, UserRoutes.register, bind.
  destruct (UserService.check_if_user_exists _ _ _ w) as [[b | e] w0];
    reflexivity.
Qed.

(** What the second half of the route does to the users: nothing, or
    one record more, with the candidate's username and email. *)
Lemma register_insert_users (env : Env) (data : CreateUserSchema) (w : World) :
  let r :=
    try_except
      (user <- UserService.create_user env data ;; ret (Model user))
      [ ([CValidationError],
         fun e => ret (JSONResponse 422 (Py.str e)));
        ([CException],
         fun e => ret (JSONResponse 500
                         ("Internal server error: " ++ Py.str e))) ] w in
  users (snd r) = users w
  \/ exists u, users (snd r) = (users w ++ [u])%list
               /\ u_username u = c_username data
               /\ u_email u = c_email data.
Proof.
  cbv zeta. unfold try_except, bind.
  pose proof (create_user_users env data w) as (_ & Hcase).
  destruct (UserService.create_user env data w) as [[u | e] w1];
    cbn [fst snd] in *.
  - destruct Hcase
      as [[_ (d & [=])] | (u' & Hus & Hn & He & _ & _ & _ & [= <-])].
    right. exists u. auto.
  - destruct Hcase as [[Hus _] | (u' & _ & _ & _ & _ & _ & _ & [=])].
    destruct (@route_handlers_catch AuthSchema e w1)
      as (h & Hsel & Hst & _).
    rewrite Hsel, Hst. left. exact Hus.
Qed.

(** X1.  Registration keeps the store free of duplicates, as far as the
    requests around it let it.  The route awaits between its check and
    its insert.  If no two records share a username and no two an email
    before a call, and if what other requests do between the check and
    the insert keeps this so and adds no record with the candidate's
    username or email, then the same holds after the call, whatever the
    candidate, the answers of the database and the outcome of the call.
    A call that nothing interleaves with is the case where [others]
    changes nothing. *)
Theorem register_keeps_accounts_unique (env : Env) (data : CreateUserSchema)
  (others : World -> World) (w : World) :
  (forall w0, unique_accounts w0 -> unique_accounts (others w0)) ->
  (forall w0,
      find (collides (c_username data) (c_email data)) (users w0) = None ->
      find (collides (c_username data) (c_email data)) (users (others w0))
      = None) ->
  unique_accounts w ->
  unique_accounts (snd (UserRoutes.register_among env others data w)).
Proof.
  intros Hkeep Hnew Huniq.
  unfold UserRoutes.register_among.
  set (insert := try_except _ _).
  unfold bind.
  pose proof (check_if_user_exists_result (c_username data) (c_email data)
                true w) as (Hu & _ & Hret).
  destruct (UserService.check_if_user_exists _ _ _ w) as [[b | e] w0];
    cbn [fst snd] in *.
  2:{ unfold unique_accounts in *. rewrite Hu. exact Huniq. }
  cbv beta iota. subst insert.
  destruct (Hret b eq_refl) as [_ Hnone].
  assert (Huniq0 : unique_accounts w0)
    by (unfold unique_accounts in *; rewrite Hu; exact Huniq).
  rewrite <- Hu in Hnone.
  specialize (Hkeep w0 Huniq0). specialize (Hnew w0 Hnone).
  destruct (register_insert_users env data (others w0))
    as [Hsame | (u & Hus & Hn & He)]; cbv zeta in *.
  - unfold unique_accounts in *. rewrite Hsame. exact Hkeep.
  - destruct Hkeep as [Hnames Hmails]. unfold unique_accounts.
    rewrite Hus, !fmap_app. cbn [fmap list_fmap].
    assert (Hfresh : forall u', In u' (users (others w0)) ->
              u_username u' <> c_username data
              /\ u_email u' <> c_email data).
    { intros u' Hin. pose proof (find_none _ _ Hnew u' Hin) as Hc.
      unfold collides in Hc. apply orb_false_elim in Hc as [H1 H2].
      apply String.eqb_neq in H1, H2. auto. }
    split; apply NoDup_app; (split; [assumption |]);
      (split; [| apply NoDup_singleton]);
      intros x Hx Hx'; apply list_elem_of_singleton in Hx'; subst x;
      apply list_elem_of_fmap in Hx as (u' & Heq & Hin);
      apply list_elem_of_In in Hin; destruct (Hfresh u' Hin); congruence.
Qed.

Lemma register_keeps_accounts_unique_witness :
  unique_accounts
    (snd (UserRoutes.register Demo.env
            (mkCandidate "b@x.com" "bob" "Bob" "secret") Scenario.world)).
Proof.
  rewrite <- register_among_alone.
  apply register_keeps_accounts_unique.
  - intros w0 H. exact H.
  - intros w0 H. exact H.
  - split; apply (bool_decide_unpack _); vm_compute; exact I.
Defined.

(** What the condition on the other requests is there for: while one
    registration of bob waits between its check and its insert, another
    one runs to its end; both pass the check and both records are
    stored. *)
Lemma interleaved_registrations_duplicate :
  unique_accounts Scenario.world
  /\ ~ unique_accounts
        (snd (UserRoutes.register_among Demo.env
                (fun w0 =>
                   snd (UserRoutes.register Demo.env
                          (mkCandidate "b@x.com" "bob" "Bob" "secret") w0))
                (mkCandidate "b@x.com" "bob" "Bob" "secret")
                Scenario.world)).
Proof.
  split.
  - split; apply (bool_decide_unpack _); vm_compute; exact I.
  - intros [Hnames _]. revert Hnames.
    apply (bool_decide_eq_false_1 _). vm_compute. reflexivity.
Qed.

(** ** What registration answers *)

(** X2.  What the handler of the register route does with a form that
    passed the framework's validation (a form that does not is answered
    422 by the framework, before the handler runs).  It never returns
    the 422 of its own [except ValidationError] clause.  It returns the
    new record, whose username and email are the candidate's, and the
    store then holds a record with the same id, username, email, full
    name, hash and active flag; or it returns a [JSONResponse] with
    status 500 and has written nothing; or it raises what the
    uniqueness check raised and has written nothing. *)
Theorem register_outcomes (env : Env) (data : CreateUserSchema) (w : World) :
  match fst (UserRoutes.register env data w) with
  | Ret (Model u) =>
      u_username u = c_username data /\ u_email u = c_email data
      /\ exists u', In u' (users (snd (UserRoutes.register env data w)))
                    /\ same_account u u'
  | Ret (JSONResponse status _) =>
      status = 500
      /\ users (snd (UserRoutes.register env data w)) = users w
  | Raise e =>
      fst (UserService.check_if_user_exists
             (c_username data) (c_email data) true w) = Raise e
      /\ users (snd (UserRoutes.register env data w)) = users w
  end.
Proof.
  destruct (register_users env data w)
    as (_ & [(Hus & [(e & -> & Hchk) | (d & ->)])
            | (_ & u & Hus & Hn & He & _ & ->)]).
  - auto.
  - auto.
  - rewrite Hus. split; [exact Hn |]. split; [exact He |].
    exists u. split; [| unfold same_account; tauto].
    apply in_or_app. right. left. reflexivity.
Qed.

(** X3.  [check_if_user_exists] never returns [True]: the only value it
    returns is [False].  Called with [is_raise=False] on a store that has
    a colliding record, it raises a TypeError, because the conditional
    expression is the operand of [raise]. *)
Theorem check_if_user_exists_never_true (username email : string)
  (is_raise : bool) (w : World) :
  (forall b, fst (UserService.check_if_user_exists username email is_raise w)
             = Ret b -> b = false)
  /\ (head (db_faults w) <> Some true ->
      is_raise = false ->
      (exists u, In u (users w)
                 /\ (u_username u = username \/ u_email u = email)) ->
      fst (UserService.check_if_user_exists username email is_raise w)
      = Raise (TypeError "exceptions must derive from BaseException")).
Proof.
  split.
  - intros b Hb.
    apply (check_if_user_exists_result username email is_raise w), Hb.
  - intros Hdb -> (u & Hin & Hmatch).
    destruct (round_trip_ok w Hdb) as (w' & Hrt & Hu & _).
    unfold UserService.check_if_user_exists, Mongo.users_find_one, bind.
    rewrite Hrt, Hu. fold (collides username email).
    destruct (find (collides username email) (users w)) as [u' |] eqn:Hfind.
    + apply find_some in Hfind as [_ Hc]. unfold collides in Hc.
      destruct (String.eqb (u_username u') username); [reflexivity |].
      simpl in Hc. rewrite Hc. reflexivity.
    + pose proof (find_none _ _ Hfind u Hin) as Hc. unfold collides in Hc.
      apply orb_false_elim in Hc as [H1 H2].
      apply String.eqb_neq in H1, H2. destruct Hmatch; contradiction.
Qed.

Lemma check_if_user_exists_never_true_witness :
  fst (UserService.check_if_user_exists "alice" "new@x.com" false
         Scenario.world)
  = Raise (TypeError "exceptions must derive from BaseException").
Proof.
  apply (check_if_user_exists_never_true "alice" "new@x.com" false
           Scenario.world).
  - simpl. discriminate.
  - reflexivity.
  - exists Scenario.alice. split; [left; reflexivity | left; reflexivity].
Defined.

(** ** Registering, then logging in *)

Lemma find_app_last {A} (f : A -> bool) (l : list A) (x : A) :
  (forall y, In y l -> f y = false) -> f x = true ->
  find f (l ++ [x])%list = Some x.
Proof.
  intros Hl Hx. induction l as [| y l IH]; simpl.
  - rewrite Hx. reflexivity.
  - rewrite (Hl y) by (left; reflexivity).
    apply IH. intros z Hz. apply Hl. right. exact Hz.
Qed.

(** X4.  Registering, then logging in.  When the register route
    returns a new record and the hashing library verifies the
    candidate's password against the hash in it, [authenticate_user]
    with the candidate's username and password, run on the state
    registration left and with the database answering, returns the
    stored record: it has the id, the username, the email, the full
    name, the hash and the active flag of the record register returned.
    No older record stands in its way, since the check of the username
    passed. *)
Theorem registered_user_can_log_in (env : Env)
  (data : CreateUserSchema) (w : World) (u : AuthSchema) :
  fst (UserRoutes.register env data w) = Ret (Model u) ->
  Passlib.verify (pwd_context env) (c_password data) (u_password u)
  = Ret true ->
  head (db_faults (snd (UserRoutes.register env data w))) <> Some true ->
  exists u',
    fst (UserService.authenticate_user env (c_username data) (c_password data)
           (snd (UserRoutes.register env data w)))
    = Ret (Some u')
    /\ same_account u u'.
Proof.
  intros Hreg Hverify Hdb.
  destruct (register_users env data w)
    as (_ & [(_ & [(e & He & _) | (d & Hd)])
            | (Hnone & u' & Hus & Hn & Hmail & _ & Hret)]);
    try congruence.
  assert (u' = u) by congruence. subst u'.
  exists u. split; [| unfold same_account; tauto].
  destruct (get_user_by_username_ok (c_username data) _ Hdb) as (w' & Hget).
  unfold UserService.authenticate_user, bind. rewrite Hget, Hus.
  rewrite find_app_last.
  - unfold lift, Password.verify_password. rewrite Hverify. reflexivity.
  - intros y Hy. pose proof (find_none _ _ Hnone y Hy) as Hc.
    unfold collides in Hc. apply orb_false_elim in Hc as [H1 _]. exact H1.
  - apply String.eqb_eq. exact Hn.
Qed.

Lemma registered_user_can_log_in_witness :
  exists u u',
    fst (UserRoutes.register Demo.env
           (mkCandidate "b@x.com" "bob" "Bob" "hunter2") Scenario.world)
    = Ret (Model u)
    /\ fst (UserService.authenticate_user Demo.env "bob" "hunter2"
              (snd (UserRoutes.register Demo.env
                      (mkCandidate "b@x.com" "bob" "Bob" "hunter2")
                      Scenario.world)))
       = Ret (Some u')
    /\ same_account u u'.
Proof.
  assert (Hreg : exists u,
             fst (UserRoutes.register Demo.env
                    (mkCandidate "b@x.com" "bob" "Bob" "hunter2")
                    Scenario.world) = Ret (Model u)
             /\ Passlib.verify (pwd_context Demo.env) "hunter2" (u_password u)
                = Ret true)
    by (eexists; split; vm_compute; reflexivity).
  destruct Hreg as (u & Hreg & Hverify).
  destruct (registered_user_can_log_in Demo.env
              (mkCandidate "b@x.com" "bob" "Bob" "hunter2") Scenario.world u
              Hreg Hverify) as (u' & Hlogin & Hsame).
  { vm_compute. discriminate. }
  exists u, u'. auto.
Defined.

(** ** Requests the product routes turn down *)

Lemma find_none_Forall {A} (f : A -> bool) (l : list A) :
  Forall (fun x => f x = false) l -> find f l = None.
Proof.
  induction 1 as [| x l Hx _ IH]; simpl; [reflexivity |].
  rewrite Hx. exact IH.
Qed.

Lemma get_product_by_id_missing (env : Env) (pid : string) (w : World) :
  ObjectId.is_valid_str pid = true ->
  head (db_faults w) <> Some true ->
  Forall (fun d => Mongo.has_id (ObjectId.binary pid) d = false)
    (products w) ->
  exists w', ProductService.get_product_by_id env pid w = (Ret None, w')
             /\ products w' = products w /\ users w' = users w.
Proof.
  intros Hvalid Hdb Hnone.
  destruct (round_trip_ok w Hdb) as (w' & Hrt & Hu & Hp & _).
  exists w'.
  unfold ProductService.get_product_by_id, try_except, bind, lift,
    ObjectId.make, Mongo.products_find_one, bind.
  rewrite Hvalid, Hrt, Hp, (find_none_Forall _ _ Hnone). auto.
Qed.

(** The check of the id is that of the library: a string of 24
    characters with white space between its bytes passes it, and spells
    a shorter identifier. *)
Lemma spaced_id_is_valid :
  ObjectId.is_valid_str "00 00 00 00 00 00 00 00 " = true
  /\ ObjectId.make "00 00 00 00 00 00 00 00 " = Ret "0000000000000000"
  /\ ObjectId.is_valid_str "0000000000000000000000zz" = false
  /\ ObjectId.is_valid_str "0 0000000000000000000000" = false.
Proof. repeat split. Qed.

(** X5.  What the handlers of the three mutating routes turn down before
    any write, once the caller has been authenticated.  For a product id
    that [ObjectId.is_valid] refuses, the handler raises the 400 without
    a call to the database of its own and leaves the world as it was; for
    a valid id that no stored document carries, with the database
    answering, it raises the 404 and both collections are untouched. *)
Theorem mutation_turned_down_before_write (env : Env) (op : mutation)
  (product_id : string) (current_user : AuthSchema) (w : World) :
  (ObjectId.is_valid_str product_id = false ->
   handle env op product_id current_user w
   = (Raise (HTTPException 400 "Invalid product ID format" false), w))
  /\ (ObjectId.is_valid_str product_id = true ->
      head (db_faults w) <> Some true ->
      Forall (fun d => Mongo.has_id (ObjectId.binary product_id) d = false)
        (products w) ->
      fst (handle env op product_id current_user w)
      = Raise (HTTPException 404 "Product not found" false)
      /\ products (snd (handle env op product_id current_user w)) = products w
      /\ users (snd (handle env op product_id current_user w)) = users w).
Proof.
  split.
  - intros Hbad.
    destruct op; simpl;
      unfold Crud.update_product, Crud.partial_update_product,
        Crud.delete_product; rewrite Hbad; reflexivity.
  - intros Hvalid Hdb Hnone.
    destruct (get_product_by_id_missing env product_id w Hvalid Hdb Hnone)
      as (w' & Hget & Hp & Hu).
    assert (H : handle env op product_id current_user w
                = (Raise Crud.product_not_found, w')).
    { destruct op; simpl;
        unfold Crud.update_product, Crud.partial_update_product,
          Crud.delete_product; rewrite Hvalid; cbn [negb];
        unfold bind at 1; rewrite Hget; reflexivity. }
    rewrite H. split; [reflexivity | split; assumption].
Qed.

Lemma mutation_turned_down_before_write_witness :
  handle Demo.env Delete "not-an-id" Scenario.alice Scenario.world_db_down
  = (Raise (HTTPException 400 "Invalid product ID format" false),
     Scenario.world_db_down)
  /\ fst (handle Demo.env (Patch {[ "name" := VStr "gadget" ]})
            "0000000000000000000000BB" Scenario.alice Scenario.world)
     = Raise (HTTPException 404 "Product not found" false).
Proof.
  split.
  - apply (mutation_turned_down_before_write Demo.env Delete "not-an-id"
             Scenario.alice Scenario.world_db_down). reflexivity.
  - apply (mutation_turned_down_before_write Demo.env
             (Patch {[ "name" := VStr "gadget" ]})
             "0000000000000000000000BB" Scenario.alice Scenario.world).
    + reflexivity.
    + simpl. discriminate.
    + repeat constructor.
Defined.

(** ** Deleting a product *)

Lemma delete_first_split (filter : Doc -> bool) (pre post : list Doc)
  (doc : Doc) :
  Forall (fun d => filter d = false) pre ->
  filter doc = true ->
  Mongo.delete_first filter (pre ++ doc :: post)%list = (1, (pre ++ post)%list).
Proof.
  intros Hpre Hdoc. induction Hpre as [| d pre Hd _ IH]; simpl.
  - rewrite Hdoc. reflexivity.
  - rewrite Hd, IH. reflexivity.
Qed.

Lemma delete_product_removes (product_id : string) (w : World)
  (pre post : list Doc) (doc : Doc) :
  ObjectId.is_valid_str product_id = true ->
  products w = (pre ++ doc :: post)%list ->
  Forall (fun d => Mongo.has_id (ObjectId.binary product_id) d = false) pre ->
  Mongo.has_id (ObjectId.binary product_id) doc = true ->
  head (db_faults w) <> Some true ->
  exists w', ProductService.delete_product product_id w = (Ret true, w')
             /\ products w' = (pre ++ post)%list
             /\ users w' = users w
             /\ db_faults w' = tail (db_faults w).
Proof.
  intros Hvalid Hprod Hpre Hdoc Hdb.
  unfold ProductService.delete_product, try_except, bind, lift, ObjectId.make,
    Mongo.products_delete_one, bind.
  rewrite Hvalid.
  assert (Hrt : exists w1, Mongo.round_trip w = (Ret tt, w1)
                           /\ products w1 = products w /\ users w1 = users w
                           /\ db_faults w1 = tail (db_faults w)).
  { unfold Mongo.round_trip.
    destruct (db_faults w) as [| [|] fs] eqn:E; simpl in *;
      [| congruence |]; eexists; split; try reflexivity; simpl; auto. }
  destruct Hrt as (w1 & -> & Hp1 & Hu1 & Hf1).
  rewrite Hp1, Hprod, (delete_first_split _ pre post doc Hpre Hdoc).
  eexists. split; [reflexivity |]. simpl. auto.
Qed.

(** X6.  DELETE by the owner, with the database answering: the route
    answers "Product deleted successfully", the first document carrying
    the id is gone and every other document, and every user, is as
    before.  If no other document carries the id, a later GET of that id
    is answered 404. *)
Theorem owner_delete_removes_product (env : Env) (product_id : string)
  (current_user : AuthSchema) (w w1 : World) (pre post : list Doc)
  (doc : Doc) (product : ProductSchema) :
  ProductService.get_product_by_id env product_id w = (Ret (Some product), w1) ->
  p_owner_id product = u_id current_user ->
  products w = (pre ++ doc :: post)%list ->
  Forall (fun d => Mongo.has_id (ObjectId.binary product_id) d = false) pre ->
  Mongo.has_id (ObjectId.binary product_id) doc = true ->
  head (db_faults w1) <> Some true ->
  let r := Crud.delete_product env product_id current_user w in
  fst r = Ret (JSONResponse 200 "Product deleted successfully")
  /\ products (snd r) = (pre ++ post)%list
  /\ users (snd r) = users w
  /\ (Forall (fun d => Mongo.has_id (ObjectId.binary product_id) d = false)
        post ->
      head (db_faults (snd r)) <> Some true ->
      fst (Crud.get_product env product_id (snd r))
      = Raise (HTTPException 404 "Product not found" false)).
Proof.
  intros Hget Hown Hprod Hpre Hdoc Hdb.
  pose proof (get_product_by_id_valid _ _ _ _ _ Hget) as Hvalid.
  pose proof (get_product_by_id_data _ _ _ _ _ Hget) as [Hp1 Hu1].
  destruct (delete_product_removes product_id w1 pre post doc)
    as (w2 & Hdel & Hp2 & Hu2 & _); try assumption; [congruence |].
  assert (H : Crud.delete_product env product_id current_user w
              = (Ret (JSONResponse 200 "Product deleted successfully"), w2)).
  { unfold Crud.delete_product. rewrite Hvalid. cbn [negb].
    unfold bind at 1. rewrite Hget.
    apply String.eqb_eq in Hown. rewrite Hown. cbn [negb].
    unfold bind. rewrite Hdel. reflexivity. }
  cbv zeta. rewrite H. cbn [fst snd].
  split; [reflexivity |]. split; [assumption |]. split; [congruence |].
  intros Hpost Hdb2.
  destruct (get_product_by_id_missing env product_id w2 Hvalid Hdb2)
    as (w3 & Hget3 & _).
  { rewrite Hp2. apply Forall_app. split; assumption. }
  unfold Crud.get_product. rewrite Hvalid. cbn [negb].
  unfold bind. rewrite Hget3. reflexivity.
Qed.

Lemma owner_delete_removes_product_witness :
  fst (Crud.delete_product Demo.env Scenario.widget_id Scenario.alice
         Scenario.world)
  = Ret (JSONResponse 200 "Product deleted successfully")
  /\ products (snd (Crud.delete_product Demo.env Scenario.widget_id
                      Scenario.alice Scenario.world)) = [].
Proof.
  destruct (owner_delete_removes_product Demo.env Scenario.widget_id
              Scenario.alice Scenario.world Scenario.world [] []
              Scenario.widget
              (mkProduct "widget" None 999 (Some 0) (Some Scenario.widget_id)
                 Scenario.alice_id true 1000 1000))
    as (Hr & Hp & _).
  - vm_compute. reflexivity.
  - reflexivity.
  - reflexivity.
  - constructor.
  - vm_compute. reflexivity.
  - simpl. discriminate.
  - split; [exact Hr | exact Hp].
Defined.

(** ** Replacing fields with PUT *)

Lemma plain_update_empty : Mongo.plain_update ∅ = true.
Proof. apply bool_decide_eq_true. apply map_Forall_empty. Qed.

Lemma model_dump_plain (u : ProductUpdateSchema) :
  Mongo.plain_update (model_dump u) = true.
Proof.
  destruct u as [[n |] [d |] [p |] [s |]]; cbv beta iota zeta delta [model_dump];
    cbn [up_name up_description up_price up_stock];
    repeat (apply plain_update_insert; [reflexivity |]);
    apply plain_update_empty.
Qed.

Lemma model_dump_other (u : ProductUpdateSchema) (k : string) :
  k <> "name" -> k <> "description" -> k <> "price" -> k <> "stock" ->
  model_dump u !! k = None.
Proof.
  intros Hn Hd Hp Hs.
  destruct u as [[n |] [d |] [p |] [s |]]; cbv beta iota zeta delta [model_dump];
    cbn [up_name up_description up_price up_stock];
    rewrite ?lookup_insert_ne by congruence; apply lookup_empty.
Qed.

Lemma price_to_float_plain (d : Doc) :
  Mongo.plain_update d = true ->
  Mongo.plain_update (ProductService.price_to_float d) = true.
Proof.
  intros H. unfold ProductService.price_to_float.
  destruct (d !! "price") as [[] |]; try exact H.
  apply plain_update_insert; [reflexivity | exact H].
Qed.

Lemma price_to_float_other (d : Doc) (k : string) :
  k <> "price" -> ProductService.price_to_float d !! k = d !! k.
Proof.
  intros Hk. unfold ProductService.price_to_float.
  destruct (d !! "price") as [[] |]; try reflexivity.
  apply lookup_insert_ne. congruence.
Qed.

(** The fields a PUT writes: those of the request that are set, the
    price as a float. *)
Lemma put_fields (u : ProductUpdateSchema) :
  let d := ProductService.price_to_float (model_dump u) in
  d !! "name" = VStr <$> up_name u
  /\ d !! "description" = VStr <$> up_description u
  /\ d !! "price" = VFloat <$> up_price u
  /\ d !! "stock" = VInt <$> up_stock u.
Proof.
  destruct u as [[n |] [d |] [p |] [s |]]; cbn; repeat split; reflexivity.
Qed.

Lemma find_one_and_update_plain (set_paths : Doc -> Doc -> outcome Doc)
  (oid : string) (update : Doc) (w : World) (pre post : list Doc) (doc : Doc) :
  products w = (pre ++ doc :: post)%list ->
  Forall (fun d => Mongo.has_id oid d = false) pre ->
  Mongo.has_id oid doc = true ->
  Mongo.plain_update update = true ->
  head (db_faults w) <> Some true ->
  exists w',
    Mongo.products_find_one_and_update set_paths oid update w
    = (Ret (Some (update ∪ doc)), w')
    /\ products w' = (pre ++ (update ∪ doc) :: post)%list
    /\ users w' = users w /\ clock w' = clock w.
Proof.
  intros Hprod Hpre Hdoc Hplain Hdb.
  destruct (round_trip_ok w Hdb) as (w1 & Hrt & Hu & Hp & Hc & _).
  unfold Mongo.products_find_one_and_update, bind. rewrite Hrt, Hp, Hprod.
  rewrite (update_first_split _ _ pre post doc (update ∪ doc) Hpre Hdoc)
    by (unfold Mongo.apply_set; rewrite Hplain; reflexivity).
  eexists. split; [reflexivity |]. simpl. auto.
Qed.

Lemma update_product_state (env : Env) (product_id : string)
  (update_data : ProductUpdateSchema) (w : World) (pre post : list Doc)
  (doc : Doc) :
  ObjectId.is_valid_str product_id = true ->
  products w = (pre ++ doc :: post)%list ->
  Forall (fun d => Mongo.has_id (ObjectId.binary product_id) d = false) pre ->
  Mongo.has_id (ObjectId.binary product_id) doc = true ->
  head (db_faults w) <> Some true ->
  exists w',
    snd (ProductService.update_product env product_id update_data w) = w'
    /\ products w'
       = (pre ++ (<["updated_at" := VTime (clock w)]>
                    (ProductService.price_to_float (model_dump update_data))
                  ∪ doc) :: post)%list
    /\ users w' = users w.
Proof.
  intros Hvalid Hprod Hpre Hdoc Hdb.
  destruct (find_one_and_update_plain (set_paths env)
              (ObjectId.binary product_id)
              (<["updated_at" := VTime (clock w)]>
                 (ProductService.price_to_float (model_dump update_data)))
              w pre post doc) as (w' & Hupd & Hp & Hu & _); try assumption.
  { apply plain_update_insert; [reflexivity |].
    apply price_to_float_plain, model_dump_plain. }
  exists w'. split; [| split; assumption].
  unfold ProductService.update_product.
  rewrite try_except_raise_state, Hvalid. cbn [negb].
  unfold bind at 1, utcnow. unfold bind at 1, lift, ObjectId.make.
  rewrite Hvalid. unfold bind at 1. rewrite Hupd.
  apply found_state.
Qed.

(** X7.  PUT by the owner of a stored product, with the database
    answering: the stored document gets the fields the request sets (the
    price as a float) and [updated_at]; every other field, [owner_id],
    [_id] and [created_at] among them, is what it was; the other
    documents and the users are untouched.  A request that sets nothing
    still refreshes [updated_at]. *)
Theorem owner_put_keeps_other_fields (env : Env) (product_id : string)
  (update_data : ProductUpdateSchema) (current_user : AuthSchema)
  (w w1 : World) (pre post : list Doc) (doc : Doc) (product : ProductSchema) :
  ProductService.get_product_by_id env product_id w = (Ret (Some product), w1) ->
  p_owner_id product = u_id current_user ->
  products w = (pre ++ doc :: post)%list ->
  Forall (fun d => Mongo.has_id (ObjectId.binary product_id) d = false) pre ->
  Mongo.has_id (ObjectId.binary product_id) doc = true ->
  head (db_faults w1) <> Some true ->
  exists doc',
    products (snd (Crud.update_product env product_id update_data
                     current_user w))
    = (pre ++ doc' :: post)%list
    /\ users (snd (Crud.update_product env product_id update_data
                     current_user w)) = users w
    /\ doc' !! "updated_at" = Some (VTime (clock w))
    /\ doc' !! "owner_id" = doc !! "owner_id"
    /\ doc' !! "_id" = doc !! "_id"
    /\ doc' !! "created_at" = doc !! "created_at"
    /\ (forall k, k <> "name" -> k <> "description" -> k <> "price" ->
                  k <> "stock" -> k <> "updated_at" -> doc' !! k = doc !! k)
    /\ doc' !! "name"
       = match up_name update_data with
         | Some n => Some (VStr n) | None => doc !! "name" end
    /\ doc' !! "description"
       = match up_description update_data with
         | Some t => Some (VStr t) | None => doc !! "description" end
    /\ doc' !! "price"
       = match up_price update_data with
         | Some p => Some (VFloat p) | None => doc !! "price" end
    /\ doc' !! "stock"
       = match up_stock update_data with
         | Some n => Some (VInt n) | None => doc !! "stock" end.
Proof.
  intros Hget Hown Hprod Hpre Hdoc Hdb.
  pose proof (get_product_by_id_valid _ _ _ _ _ Hget) as Hvalid.
  pose proof (get_product_by_id_state env product_id w) as (Hp1 & Hu1 & Hc1).
  rewrite Hget in Hp1, Hu1, Hc1. cbn [snd] in Hp1, Hu1, Hc1.
  set (upd := ProductService.price_to_float (model_dump update_data)).
  exists (<["updated_at" := VTime (clock w)]> upd ∪ doc).
  assert (Hstate :
    snd (Crud.update_product env product_id update_data current_user w)
    = snd (ProductService.update_product env product_id update_data w1)).
  { unfold Crud.update_product. rewrite Hvalid. cbn [negb].
    unfold bind at 1. rewrite Hget.
    apply String.eqb_eq in Hown. rewrite Hown. cbn [negb].
    rewrite try_except_state by (intros; eapply route_handlers_state; eauto).
    apply updated_state. }
  destruct (update_product_state env product_id update_data w1 pre post doc)
    as (w2 & Hw2 & Hp2 & Hu2); try assumption; [congruence |].
  rewrite Hstate, Hw2, Hp2, Hu2, Hc1.
  assert (Hother : forall k, k <> "name" -> k <> "description" ->
            k <> "price" -> k <> "stock" -> k <> "updated_at" ->
            (<["updated_at" := VTime (clock w)]> upd ∪ doc) !! k = doc !! k).
  { intros k Hn Hd Hp Hs Hup. apply lookup_union_r.
    rewrite lookup_insert_ne by congruence. unfold upd.
    rewrite price_to_float_other by assumption.
    apply model_dump_other; assumption. }
  assert (Hfield : forall k, k <> "updated_at" ->
            (<["updated_at" := VTime (clock w)]> upd ∪ doc) !! k
            = match upd !! k with Some v => Some v | None => doc !! k end).
  { intros k Hk. rewrite lookup_union, lookup_insert_ne by congruence.
    destruct (upd !! k), (doc !! k); reflexivity. }
  destruct (put_fields update_data) as (Hn & Hd & Hp & Hs). fold upd in Hn, Hd, Hp, Hs.
  split; [reflexivity |]. split; [assumption |].
  split; [apply lookup_union_Some_l, lookup_insert_eq |].
  split; [apply Hother; discriminate |].
  split; [apply Hother; discriminate |].
  split; [apply Hother; discriminate |].
  split; [exact Hother |].
  rewrite !Hfield by discriminate. rewrite Hn, Hd, Hp, Hs.
  destruct update_data as [[n |] [d |] [p |] [s |]]; cbn; auto.
Qed.

Lemma owner_put_keeps_other_fields_witness :
  exists doc',
    products (snd (Crud.update_product Demo.env Scenario.widget_id
                     (mkUpdate (Some "gadget") None (Some 1250) None)
                     Scenario.alice Scenario.world))
    = [doc']
    /\ doc' !! "owner_id" = Some (VStr Scenario.alice_id)
    /\ doc' !! "name" = Some (VStr "gadget")
    /\ doc' !! "price" = Some (VFloat 1250).
Proof.
  destruct (owner_put_keeps_other_fields Demo.env Scenario.widget_id
              (mkUpdate (Some "gadget") None (Some 1250) None)
              Scenario.alice Scenario.world Scenario.world [] []
              Scenario.widget
              (mkProduct "widget" None 999 (Some 0) (Some Scenario.widget_id)
                 Scenario.alice_id true 1000 1000))
    as (doc' & Hp & _ & _ & Ho & _ & _ & _ & Hn & _ & Hpr & _).
  - vm_compute. reflexivity.
  - reflexivity.
  - reflexivity.
  - constructor.
  - vm_compute. reflexivity.
  - simpl. discriminate.
  - exists doc'. split; [exact Hp |]. split; [| split].
    + rewrite Ho. vm_compute. reflexivity.
    + exact Hn.
    + exact Hpr.
Defined.

(** ** Answers the product routes never give *)

Lemma validation_error_is_value_error (e : exn) :
  isinstance e CValidationError = true -> isinstance e CValueError = true.
Proof. destruct e; simpl; congruence. Qed.

(** A service whose [except] clause lists ValueError (or Exception) and
    raises a bare Exception never lets a ValidationError out. *)
Lemma wrapped_never_validation_error {A} (m : M A) (cs : list cls)
  (prefix : string) (w : World) (e : exn) :
  (forall e', isinstance e' CValidationError = true ->
              isinstance_any e' cs = true) ->
  fst (try_except m
         [(cs, fun e' => raise (Exception_ (prefix ++ Py.str e')))] w)
  = Raise e ->
  isinstance e CValidationError = false.
Proof.
  intros Hcs. unfold try_except.
  destruct (m w) as [[a | e'] w']; [discriminate |].
  cbn [select_handler].
  destruct (isinstance_any e' cs) eqn:Hin.
  - unfold raise. intros [= <-]. reflexivity.
  - cbn [fst]. intros [= <-].
    destruct (isinstance e' CValidationError) eqn:Hv; [| reflexivity].
    rewrite (Hcs e' Hv) in Hin. discriminate.
Qed.

Lemma value_error_clause (e : exn) :
  isinstance e CValidationError = true ->
  isinstance_any e [CInvalidId; CPyMongoError; CValueError] = true.
Proof.
  intros H. apply validation_error_is_value_error in H.
  unfold isinstance_any. cbn [existsb]. rewrite H.
  rewrite !orb_true_r. reflexivity.
Qed.

Lemma exception_clause (e : exn) :
  isinstance e CValidationError = true ->
  isinstance_any e [CException] = true.
Proof.
  intros _. unfold isinstance_any. cbn [existsb].
  rewrite isinstance_Exception. reflexivity.
Qed.

Lemma route_try_not_422 {A} (m : M (reply A)) (w : World) :
  (forall e, fst (m w) = Raise e -> isinstance e CValidationError = false) ->
  (forall d, fst (m w) <> Ret (JSONResponse 422 d)) ->
  forall d, fst (try_except m Crud.route_handlers w) <> Ret (JSONResponse 422 d).
Proof.
  intros Hraise Hret d. unfold try_except.
  destruct (m w) as [[a | e] w'] eqn:Hm; cbn [fst] in *.
  - apply Hret.
  - destruct (@route_handlers_catch A e w')
      as (h & Hsel & _ & status & detail & Hh & _ & H422).
    unfold Crud.route_handlers. rewrite Hsel, Hh.
    intros [= -> _]. rewrite (Hraise e eq_refl) in H422.
    specialize (H422 eq_refl). discriminate.
Qed.

Lemma then_updated_outcome (m : M (option ProductSchema)) (w : World) :
  (forall e,
     fst ((updated_product <- m ;; Crud.updated updated_product) w) = Raise e ->
     fst (m w) = Raise e)
  /\ (forall d,
        fst ((updated_product <- m ;; Crud.updated updated_product) w)
        <> Ret (JSONResponse 422 d)).
Proof.
  unfold bind. destruct (m w) as [[[p |] | e] w']; cbn;
    split; intros; congruence.
Qed.

(** X8.  The [except ValidationError] clauses of the POST, PUT and PATCH
    handlers are dead code.  On a request that passed the framework's
    validation (one that does not is answered 422 by the framework,
    before the handler runs), none of the three handlers returns the
    [JSONResponse] with status 422 that its clause builds, whatever the
    store holds and the database answers. *)
Theorem product_routes_never_answer_422 (env : Env) (product_id : string)
  (update_data : ProductUpdateSchema) (body : Doc)
  (product_schema : ProductCreateSchema) (current_user : AuthSchema)
  (w : World) (detail : string) :
  fst (Crud.create_product env product_schema current_user w)
  <> Ret (JSONResponse 422 detail)
  /\ fst (Crud.update_product env product_id update_data current_user w)
     <> Ret (JSONResponse 422 detail)
  /\ fst (Crud.partial_update_product env product_id body current_user w)
     <> Ret (JSONResponse 422 detail).
Proof.
  split; [| split].
  - unfold Crud.create_product. apply route_try_not_422.
    + intros e He. unfold bind in He.
      destruct (ProductService.create_product env current_user
                  product_schema w) as [[p | e'] w'] eqn:Hc;
        cbn in He; [discriminate |].
      injection He as <-.
      eapply (wrapped_never_validation_error _ [CException] _ w);
        [apply exception_clause |].
      unfold ProductService.create_product in Hc. rewrite Hc. reflexivity.
    + intros d. unfold bind.
      destruct (ProductService.create_product env current_user
                  product_schema w) as [[p | e'] w']; cbn; congruence.
  - unfold Crud.update_product.
    destruct (ObjectId.is_valid_str product_id); cbn [negb];
      [| cbn; congruence].
    unfold bind at 1.
    destruct (ProductService.get_product_by_id env product_id w)
      as [[[product |] | e] w1]; [| cbn; congruence ..].
    destruct (negb _); [cbn; congruence |].
    apply route_try_not_422.
    + intros e He. apply then_updated_outcome in He.
      eapply (wrapped_never_validation_error _ _ _ w1);
        [apply value_error_clause |].
      unfold ProductService.update_product in He. exact He.
    + apply then_updated_outcome.
  - unfold Crud.partial_update_product.
    destruct (ObjectId.is_valid_str product_id); cbn [negb];
      [| cbn; congruence].
    unfold bind at 1.
    destruct (ProductService.get_product_by_id env product_id w)
      as [[[product |] | e] w1]; [| cbn; congruence ..].
    destruct (negb _); [cbn; congruence |].
    apply route_try_not_422.
    + intros e He. apply then_updated_outcome in He.
      eapply (wrapped_never_validation_error _ _ _ w1);
        [apply value_error_clause |].
      unfold ProductService.partial_update_product in He. exact He.
    + apply then_updated_outcome.
Qed.

(** X9.  PATCH with an empty body, sent by the owner: the service raises
    a 400 "No fields to update", but the route's [except Exception]
    catches it, so the client is answered 500; nothing is written. *)
Theorem patch_empty_body_answered_500 (env : Env) (product_id : string)
  (current_user : AuthSchema) (w w1 : World) (product : ProductSchema) :
  ProductService.get_product_by_id env product_id w = (Ret (Some product), w1) ->
  p_owner_id product = u_id current_user ->
  fst (ProductService.partial_update_product env product_id ∅ w1)
  = Raise (HTTPException 400 "No fields to update" false)
  /\ Crud.partial_update_product env product_id ∅ current_user w
     = (Ret (JSONResponse 500
               ("Internal server error: "
                ++ Py.str (HTTPException 400 "No fields to update" false))),
        w1).
Proof.
  intros Hget Hown.
  pose proof (get_product_by_id_valid _ _ _ _ _ Hget) as Hvalid.
  assert (Hsvc : ProductService.partial_update_product env product_id ∅ w1
                 = (Raise (HTTPException 400 "No fields to update" false), w1)).
  { unfold ProductService.partial_update_product, try_except.
    rewrite Hvalid. reflexivity. }
  split; [rewrite Hsvc; reflexivity |].
  unfold Crud.partial_update_product. rewrite Hvalid. cbn [negb].
  unfold bind at 1. rewrite Hget.
  apply String.eqb_eq in Hown. rewrite Hown. cbn [negb].
  unfold try_except, bind. rewrite Hsvc. reflexivity.
Qed.

Lemma patch_empty_body_answered_500_witness :
  Crud.partial_update_product Demo.env Scenario.widget_id ∅ Scenario.alice
    Scenario.world
  = (Ret (JSONResponse 500
            ("Internal server error: "
             ++ Py.str (HTTPException 400 "No fields to update" false))),
     Scenario.world).
Proof.
  apply (patch_empty_body_answered_500 Demo.env Scenario.widget_id
           Scenario.alice Scenario.world Scenario.world
           (mkProduct "widget" None 999 (Some 0) (Some Scenario.widget_id)
              Scenario.alice_id true 1000 1000)).
  - vm_compute. reflexivity.
  - reflexivity.
Defined.

(** ** PATCH writes before it validates *)

Lemma validate_raises (co : Pydantic.Coercions) (now : Z) (doc : Doc)
  (e : exn) :
  ProductSchema_validate co now doc = Raise e ->
  isinstance e CPyMongoError = false
  /\ isinstance e CHTTPException = false.
Proof.
  unfold ProductSchema_validate.
  destruct (bool_decide _); [intros [= <-]; auto |].
  match goal with
  | |- match ?o with _ => _ end = _ -> _ => destruct o
  end; [discriminate | intros [= <-]; auto].
Qed.

(** What the PATCH service does for a well-formed request on a stored
    product when the database answers: the write, then the validation of
    what was written. *)
Lemma partial_update_product_result (env : Env) (product_id : string)
  (update_data : Doc) (w : World) (pre post : list Doc) (doc : Doc) :
  ObjectId.is_valid_str product_id = true ->
  products w = (pre ++ doc :: post)%list ->
  Forall (fun d => Mongo.has_id (ObjectId.binary product_id) d = false) pre ->
  Mongo.has_id (ObjectId.binary product_id) doc = true ->
  update_data <> ∅ ->
  Mongo.plain_update update_data = true ->
  (forall h, update_data !! "price" <> Some (VDecimal h)) ->
  head (db_faults w) <> Some true ->
  let doc' := <["updated_at" := VTime (clock w)]> update_data ∪ doc in
  exists w',
    ProductService.partial_update_product env product_id update_data w
    = (match ProductSchema_validate (pydantic env) (clock w)
               (ProductService.stringify_id doc') with
       | Ret p => Ret (Some p)
       | Raise e =>
           if isinstance_any e [CInvalidId; CPyMongoError; CValueError]
           then Raise (Exception_ ("Error updating product: " ++ Py.str e))
           else Raise e
       end, w')
    /\ products w' = (pre ++ doc' :: post)%list
    /\ users w' = users w /\ clock w' = clock w.
Proof.
  intros Hvalid Hprod Hpre Hdoc Hne Hplain Hjson Hdb doc'.
  destruct (find_one_and_update_plain (set_paths env)
              (ObjectId.binary product_id)
              (<["updated_at" := VTime (clock w)]> update_data)
              w pre post doc) as (w' & Hupd & Hp & Hu & Hc); try assumption.
  { apply plain_update_insert; [reflexivity | assumption]. }
  exists w'. split; [| auto].
  unfold ProductService.partial_update_product, try_except.
  rewrite Hvalid. cbn [negb].
  rewrite bool_decide_eq_false_2 by assumption.
  rewrite price_to_float_json by assumption.
  unfold bind at 1, utcnow. unfold bind at 1, lift, ObjectId.make.
  rewrite Hvalid. unfold bind at 1. rewrite Hupd.
  unfold ProductService.found, ProductService.to_schema, bind, utcnow, lift, ret.
  rewrite Hc. fold doc'.
  destruct (ProductSchema_validate (pydantic env) (clock w)
              (ProductService.stringify_id doc')) as [p | e];
    [reflexivity |].
  cbn [select_handler].
  destruct (isinstance_any e [CInvalidId; CPyMongoError; CValueError]);
    reflexivity.
Qed.

Lemma to_schemas_raises (env : Env) (now : Z) (pre post : list Doc)
  (doc : Doc) (e : exn) :
  ProductSchema_validate (pydantic env) now (ProductService.stringify_id doc)
  = Raise e ->
  exists e', ProductService.to_schemas env now (pre ++ doc :: post)%list
             = Raise e'
             /\ isinstance e' CPyMongoError = false.
Proof.
  intros He. induction pre as [| d pre IH]; cbn [app ProductService.to_schemas].
  - rewrite He. exists e. split; [reflexivity |].
    eapply validate_raises, He.
  - destruct (ProductSchema_validate (pydantic env) now
                (ProductService.stringify_id d)) as [p | e1] eqn:Hd.
    + destruct IH as (e' & -> & Hk). eauto.
    + exists e1. split; [reflexivity |]. eapply validate_raises, Hd.
Qed.

(** X10.  PATCH writes before it validates.  For the owner's well-formed
    request on a stored product, with the database answering, the
    document is rewritten whatever the validation of the result says: the
    route returns the validated product when the rewritten document is
    valid, and a 500 when it is not; in that case the invalid document
    stays in the collection and the listing of all products raises from
    then on. *)
Theorem patch_writes_before_validating (env : Env) (product_id : string)
  (update_data : Doc) (current_user : AuthSchema) (w w1 : World)
  (pre post : list Doc) (doc : Doc) (product : ProductSchema) :
  ProductService.get_product_by_id env product_id w = (Ret (Some product), w1) ->
  p_owner_id product = u_id current_user ->
  products w = (pre ++ doc :: post)%list ->
  Forall (fun d => Mongo.has_id (ObjectId.binary product_id) d = false) pre ->
  Mongo.has_id (ObjectId.binary product_id) doc = true ->
  update_data <> ∅ ->
  Mongo.plain_update update_data = true ->
  (forall h, update_data !! "price" <> Some (VDecimal h)) ->
  head (db_faults w1) <> Some true ->
  exists w2 reply,
    Crud.partial_update_product env product_id update_data current_user w
    = (Ret reply, w2)
    /\ products w2
       = (pre ++ (<["updated_at" := VTime (clock w)]> update_data ∪ doc)
              :: post)%list
    /\ (forall p,
          ProductSchema_validate (pydantic env) (clock w)
            (ProductService.stringify_id
               (<["updated_at" := VTime (clock w)]> update_data ∪ doc))
          = Ret p ->
          reply = Model p)
    /\ (forall e,
          ProductSchema_validate (pydantic env) (clock w)
            (ProductService.stringify_id
               (<["updated_at" := VTime (clock w)]> update_data ∪ doc))
          = Raise e ->
          (exists detail, reply = JSONResponse 500 detail)
          /\ (head (db_faults w2) <> Some true ->
              exists e', fst (Crud.get_all_products env w2) = Raise e')).
Proof.
  intros Hget Hown Hprod Hpre Hdoc Hne Hplain Hjson Hdb.
  set (doc' := <["updated_at" := VTime (clock w)]> update_data ∪ doc).
  pose proof (get_product_by_id_valid _ _ _ _ _ Hget) as Hvalid.
  pose proof (get_product_by_id_state env product_id w) as (Hp1 & Hu1 & Hc1).
  rewrite Hget in Hp1, Hu1, Hc1. cbn [snd] in Hp1, Hu1, Hc1.
  destruct (partial_update_product_result env product_id update_data w1
              pre post doc) as (w2 & Hsvc & Hp2 & Hu2 & Hc2);
    try assumption; [congruence |].
  rewrite Hc1 in Hsvc, Hp2. fold doc' in Hsvc, Hp2.
  assert (Hr : Crud.partial_update_product env product_id update_data
                 current_user w
               = try_except
                   (updated_product <-
                      ProductService.partial_update_product env product_id
                        update_data ;;
                    Crud.updated updated_product)
                   Crud.route_handlers w1).
  { unfold Crud.partial_update_product. rewrite Hvalid. cbn [negb].
    unfold bind at 1. rewrite Hget.
    apply String.eqb_eq in Hown. rewrite Hown. reflexivity. }
  unfold try_except, bind in Hr. rewrite Hsvc in Hr.
  destruct (ProductSchema_validate (pydantic env) (clock w)
              (ProductService.stringify_id doc')) as [p | e] eqn:Hval.
  - cbn in Hr. exists w2, (Model p). split; [exact Hr |].
    split; [exact Hp2 |]. split; [congruence | discriminate].
  - assert (Hr' : exists detail,
              Crud.partial_update_product env product_id update_data
                current_user w = (Ret (JSONResponse 500 detail), w2)).
    { destruct (isinstance_any e [CInvalidId; CPyMongoError; CValueError])
        eqn:Hin.
      - cbn in Hr. eauto.
      - destruct (@route_handlers_catch ProductSchema e w2)
          as (h & Hsel & Hst & status & detail & Hh & Hstatus & H422).
        unfold Crud.route_handlers in Hr. rewrite Hsel in Hr.
        assert (status = 500).
        { destruct Hstatus as [-> | ->]; [| reflexivity].
          specialize (H422 eq_refl). apply value_error_clause in H422.
          congruence. }
        subst status. exists detail. rewrite Hr.
        destruct (h e w2) as [o w3]. cbn in Hst, Hh. congruence. }
    destruct Hr' as (detail & Hr').
    exists w2, (JSONResponse 500 detail). split; [exact Hr' |].
    split; [exact Hp2 |]. split; [discriminate |].
    intros e0 [= <-]. split; [eauto |].
    intros Hdb2.
    destruct (round_trip_ok w2 Hdb2) as (w3 & Hrt & _ & Hp3 & Hc3 & _).
    destruct (to_schemas_raises env (clock w) pre post doc' e Hval)
      as (e' & Hall & Hk).
    exists e'.
    unfold Crud.get_all_products, ProductService.get_all_products, try_except,
      Mongo.products_find, bind, utcnow, lift.
    rewrite Hrt, Hp3, Hp2, Hc3, Hc2, Hc1, Hall.
    cbn [select_handler isinstance_any existsb]. rewrite Hk. reflexivity.
Qed.

Lemma patch_writes_before_validating_witness :
  exists w2 reply,
    Crud.partial_update_product Demo.env Scenario.widget_id
      {[ "name" := VStr "x" ]} Scenario.alice Scenario.world
    = (Ret reply, w2)
    /\ products w2
       = [ <["updated_at" := VTime (clock Scenario.world)]>
             {[ "name" := VStr "x" ]} ∪ Scenario.widget ]
    /\ (exists detail, reply = JSONResponse 500 detail)
    /\ (exists e', fst (Crud.get_all_products Demo.env w2) = Raise e').
Proof.
  assert (Hget : ProductService.get_product_by_id Demo.env Scenario.widget_id
                   Scenario.world
                 = (Ret (Some (mkProduct "widget" None 999 (Some 0)
                                 (Some Scenario.widget_id) Scenario.alice_id
                                 true 1000 1000)), Scenario.world))
    by (vm_compute; reflexivity).
  assert (Hid : Mongo.has_id (ObjectId.binary Scenario.widget_id)
                  Scenario.widget = true) by (vm_compute; reflexivity).
  assert (Hne : ({[ "name" := VStr "x" ]} : Doc) <> ∅)
    by (vm_compute; discriminate).
  assert (Hplain : Mongo.plain_update {[ "name" := VStr "x" ]} = true)
    by (vm_compute; reflexivity).
  assert (Hjson : forall h, ({[ "name" := VStr "x" ]} : Doc) !! "price"
                            <> Some (VDecimal h))
    by (intros h; vm_compute; discriminate).
  assert (Hdb : head (db_faults Scenario.world) <> Some true)
    by (simpl; discriminate).
  destruct (patch_writes_before_validating Demo.env Scenario.widget_id
              {[ "name" := VStr "x" ]} Scenario.alice Scenario.world
              Scenario.world [] [] Scenario.widget _ Hget eq_refl eq_refl
              (List.Forall_nil _) Hid Hne Hplain Hjson Hdb)
    as (w2 & reply & Hr & Hp & _ & Hbad).
  assert (Hw2 : db_faults w2 = []).
  { assert (E : w2 = snd (Crud.partial_update_product Demo.env
                            Scenario.widget_id {[ "name" := VStr "x" ]}
                            Scenario.alice Scenario.world))
      by (rewrite Hr; reflexivity).
    rewrite E. vm_compute. reflexivity. }
  edestruct Hbad as [Hreply Hlist]; [vm_compute; reflexivity |].
  exists w2, reply. split; [exact Hr |]. split; [exact Hp |].
  split; [exact Hreply |]. apply Hlist. rewrite Hw2. simpl. discriminate.
Defined.

(** ** Creating a product *)

(** The id the driver generates for the next insert. *)
Lemma products_insert_one_refused (doc : Doc) (w : World) :
  head (db_faults w) = Some true
  \/ existsb (Mongo.has_id (Mongo.hex 24 (oid_counter w) EmptyString))
       (products w) = true ->
  exists w' e,
    Mongo.products_insert_one doc w = (Raise e, w')
    /\ products w' = products w /\ users w' = users w.
Proof.
  intros Hwhy. unfold Mongo.products_insert_one, bind, Mongo.new_oid.
  destruct (decide (head (db_faults w) = Some true)) as [Hdb | Hdb].
  - unfold Mongo.round_trip.
    destruct (db_faults w) as [| [|] fs]; try discriminate.
    do 2 eexists. split; [reflexivity |]. auto.
  - destruct Hwhy as [Hdb' | Htaken]; [contradiction |].
    destruct (round_trip_ok w Hdb) as (w1 & Hrt & Hu & Hp & _ & _ & Ho).
    rewrite Hrt, Ho. unfold set_oid_counter. cbn [products].
    rewrite Hp, Htaken.
    do 2 eexists. split; [reflexivity |]. cbn. auto.
Qed.

Lemma products_insert_one_oid (doc : Doc) (w : World) :
  head (db_faults w) <> Some true ->
  existsb (Mongo.has_id (Mongo.hex 24 (oid_counter w) EmptyString))
    (products w) = false ->
  exists w',
    Mongo.products_insert_one doc w
    = (Ret (Mongo.hex 24 (oid_counter w) EmptyString), w')
    /\ products w'
       = (products w
          ++ [<["_id" := VOid (Mongo.hex 24 (oid_counter w) EmptyString)]> doc])%list
    /\ users w' = users w /\ clock w' = clock w.
Proof.
  intros Hdb Hfree.
  destruct (round_trip_ok w Hdb) as (w1 & Hrt & Hu & Hp & Hc & _ & Ho).
  unfold Mongo.products_insert_one, bind, Mongo.new_oid. rewrite Hrt, Ho.
  unfold set_oid_counter. cbn [products]. rewrite Hp, Hfree.
  eexists. split; [reflexivity |]. cbn. auto.
Qed.

Ltac lookups :=
  repeat first
    [ rewrite lookup_insert_eq
    | rewrite lookup_insert_ne by congruence
    | rewrite lookup_empty ].

(** The fields [create_product] takes from the request. *)
Lemma create_dump_fields (c : ProductCreateSchema) :
  let d := ProductService.price_to_float (create_dump c) in
  d !! "name" = Some (VStr (cr_name c))
  /\ d !! "price" = Some (VFloat (cr_price c))
  /\ d !! "description" = VStr <$> cr_description c
  /\ d !! "stock"
     = match cr_stock c with
       | Some n => if n =? 0 then None else Some (VInt n)
       | None => None
       end
  /\ (forall k, k <> "name" -> k <> "price" -> k <> "description" ->
                k <> "stock" -> d !! k = None).
Proof.
  destruct c as [n [t |] p [s |]];
    cbv beta iota zeta delta [create_dump ProductService.price_to_float];
    cbn [cr_name cr_description cr_price cr_stock];
    try destruct (s =? 0); lookups;
    (split; [| split; [| split; [| split]]]); intros; lookups; reflexivity.
Qed.

Lemma to_schema_state (env : Env) (doc : Doc) (w : World) :
  snd (ProductService.to_schema env doc w) = w.
Proof.
  unfold ProductService.to_schema, bind, utcnow, lift.
  destruct (ProductSchema_validate _ _ _); reflexivity.
Qed.

(** X11.  The body of POST /products/, run on a request that passed
    validation, never raises: it always returns a reply.  When the
    database does not answer, or when the server refuses the [_id] the
    driver generated because a stored document carries it already,
    nothing is stored and the reply is a 500.  Otherwise exactly one
    document is appended: its [_id] is the generated one, which no
    document stored before carries; its owner is the caller; its name and
    its price (as a float) are the request's; its two timestamps are the
    current time; a description that is not set and a stock that is not
    set or is 0 are not stored. *)
Theorem create_product_stores_owned_document (env : Env)
  (product_schema : ProductCreateSchema) (current_user : AuthSchema)
  (w : World) :
  exists w' reply,
    Crud.create_product env product_schema current_user w = (Ret reply, w')
    /\ users w' = users w
    /\ (head (db_faults w) = Some true
        \/ existsb (Mongo.has_id (Mongo.hex 24 (oid_counter w) EmptyString))
             (products w) = true ->
        products w' = products w
        /\ exists detail, reply = JSONResponse 500 detail)
    /\ (head (db_faults w) <> Some true ->
        existsb (Mongo.has_id (Mongo.hex 24 (oid_counter w) EmptyString))
          (products w) = false ->
        exists doc oid,
          products w' = (products w ++ [doc])%list
          /\ doc !! "_id" = Some (VOid oid)
          /\ Forall (fun d => Mongo.has_id oid d = false) (products w)
          /\ doc !! "owner_id" = Some (VStr (u_id current_user))
          /\ doc !! "name" = Some (VStr (cr_name product_schema))
          /\ doc !! "price" = Some (VFloat (cr_price product_schema))
          /\ doc !! "created_at" = Some (VTime (clock w))
          /\ doc !! "updated_at" = Some (VTime (clock w))
          /\ doc !! "description" = VStr <$> cr_description product_schema
          /\ doc !! "stock"
             = match cr_stock product_schema with
               | Some n => if n =? 0 then None else Some (VInt n)
               | None => None
               end
          /\ doc !! "is_active" = None).
Proof.
  destruct (create_dump_fields product_schema)
    as (Hname & Hprice & Hdesc & Hstock & Hother).
  set (d := ProductService.price_to_float (create_dump product_schema)) in *.
  set (product_dict :=
         <["owner_id" := VStr (u_id current_user)]>
           (<["updated_at" := VTime (clock w)]>
              (<["created_at" := VTime (clock w)]> d))).
  set (next := Mongo.hex 24 (oid_counter w) EmptyString).
  assert (Hsvc : ProductService.create_product env current_user product_schema w
                 = try_except
                     (inserted_id <- Mongo.products_insert_one product_dict ;;
                      ProductService.to_schema env
                        (<["_id" := VOid inserted_id]> product_dict))
                     [ ([CException],
                        fun e => raise (Exception_
                                   ("Database error while creating product: "
                                    ++ Py.str e))) ] w)
    by reflexivity.
  unfold Crud.create_product, try_except at 1, bind at 1. rewrite Hsvc.
  rewrite try_except_Exception. unfold bind at 1.
  destruct (decide (head (db_faults w) = Some true
                    \/ existsb (Mongo.has_id next) (products w) = true))
    as [Hno | Hyes].
  - destruct (products_insert_one_refused product_dict w Hno)
      as (w1 & e & -> & Hp & Hu).
    unfold raise.
    destruct (@route_handlers_catch ProductSchema
                (Exception_ ("Database error while creating product: "
                             ++ Py.str e)) w1)
      as (h & Hsel & Hst & status & detail & Hh & Hstatus & H422).
    unfold Crud.route_handlers. rewrite Hsel.
    destruct (h _ w1) as [o w2]. cbn [fst snd] in *. subst.
    do 2 eexists. split; [reflexivity |]. split; [assumption |].
    split.
    + intros _. split; [assumption |].
      destruct Hstatus as [-> | ->]; [| eauto].
      specialize (H422 eq_refl). discriminate.
    + intros Hdb Hfree. exfalso. destruct Hno as [Hdb' | Htaken];
        [contradiction | congruence].
  - assert (Hdb : head (db_faults w) <> Some true) by tauto.
    assert (Hfree : existsb (Mongo.has_id next) (products w) = false).
    { destruct (existsb (Mongo.has_id next) (products w)); [| reflexivity].
      exfalso. apply Hyes. auto. }
    destruct (products_insert_one_oid product_dict w Hdb Hfree)
      as (w1 & -> & Hp & Hu & Hc).
    fold next in Hp.
    pose proof (to_schema_state env (<["_id" := VOid next]> product_dict) w1)
      as Hst1.
    assert (Hdoc : exists doc oid0,
              products w1 = (products w ++ [doc])%list
              /\ doc !! "_id" = Some (VOid oid0)
              /\ Forall (fun d => Mongo.has_id oid0 d = false) (products w)
              /\ doc !! "owner_id" = Some (VStr (u_id current_user))
              /\ doc !! "name" = Some (VStr (cr_name product_schema))
              /\ doc !! "price" = Some (VFloat (cr_price product_schema))
              /\ doc !! "created_at" = Some (VTime (clock w))
              /\ doc !! "updated_at" = Some (VTime (clock w))
              /\ doc !! "description" = VStr <$> cr_description product_schema
              /\ doc !! "stock"
                 = match cr_stock product_schema with
                   | Some n => if n =? 0 then None else Some (VInt n)
                   | None => None
                   end
              /\ doc !! "is_active" = None).
    { exists (<["_id" := VOid next]> product_dict), next.
      split; [exact Hp |]. split; [apply lookup_insert_eq |].
      split.
      { apply Forall_forall. intros x Hx.
        destruct (Mongo.has_id next x) eqn:Hid; [| reflexivity].
        assert (existsb (Mongo.has_id next) (products w) = true) as Hex
          by (apply existsb_exists; exists x; split;
              [apply list_elem_of_In; exact Hx | exact Hid]).
        congruence. }
      unfold product_dict. repeat split; lookups; auto. }
    fold next.
    destruct (ProductService.to_schema env (<["_id" := VOid next]> product_dict)
                w1) as [[p | e] w2]; cbn [snd] in Hst1; subst w2.
    + do 2 eexists. split; [reflexivity |]. split; [assumption |].
      split; [tauto | intros _ _; exact Hdoc].
    + unfold raise.
      destruct (@route_handlers_catch ProductSchema
                  (Exception_ ("Database error while creating product: "
                               ++ Py.str e)) w1)
        as (h & Hsel & Hst & status & detail & Hh & _).
      unfold Crud.route_handlers. rewrite Hsel.
      destruct (h _ w1) as [o w2]. cbn [fst snd] in *. subst.
      do 2 eexists. split; [reflexivity |]. split; [assumption |].
      split; [tauto | intros _ _; exact Hdoc].
Qed.

Lemma create_product_stores_owned_document_witness :
  exists w' reply doc,
    Crud.create_product Demo.env (mkCreate "lamp" None 1999 (Some 0))
      Scenario.alice Scenario.world = (Ret reply, w')
    /\ products w' = (products Scenario.world ++ [doc])%list
    /\ doc !! "owner_id" = Some (VStr (u_id Scenario.alice))
    /\ doc !! "stock" = None.
Proof.
  pose proof (create_product_stores_owned_document Demo.env
                (mkCreate "lamp" None 1999 (Some 0)) Scenario.alice
                Scenario.world) as (w' & reply & Hr & _ & _ & Hok).
  destruct Hok as (doc & oid & Hp & _ & _ & Ho & _ & _ & _ & _ & _ & Hs & _).
  { simpl. discriminate. }
  { vm_compute. reflexivity. }
  exists w', reply, doc. auto.
Defined.

(** ** Requests that only read *)

Lemma same_data_refl (w : World) : same_data w w.
Proof. unfold same_data. auto. Qed.

Lemma same_data_trans (w1 w2 w3 : World) :
  same_data w1 w2 -> same_data w2 w3 -> same_data w1 w3.
Proof. unfold same_data. intros (-> & -> & ->) (-> & -> & ->). auto. Qed.

Lemma read_only_ret {A} (a : A) : read_only (ret a).
Proof. intros w. apply same_data_refl. Qed.

Lemma read_only_raise {A} (e : exn) : read_only (@raise A e).
Proof. intros w. apply same_data_refl. Qed.

Lemma read_only_lift {A} (o : outcome A) : read_only (lift o).
Proof. intros w. apply same_data_refl. Qed.

Lemma read_only_utcnow : read_only utcnow.
Proof. intros w. apply same_data_refl. Qed.

Lemma read_only_round_trip : read_only Mongo.round_trip.
Proof.
  intros w. destruct (round_trip_frame w) as (Hu & Hp & Hc & _).
  unfold same_data. auto.
Qed.

Lemma read_only_bind {A B} (m : M A) (k : A -> M B) :
  read_only m -> (forall a, read_only (k a)) -> read_only (bind m k).
Proof.
  intros Hm Hk w. unfold bind. specialize (Hm w).
  destruct (m w) as [[a | e] w']; cbn [snd] in *; [| exact Hm].
  eapply same_data_trans; [exact Hm | apply Hk].
Qed.

Lemma read_only_try_except {A} (m : M A)
  (clauses : list (list cls * (exn -> M A))) :
  read_only m ->
  (forall cs h, In (cs, h) clauses -> forall e, read_only (h e)) ->
  read_only (try_except m clauses).
Proof.
  intros Hm Hh w. unfold try_except. specialize (Hm w).
  destruct (m w) as [[a | e] w']; cbn [snd] in *; [exact Hm |].
  destruct (select_handler e clauses) as [h |] eqn:Hsel; [| exact Hm].
  destruct (select_handler_In _ _ _ Hsel) as [cs Hin].
  eapply same_data_trans; [exact Hm | eapply Hh; eauto].
Qed.

(** A clause list all of whose handlers raise or return. *)
Ltac read_only_handlers :=
  let cs := fresh "cs" in
  let h := fresh "h" in
  let Hin := fresh "Hin" in
  let e := fresh "e" in
  intros cs h Hin e; cbn [In] in Hin;
  repeat match goal with
         | H : _ \/ _ |- _ => destruct H as [H | H]
         | H : False |- _ => destruct H
         | H : (_, _) = (_, _) |- _ => injection H as <- <-
         end;
  first [apply read_only_raise | apply read_only_ret].

Lemma read_only_users_find_one (filter : AuthSchema -> bool) :
  read_only (Mongo.users_find_one filter).
Proof.
  unfold Mongo.users_find_one. apply read_only_bind.
  - apply read_only_round_trip.
  - intros _ w. apply same_data_refl.
Qed.

Lemma read_only_products_find_one (oid : string) :
  read_only (Mongo.products_find_one oid).
Proof.
  unfold Mongo.products_find_one. apply read_only_bind.
  - apply read_only_round_trip.
  - intros _ w. apply same_data_refl.
Qed.

Lemma read_only_products_find : read_only Mongo.products_find.
Proof.
  unfold Mongo.products_find. apply read_only_bind.
  - apply read_only_round_trip.
  - intros _ w. apply same_data_refl.
Qed.

Ltac read_only_step :=
  first
    [ apply read_only_ret | apply read_only_raise | apply read_only_lift
    | apply read_only_utcnow | apply read_only_round_trip
    | apply read_only_users_find_one | apply read_only_products_find_one
    | apply read_only_products_find
    | match goal with
      | |- read_only (match ?x with _ => _ end) => destruct x
      end
    | apply read_only_try_except; [| read_only_handlers]
    | apply read_only_bind; [| intros ?] ].

Lemma read_only_decode_token (env : Env) (token : string) :
  read_only (Password.decode_token env token).
Proof. unfold Password.decode_token. repeat read_only_step. Qed.

Lemma read_only_get_user_by_id (user_id : string) :
  read_only (UserService.get_user_by_id user_id).
Proof. unfold UserService.get_user_by_id. repeat read_only_step. Qed.

Lemma read_only_get_user_by_username (username : string) :
  read_only (UserService.get_user_by_username username).
Proof. unfold UserService.get_user_by_username. repeat read_only_step. Qed.

Lemma read_only_authenticate_user (env : Env) (username password : string) :
  read_only (UserService.authenticate_user env username password).
Proof.
  unfold UserService.authenticate_user.
  apply read_only_bind; [apply read_only_get_user_by_username |].
  intros [u |]; repeat read_only_step.
Qed.

Lemma read_only_create_access_token (env : Env) (data : Doc)
  (expires_delta : option Z) :
  read_only (Password.create_access_token env data expires_delta).
Proof. unfold Password.create_access_token. repeat read_only_step. Qed.

Lemma read_only_get_product_by_id (env : Env) (pid : string) :
  read_only (ProductService.get_product_by_id env pid).
Proof.
  intros w. destruct (get_product_by_id_state env pid w) as (Hp & Hu & Hc).
  unfold same_data. auto.
Qed.

(** X12.  The requests that only read.  Resolving the bearer token,
    logging in, fetching one product and listing all products leave the
    users, the products and the clock exactly as they were, whatever the
    token, the credentials, the id, the stored data and the answers of
    the database. *)
Theorem reading_routes_write_nothing (env : Env) (token username password
  product_id : string) (w : World) :
  same_data w (snd (Permissions.get_current_user env token w))
  /\ same_data w
       (snd (UserRoutes.login_for_access_token env username password w))
  /\ same_data w (snd (Crud.get_product env product_id w))
  /\ same_data w (snd (Crud.get_all_products env w)).
Proof.
  split; [| split; [| split]].
  - revert w. fold (read_only (Permissions.get_current_user env token)).
    unfold Permissions.get_current_user.
    apply read_only_try_except; [| read_only_handlers].
    apply read_only_bind; [apply read_only_decode_token |].
    intros user_id. destruct (negb _ || negb _); [apply read_only_raise |].
    apply read_only_bind; [apply read_only_get_user_by_id |].
    intros [u |]; read_only_step.
  - revert w.
    fold (read_only (UserRoutes.login_for_access_token env username password)).
    unfold UserRoutes.login_for_access_token.
    apply read_only_bind; [apply read_only_authenticate_user |].
    intros [u |]; [| apply read_only_raise].
    apply read_only_bind; [apply read_only_create_access_token |].
    intros t. apply read_only_ret.
  - revert w. fold (read_only (Crud.get_product env product_id)).
    unfold Crud.get_product.
    destruct (negb _); [apply read_only_raise |].
    apply read_only_bind; [apply read_only_get_product_by_id |].
    intros [p |]; read_only_step.
  - revert w. fold (read_only (Crud.get_all_products env)).
    unfold Crud.get_all_products, ProductService.get_all_products.
    apply read_only_try_except; [| read_only_handlers].
    apply read_only_bind; [apply read_only_products_find |].
    intros docs. apply read_only_bind; [apply read_only_utcnow |].
    intros now. apply read_only_lift.
Qed.

(** ** From login to an authenticated request *)

Lemma get_user_by_id_ok (user_id : string) (w : World) :
  ObjectId.is_valid_str user_id = true ->
  head (db_faults w) <> Some true ->
  exists w',
    UserService.get_user_by_id user_id w
    = (Ret (find (fun u => String.eqb (u_id u) (ObjectId.binary user_id))
              (users w)), w').
Proof.
  intros Hvalid Hdb. destruct (round_trip_ok w Hdb) as (w' & Hrt & Hu & _).
  exists w'.
  unfold UserService.get_user_by_id, try_except, bind, lift, ObjectId.make,
    Mongo.users_find_one, bind.
  rewrite Hvalid, Hrt, Hu. reflexivity.
Qed.

Lemma valid_id_truthy (s : string) :
  ObjectId.is_valid_str s = true ->
  truthy (VStr s) && ObjectId.is_valid (VStr s) = true.
Proof.
  intros H. cbn [truthy ObjectId.is_valid]. rewrite H.
  destruct s; [discriminate | reflexivity].
Qed.

Lemma decode_token_faults (env : Env) (token : string) (w : World) :
  db_faults (snd (Password.decode_token env token w)) = db_faults w.
Proof.
  unfold Password.decode_token, try_except, bind, utcnow, lift, raise, ret.
  destruct (Jwt.decode _ _ _ _) as [payload | e]; cbn [fst snd].
  - destruct (Password.payload_get payload "sub"); reflexivity.
  - destruct (select_handler e _) as [h |] eqn:Hsel; [| reflexivity].
    apply select_handler_In in Hsel as (cs & Hin).
    cbn [In] in Hin.
    destruct Hin as [Hin | [Hin | []]]; injection Hin as _ <-; reflexivity.
Qed.

(** X13.  The token the login route returns for a user resolves, on any
    later request made before it expires and with the database
    answering, to the stored record that carries the user's id, and to a
    401 if no record carries it any more; from the expiry time on every
    request with it is answered 401.  (The token library is assumed to
    read back the claims it signed.) *)
Theorem login_token_resolves_until_expiry (env : Env)
  (username password : string) (w : World) (u : AuthSchema) :
  fst (UserService.authenticate_user env username password w) = Ret (Some u) ->
  ObjectId.is_valid_str (u_id u) = true ->
  let lifetime := ACCESS_TOKEN_EXPIRE_MINUTES (settings env) * 60 in
  let token :=
    Jwt.jws_encode (jwt env) (issued_claims (u_id u) (clock w) lifetime)
      (SECRET_KEY (settings env)) in
  Jwt.jws_decode (jwt env) token (SECRET_KEY (settings env))
  = Ret (issued_claims (u_id u) (clock w) lifetime) ->
  fst (UserRoutes.login_for_access_token env username password w)
  = Ret {| access_token := token; token_type := "bearer" |}
  /\ (forall w',
        clock w + lifetime <= clock w' ->
        fst (Permissions.get_current_user env token w')
        = Raise (HTTPException 401 "Could not validate credentials" true))
  /\ (forall w',
        clock w' < clock w + lifetime ->
        head (db_faults w') <> Some true ->
        fst (Permissions.get_current_user env token w')
        = match find (fun x => String.eqb (u_id x)
                                 (ObjectId.binary (u_id u)))
                  (users w') with
          | Some u' => Ret u'
          | None => Raise (HTTPException 401 "Could not validate credentials"
                             true)
          end).
Proof.
  intros Hauth Hvalid lifetime token Hrt.
  split; [| split].
  - pose proof (read_only_authenticate_user env username password w)
      as (_ & _ & Hc).
    unfold UserRoutes.login_for_access_token, bind at 1.
    destruct (UserService.authenticate_user env username password w)
      as [[o | e] w1]; cbn [fst snd] in *; [| discriminate].
    injection Hauth as ->.
    unfold bind. rewrite create_access_token_claims.
    unfold Password.token_lifetime, Password.timedelta_minutes.
    rewrite Hc. reflexivity.
  - intros w' Hexp. rewrite get_current_user_cases.
    pose proof (decode_token_expiry env token (u_id u) (clock w) lifetime w'
                  Hrt) as Hdec.
    destruct (Z.leb_spec (clock w + lifetime) (clock w')); [| lia].
    destruct (Password.decode_token env token w') as [[v | e] w1];
      cbn [fst] in Hdec; [discriminate | reflexivity].
  - intros w' Hlive Hdb. rewrite get_current_user_cases.
    pose proof (decode_token_expiry env token (u_id u) (clock w) lifetime w'
                  Hrt) as Hdec.
    pose proof (read_only_decode_token env token w') as (Hu1 & _ & _).
    pose proof (decode_token_faults env token w') as Hst.
    destruct (Z.leb_spec (clock w + lifetime) (clock w')); [lia |].
    destruct (Password.decode_token env token w') as [[v | e] w1];
      cbn [fst snd] in *; [| discriminate].
    injection Hdec as ->. rewrite (valid_id_truthy _ Hvalid).
    cbn [UserService.as_text].
    destruct (get_user_by_id_ok (u_id u) w1 Hvalid) as (w2 & ->);
      [congruence |].
    cbn [fst]. rewrite Hu1.
    destruct (find _ (users w')); reflexivity.
Qed.

Lemma login_token_resolves_until_expiry_witness :
  fst (UserRoutes.login_for_access_token Demo.env "alice" "secret"
         Scenario.world)
  = Ret {| access_token := Scenario.alice_token; token_type := "bearer" |}
  /\ fst (Permissions.get_current_user Demo.env Scenario.alice_token
            (at_time 5599 Scenario.world)) = Ret Scenario.alice
  /\ fst (Permissions.get_current_user Demo.env Scenario.alice_token
            (at_time 5600 Scenario.world))
     = Raise (HTTPException 401 "Could not validate credentials" true).
Proof.
  assert (Hauth : fst (UserService.authenticate_user Demo.env "alice" "secret"
                         Scenario.world) = Ret (Some Scenario.alice))
    by (vm_compute; reflexivity).
  assert (Hvalid : ObjectId.is_valid_str (u_id Scenario.alice) = true)
    by (vm_compute; reflexivity).
  assert (Hrt : Jwt.jws_decode (jwt Demo.env) Scenario.alice_token
                  (SECRET_KEY (settings Demo.env))
                = Ret (issued_claims (u_id Scenario.alice)
                         (clock Scenario.world)
                         (ACCESS_TOKEN_EXPIRE_MINUTES (settings Demo.env) * 60)))
    by (vm_compute; reflexivity).
  pose proof (login_token_resolves_until_expiry Demo.env "alice" "secret"
                Scenario.world Scenario.alice Hauth Hvalid Hrt)
    as (Hlogin & Hexpired & Hlive).
  split; [exact Hlogin |]. split.
  - apply (Hlive (at_time 5599 Scenario.world)); [reflexivity |].
    simpl. discriminate.
  - apply (Hexpired (at_time 5600 Scenario.world)). discriminate.
Defined.

(** ** What [decode_token] lets out *)






(** ** Deleting a user *)

Lemma delete_first_user_none (filter : AuthSchema -> bool)
  (us : list AuthSchema) :
  Forall (fun u => filter u = false) us ->
  Mongo.delete_first_user filter us = (0, us).
Proof.
  induction 1 as [| u us Hu _ IH]; simpl; [reflexivity |].
  rewrite Hu, IH. reflexivity.
Qed.

Lemma delete_first_user_split (filter : AuthSchema -> bool)
  (pre post : list AuthSchema) (u : AuthSchema) :
  Forall (fun x => filter x = false) pre ->
  filter u = true ->
  Mongo.delete_first_user filter (pre ++ u :: post)%list
  = (1, (pre ++ post)%list).
Proof.
  intros Hpre Hu. induction Hpre as [| x pre Hx _ IH]; simpl.
  - rewrite Hu. reflexivity.
  - rewrite Hx, IH. reflexivity.
Qed.

Lemma delete_first_user_count (filter : AuthSchema -> bool)
  (us : list AuthSchema) :
  (0 <? fst (Mongo.delete_first_user filter us)) = existsb filter us.
Proof.
  induction us as [| u us IH]; simpl; [reflexivity |].
  destruct (filter u); [reflexivity |].
  destruct (Mongo.delete_first_user filter us) as [n rest]. exact IH.
Qed.

(** With ids that are all different, no record that stays has the id
    that was asked for. *)
Lemma delete_first_user_unique (oid : string) (us : list AuthSchema) :
  NoDup (map u_id us) ->
  Forall (fun u => String.eqb (u_id u) oid = false)
    (snd (Mongo.delete_first_user (fun u => String.eqb (u_id u) oid) us)).
Proof.
  induction us as [| u us IH]; simpl; intros Hnd; [constructor |].
  apply NoDup_cons in Hnd as [Hnotin Hnd].
  destruct (String.eqb_spec (u_id u) oid) as [Heq | Hne].
  - cbn [snd]. apply Forall_forall. intros x Hx.
    apply String.eqb_neq. intros Hxid. apply Hnotin.
    rewrite Heq, <- Hxid. apply list_elem_of_fmap. exists x.
    split; [reflexivity | exact Hx].
  - specialize (IH Hnd).
    destruct (Mongo.delete_first_user _ us) as [n rest]. cbn [snd] in *.
    constructor; [| exact IH]. apply String.eqb_neq. exact Hne.
Qed.

(** X15.  [delete_user] guards itself against the database only: an id
    that [ObjectId(...)] refuses makes it raise bson's InvalidId as it
    is, since that is neither a PyMongoError nor a ValueError, before any
    call to the database; a database failure becomes a 500 and no record
    is removed. *)
Theorem delete_user_errors (user_id : string) (w : World) :
  (ObjectId.is_valid_str user_id = false ->
   UserService.delete_user user_id w = (Raise InvalidId, w))
  /\ (ObjectId.is_valid_str user_id = true ->
      head (db_faults w) = Some true ->
      fst (UserService.delete_user user_id w)
      = Raise (HTTPException 500
                 "Error deleting user: ServerSelectionTimeoutError" false)
      /\ same_data w (snd (UserService.delete_user user_id w))).
Proof.
  split.
  - intros Hbad.
    unfold UserService.delete_user, try_except, bind, lift, ObjectId.make.
    rewrite Hbad. reflexivity.
  - intros Hok Hdb.
    unfold UserService.delete_user, try_except, bind, lift, ObjectId.make,
      Mongo.users_delete_one, bind, Mongo.round_trip.
    rewrite Hok.
    destruct (db_faults w) as [| [] fs]; try discriminate.
    cbn. unfold same_data. auto.
Qed.

Lemma delete_user_errors_witness :
  UserService.delete_user "42" Scenario.world
  = (Raise InvalidId, Scenario.world)
  /\ fst (UserService.delete_user Scenario.alice_id Scenario.world_db_down)
     = Raise (HTTPException 500
                "Error deleting user: ServerSelectionTimeoutError" false).
Proof.
  split.
  - apply (delete_user_errors "42" Scenario.world). reflexivity.
  - apply (delete_user_errors Scenario.alice_id Scenario.world_db_down);
      reflexivity.
Defined.

(** X16.  With a well-formed id and the database answering,
    [delete_user] returns whether a record had the id, removes the first
    such record and nothing else, and leaves the products alone; when the
    ids of the stored users are all different, a later [get_user_by_id]
    for the id finds nobody. *)
Theorem delete_user_removes_first_match (user_id : string) (w : World) :
  ObjectId.is_valid_str user_id = true ->
  head (db_faults w) <> Some true ->
  exists w',
    UserService.delete_user user_id w
    = (Ret (existsb (fun u => String.eqb (u_id u)
                                (ObjectId.binary user_id)) (users w)),
       w')
    /\ products w' = products w
    /\ (Forall (fun u => String.eqb (u_id u) (ObjectId.binary user_id)
                         = false) (users w) ->
        users w' = users w)
    /\ (forall pre u post,
          users w = (pre ++ u :: post)%list ->
          Forall (fun x => String.eqb (u_id x) (ObjectId.binary user_id)
                           = false) pre ->
          String.eqb (u_id u) (ObjectId.binary user_id) = true ->
          users w' = (pre ++ post)%list)
    /\ (NoDup (map u_id (users w)) ->
        head (db_faults w') <> Some true ->
        fst (UserService.get_user_by_id user_id w') = Ret None).
Proof.
  intros Hvalid Hdb.
  destruct (round_trip_ok w Hdb) as (w1 & Hrt & Hu & Hp & _).
  set (f := fun u => String.eqb (u_id u) (ObjectId.binary user_id)).
  exists (set_users (snd (Mongo.delete_first_user f (users w))) w1).
  split; [| split; [| split; [| split]]].
  - unfold UserService.delete_user, try_except, bind, lift, ObjectId.make,
      Mongo.users_delete_one, bind, ret.
    rewrite Hvalid, Hrt, Hu. fold f.
    rewrite <- (delete_first_user_count f (users w)).
    destruct (Mongo.delete_first_user f (users w)) as [n rest]. reflexivity.
  - simpl. exact Hp.
  - intros Hnone. simpl. rewrite (delete_first_user_none f _ Hnone).
    reflexivity.
  - intros pre u post Hsplit Hpre Hmatch. simpl.
    rewrite Hsplit, (delete_first_user_split f pre post u Hpre Hmatch).
    reflexivity.
  - intros Hnd Hdb'.
    destruct (get_user_by_id_ok user_id _ Hvalid Hdb') as (w2 & ->).
    cbn [fst]. f_equal. simpl users.
    apply find_none_Forall.
    exact (delete_first_user_unique (ObjectId.binary user_id)
             (users w) Hnd).
Qed.

Lemma delete_user_removes_first_match_witness :
  exists w',
    UserService.delete_user Scenario.alice_id Scenario.world = (Ret true, w')
    /\ users w' = [Scenario.mallory]
    /\ fst (UserService.get_user_by_id Scenario.alice_id w') = Ret None.
Proof.
  assert (Hvalid : ObjectId.is_valid_str Scenario.alice_id = true)
    by (vm_compute; reflexivity).
  assert (Hdb : head (db_faults Scenario.world) <> Some true)
    by (simpl; discriminate).
  pose proof (delete_user_removes_first_match Scenario.alice_id Scenario.world
                Hvalid Hdb) as (w' & Hrun & _ & _ & Hsplit & Hget).
  exists w'. split; [exact Hrun |]. split.
  - apply (Hsplit [] Scenario.alice [Scenario.mallory]);
      [reflexivity | constructor | vm_compute; reflexivity].
  - apply Hget.
    + apply (bool_decide_unpack _). vm_compute. exact I.
    + assert (Hw : w' = snd (UserService.delete_user Scenario.alice_id
                               Scenario.world))
        by (rewrite Hrun; reflexivity).
      rewrite Hw. vm_compute. discriminate.
Defined.


(** ** Creating a product, then fetching it *)

Lemma hex_digit_lower_hex (n : N) :
  ObjectId.is_hex_digit (Mongo.hex_digit n) = true
  /\ ObjectId.is_space (Mongo.hex_digit n) = false
  /\ ObjectId.lower (Mongo.hex_digit n) = Mongo.hex_digit n.
Proof.
  unfold Mongo.hex_digit.
  pose proof (N.mod_upper_bound n 16) as Hlt.
  assert (Hk : (N.to_nat (n mod 16) < 16)%nat) by lia.
  clear Hlt. revert Hk. generalize (N.to_nat (n mod 16)) as k. intros k Hk.
  do 16 (destruct k as [| k]; [repeat split; reflexivity |]). lia.
Qed.

(** An even number of generated digits reads back as itself. *)
Lemma hex_spec (pairs : nat) (n : N) (acc : string) :
  String.length (Mongo.hex (2 * pairs) n acc)
  = (2 * pairs + String.length acc)%nat
  /\ (ObjectId.fromhex acc = Some acc ->
      ObjectId.fromhex (Mongo.hex (2 * pairs) n acc)
      = Some (Mongo.hex (2 * pairs) n acc)).
Proof.
  revert n acc. induction pairs as [| pairs IH]; intros n acc.
  - simpl. auto.
  - replace (2 * S pairs)%nat with (S (S (2 * pairs))) by lia.
    cbn [Mongo.hex].
    destruct (IH (n / 16 / 16)%N
                (String (Mongo.hex_digit (n / 16))
                   (String (Mongo.hex_digit n) acc))) as (Hlen & Hread).
    destruct (hex_digit_lower_hex n) as (Hhex & _ & Hl).
    destruct (hex_digit_lower_hex (n / 16)) as (Hhex1 & Hsp1 & Hl1).
    split.
    + rewrite Hlen. simpl. lia.
    + intros Hacc. apply Hread. cbn [ObjectId.fromhex].
      rewrite Hsp1, Hhex1, Hhex, Hacc, Hl1, Hl. reflexivity.
Qed.

(** The ids the store hands out are well-formed and spell themselves. *)
Lemma new_oid_valid (n : N) :
  ObjectId.make (Mongo.hex 24 n EmptyString)
  = Ret (Mongo.hex 24 n EmptyString).
Proof.
  destruct (hex_spec 12 n EmptyString) as (Hlen & Hread).
  change (2 * 12)%nat with 24%nat in *.
  unfold ObjectId.make, ObjectId.is_valid_str, ObjectId.binary.
  rewrite Hlen, Hread by reflexivity. reflexivity.
Qed.

Lemma to_schema_run (env : Env) (doc : Doc) (w : World) :
  ProductService.to_schema env doc w
  = (ProductSchema_validate (pydantic env) (clock w)
       (ProductService.stringify_id doc), w).
Proof. reflexivity. Qed.

(** X17.  A product that POST /products/ answered with can be fetched.
    When the route returns a product, the document it appended carries
    an id, and GET /products/{id} with that id, the database answering,
    returns a product with the same id, name, description, price,
    stock, owner and active flag. *)
Theorem created_product_can_be_fetched (env : Env)
  (product_schema : ProductCreateSchema) (current_user : AuthSchema)
  (w w' : World) (p : ProductSchema) :
  Crud.create_product env product_schema current_user w = (Ret (Model p), w') ->
  exists doc oid,
    products w' = (products w ++ [doc])%list
    /\ doc !! "_id" = Some (VOid oid)
    /\ (head (db_faults w') <> Some true ->
        exists p', fst (Crud.get_product env oid w') = Ret p'
                   /\ same_product p p').
Proof.
  intros Hrun.
  set (d := ProductService.price_to_float (create_dump product_schema)) in *.
  set (product_dict :=
         <["owner_id" := VStr (u_id current_user)]>
           (<["updated_at" := VTime (clock w)]>
              (<["created_at" := VTime (clock w)]> d))).
  set (oid := Mongo.hex 24 (oid_counter w) EmptyString).
  assert (Hsvc : ProductService.create_product env current_user product_schema w
                 = try_except
                     (inserted_id <- Mongo.products_insert_one product_dict ;;
                      ProductService.to_schema env
                        (<["_id" := VOid inserted_id]> product_dict))
                     [ ([CException],
                        fun e => raise (Exception_
                                   ("Database error while creating product: "
                                    ++ Py.str e))) ] w)
    by reflexivity.
  unfold Crud.create_product, try_except at 1, bind at 1 in Hrun.
  rewrite Hsvc, try_except_Exception in Hrun. unfold bind at 1 in Hrun.
  assert (Hcaught : forall e w1,
             match select_handler e (@Crud.route_handlers ProductSchema) with
             | Some h => h e w1
             | None => (Raise e, w1)
             end <> (Ret (Model p), w')).
  { intros e w1.
    destruct (@route_handlers_catch ProductSchema e w1)
      as (h & Hsel & _ & status & detail & Hh & _).
    unfold Crud.route_handlers. rewrite Hsel. intros Heq.
    rewrite Heq in Hh. discriminate. }
  destruct (decide (head (db_faults w) = Some true
                    \/ existsb (Mongo.has_id oid) (products w) = true))
    as [Hno | Hyes].
  - destruct (products_insert_one_refused product_dict w Hno)
      as (w1 & e & Hins & _).
    rewrite Hins in Hrun. unfold raise in Hrun.
    exfalso.
    match type of Hrun with
    | context [select_handler ?x _] => exact (Hcaught x w1 Hrun)
    end.
  - assert (Hdb : head (db_faults w) <> Some true) by tauto.
    assert (Hfree : existsb (Mongo.has_id oid) (products w) = false).
    { destruct (existsb (Mongo.has_id oid) (products w)); [| reflexivity].
      exfalso. apply Hyes. auto. }
    destruct (products_insert_one_oid product_dict w Hdb Hfree)
      as (w1 & Hins & Hp & _ & Hc).
    fold oid in Hins, Hp.
    rewrite Hins, to_schema_run in Hrun.
    set (doc := <["_id" := VOid oid]> product_dict) in *.
    destruct (ProductSchema_validate (pydantic env) (clock w1)
                (ProductService.stringify_id doc)) as [p0 | e] eqn:Hval.
    + cbn in Hrun. injection Hrun as -> ->.
      exists doc, oid. split; [exact Hp |].
      split; [apply lookup_insert_eq |].
      intros Hdb'. exists p. split; [| unfold same_product; tauto].
      pose proof (new_oid_valid (oid_counter w)) as Hmake. fold oid in Hmake.
      assert (Hvalid : ObjectId.is_valid_str oid = true).
      { unfold ObjectId.make in Hmake.
        destruct (ObjectId.is_valid_str oid); [reflexivity | discriminate]. }
      destruct (round_trip_ok w' Hdb') as (w2 & Hrt & _ & Hp2 & Hc2 & _).
      unfold Crud.get_product. rewrite Hvalid. cbn [negb].
      unfold bind at 1.
      unfold ProductService.get_product_by_id, try_except, bind at 1, lift.
      rewrite Hmake. unfold bind at 1, Mongo.products_find_one, bind at 1.
      rewrite Hrt, Hp2, Hp.
      rewrite (find_app_last (Mongo.has_id oid) (products w) doc).
      * unfold ProductService.found, bind at 1. rewrite to_schema_run.
        rewrite Hc2, Hval. reflexivity.
      * intros y Hy.
        destruct (Mongo.has_id oid y) eqn:Hid; [| reflexivity].
        assert (existsb (Mongo.has_id oid) (products w) = true) as Hex
          by (apply existsb_exists; exists y; split; assumption).
        congruence.
      * unfold Mongo.has_id. apply bool_decide_eq_true. apply lookup_insert_eq.
    + unfold raise in Hrun. exfalso.
      match type of Hrun with
      | context [select_handler ?x _] => exact (Hcaught x w1 Hrun)
      end.
Qed.

Lemma created_product_can_be_fetched_witness :
  exists w' p p' oid,
    Crud.create_product Demo.env (mkCreate "lamp" None 1999 (Some 3))
      Scenario.alice Scenario.world = (Ret (Model p), w')
    /\ fst (Crud.get_product Demo.env oid w') = Ret p'
    /\ same_product p p'.
Proof.
  set (run := Crud.create_product Demo.env (mkCreate "lamp" None 1999 (Some 3))
                Scenario.alice Scenario.world).
  assert (Hfst : exists p, fst run = Ret (Model p))
    by (vm_compute; eexists; reflexivity).
  destruct Hfst as [p Hfst].
  assert (Hrun : run = (Ret (Model p), snd run))
    by (rewrite <- Hfst; apply surjective_pairing).
  destruct (created_product_can_be_fetched Demo.env _ _ _ _ _ Hrun)
    as (doc & oid & _ & _ & Hget).
  destruct Hget as (p' & Hp' & Hsame).
  { vm_compute. discriminate. }
  exists (snd run), p, p', oid. auto.
Defined.

(** ** When the database does not answer *)

Lemma get_product_by_id_fault (env : Env) (product_id : string) (w : World) :
  ObjectId.is_valid_str product_id = true ->
  head (db_faults w) = Some true ->
  fst (ProductService.get_product_by_id env product_id w)
  = Raise (Exception_
             "Error fetching product by ID: ServerSelectionTimeoutError")
  /\ same_data w (snd (ProductService.get_product_by_id env product_id w)).
Proof.
  intros Hvalid Hdb.
  unfold ProductService.get_product_by_id, try_except, bind, lift,
    ObjectId.make, Mongo.products_find_one, bind, Mongo.round_trip.
  rewrite Hvalid.
  destruct (db_faults w) as [| [] fs]; try discriminate.
  cbn. unfold same_data. auto.
Qed.

(** X18.  What each route does when its first call to the database
    fails.  The login route raises the HTTPException 500 that
    [get_user_by_username] builds.  The product routes that look a
    product up (GET by id, PUT, PATCH, DELETE, for a well-formed id) do
    that outside any [try]: the bare Exception of [get_product_by_id]
    leaves the route as it is, neither an HTTPException nor a JSON
    reply; so does the one of [get_all_products].  In every case the
    two collections are left as they were. *)
Theorem database_failure_answers (env : Env) (w : World) :
  head (db_faults w) = Some true ->
  (forall username password,
      fst (UserRoutes.login_for_access_token env username password w)
      = Raise (HTTPException 500
                 "Error fetching user by email: ServerSelectionTimeoutError"
                 false)
      /\ same_data w
           (snd (UserRoutes.login_for_access_token env username password w)))
  /\ (forall product_id,
         ObjectId.is_valid_str product_id = true ->
         (fst (Crud.get_product env product_id w)
          = Raise (Exception_
                     "Error fetching product by ID: ServerSelectionTimeoutError")
          /\ same_data w (snd (Crud.get_product env product_id w)))
         /\ forall op current_user,
             fst (handle env op product_id current_user w)
             = Raise (Exception_
                        "Error fetching product by ID: ServerSelectionTimeoutError")
             /\ same_data w (snd (handle env op product_id current_user w)))
  /\ fst (Crud.get_all_products env w)
     = Raise (Exception_
                "Database error while fetching products: ServerSelectionTimeoutError")
  /\ same_data w (snd (Crud.get_all_products env w)).
Proof.
  intros Hdb. split; [| split; [| split]].
  - intros username password.
    unfold UserRoutes.login_for_access_token, bind,
      UserService.authenticate_user, bind,
      UserService.get_user_by_username, try_except, Mongo.users_find_one,
      bind, Mongo.round_trip.
    destruct (db_faults w) as [| [] fs]; try discriminate.
    cbn. unfold same_data. auto.
  - intros product_id Hvalid.
    destruct (get_product_by_id_fault env product_id w Hvalid Hdb)
      as (Hfst & Hsnd).
    split.
    + unfold Crud.get_product, bind. rewrite Hvalid. cbn [negb].
      destruct (ProductService.get_product_by_id env product_id w)
        as [[r | e] w1]; cbn [fst snd] in *; [discriminate |].
      injection Hfst as ->. auto.
    + intros op current_user.
      destruct op; unfold handle, Crud.update_product,
        Crud.partial_update_product, Crud.delete_product, bind;
        rewrite Hvalid; cbn [negb];
        destruct (ProductService.get_product_by_id env product_id w)
          as [[r | e] w1]; cbn [fst snd] in *; try discriminate;
        injection Hfst as ->; auto.
  - unfold Crud.get_all_products, ProductService.get_all_products, try_except,
      bind, Mongo.products_find, bind, Mongo.round_trip.
    destruct (db_faults w) as [| [] fs]; try discriminate. reflexivity.
  - unfold Crud.get_all_products, ProductService.get_all_products, try_except,
      bind, Mongo.products_find, bind, Mongo.round_trip.
    destruct (db_faults w) as [| [] fs]; try discriminate.
    cbn. unfold same_data. auto.
Qed.

Lemma database_failure_answers_witness :
  fst (UserRoutes.login_for_access_token Demo.env "alice" "secret"
         Scenario.world_db_down)
  = Raise (HTTPException 500
             "Error fetching user by email: ServerSelectionTimeoutError" false)
  /\ fst (handle Demo.env Delete Scenario.widget_id Scenario.alice
            Scenario.world_db_down)
     = Raise (Exception_
                "Error fetching product by ID: ServerSelectionTimeoutError").
Proof.
  assert (Hdb : head (db_faults Scenario.world_db_down) = Some true)
    by reflexivity.
  pose proof (database_failure_answers Demo.env Scenario.world_db_down Hdb)
    as (Hlogin & Hprod & _).
  split.
  - apply Hlogin.
  - apply (Hprod Scenario.widget_id); vm_compute; reflexivity.
Defined.

(** ** Updating a product, then fetching it *)

Lemma try_except_ret_inv {A} (m : M A) (cs : list cls) (f : exn -> exn)
  (w w' : World) (a : A) :
  try_except m [(cs, fun e => raise (f e))] w = (Ret a, w') ->
  m w = (Ret a, w').
Proof.
  unfold try_except. destruct (m w) as [[a0 | e] w0]; [auto |].
  cbn [select_handler]. destruct (isinstance_any e cs); discriminate.
Qed.

Lemma plain_update_no_id (update : Doc) :
  Mongo.plain_update update = true -> update !! "_id" = None.
Proof.
  unfold Mongo.plain_update. rewrite bool_decide_eq_true. intros Hall.
  destruct (update !! "_id") as [v |] eqn:Hid; [| reflexivity].
  specialize (Hall _ _ Hid). discriminate.
Qed.

Lemma find_one_and_update_fault (set_paths : Doc -> Doc -> outcome Doc)
  (oid : string) (update : Doc) (w : World) :
  head (db_faults w) = Some true ->
  exists e w', Mongo.products_find_one_and_update set_paths oid update w
               = (Raise e, w').
Proof.
  intros Hdb. unfold Mongo.products_find_one_and_update, bind, Mongo.round_trip.
  destruct (db_faults w) as [| [] fs]; try discriminate. eauto.
Qed.

(** What the statements shared by the two update services leave behind
    when they return a product. *)
Lemma update_body_returns (env : Env) (product_id : string) (update : Doc)
  (w w' : World) (p : ProductSchema) (pre post : list Doc) (doc : Doc) :
  ObjectId.is_valid_str product_id = true ->
  products w = (pre ++ doc :: post)%list ->
  Forall (fun d => Mongo.has_id (ObjectId.binary product_id) d = false) pre ->
  Mongo.has_id (ObjectId.binary product_id) doc = true ->
  Mongo.plain_update update = true ->
  (now <- utcnow ;;
   oid <- lift (ObjectId.make product_id) ;;
   result <- Mongo.products_find_one_and_update (set_paths env) oid
               (<["updated_at" := VTime now]> update) ;;
   ProductService.found env result) w = (Ret (Some p), w') ->
  exists doc',
    products w' = (pre ++ doc' :: post)%list
    /\ Mongo.has_id (ObjectId.binary product_id) doc' = true
    /\ ProductSchema_validate (pydantic env) (clock w')
         (ProductService.stringify_id doc') = Ret p.
Proof.
  intros Hvalid Hprod Hpre Hdoc Hplain Hrun.
  assert (Hplain' : Mongo.plain_update (<["updated_at" := VTime (clock w)]> update)
                    = true)
    by (apply plain_update_insert; [reflexivity | assumption]).
  unfold bind at 1, utcnow in Hrun. unfold bind at 1, lift, ObjectId.make in Hrun.
  rewrite Hvalid in Hrun. unfold bind at 1 in Hrun.
  destruct (decide (head (db_faults w) = Some true)) as [Hdb | Hdb].
  - destruct (find_one_and_update_fault (set_paths env)
                (ObjectId.binary product_id)
                (<["updated_at" := VTime (clock w)]> update) w Hdb)
      as (e & w1 & Hupd).
    rewrite Hupd in Hrun. discriminate.
  - destruct (find_one_and_update_plain (set_paths env)
                (ObjectId.binary product_id)
                (<["updated_at" := VTime (clock w)]> update)
                w pre post doc Hprod Hpre Hdoc Hplain' Hdb)
      as (w1 & Hupd & Hp & _ & Hc).
    rewrite Hupd in Hrun.
    unfold ProductService.found, bind at 1 in Hrun.
    rewrite to_schema_run in Hrun.
    exists (<["updated_at" := VTime (clock w)]> update ∪ doc).
    destruct (ProductSchema_validate (pydantic env) (clock w1) _)
      as [p0 | e] eqn:Hval; [| discriminate].
    cbn in Hrun. injection Hrun as -> ->.
    split; [exact Hp |]. split; [| exact Hval].
    unfold Mongo.has_id in *. apply bool_decide_eq_true.
    apply bool_decide_eq_true in Hdoc.
    rewrite lookup_union_r; [exact Hdoc |].
    apply plain_update_no_id. exact Hplain'.
Qed.

Lemma get_product_found (env : Env) (product_id : string) (w : World)
  (pre post : list Doc) (doc : Doc) (p : ProductSchema) :
  ObjectId.is_valid_str product_id = true ->
  products w = (pre ++ doc :: post)%list ->
  Forall (fun d => Mongo.has_id (ObjectId.binary product_id) d = false) pre ->
  Mongo.has_id (ObjectId.binary product_id) doc = true ->
  ProductSchema_validate (pydantic env) (clock w)
    (ProductService.stringify_id doc) = Ret p ->
  head (db_faults w) <> Some true ->
  fst (Crud.get_product env product_id w) = Ret p.
Proof.
  intros Hvalid Hprod Hpre Hdoc Hval Hdb.
  destruct (round_trip_ok w Hdb) as (w1 & Hrt & _ & Hp & Hc & _).
  assert (Hfind : find (Mongo.has_id (ObjectId.binary product_id))
                    (pre ++ doc :: post)%list = Some doc).
  { clear - Hpre Hdoc. induction Hpre as [| d pre Hd _ IH]; simpl.
    - rewrite Hdoc. reflexivity.
    - rewrite Hd. exact IH. }
  unfold Crud.get_product. rewrite Hvalid. cbn [negb]. unfold bind at 1.
  unfold ProductService.get_product_by_id, try_except, bind at 1, lift,
    ObjectId.make.
  rewrite Hvalid. unfold bind at 1, Mongo.products_find_one, bind at 1.
  rewrite Hrt, Hp, Hprod, Hfind.
  unfold ProductService.found, bind at 1. rewrite to_schema_run, Hc, Hval.
  reflexivity.
Qed.

(** X19.  What PUT or PATCH returns is what GET returns next.  When the
    route of an update answers with a product, and the request names
    top-level fields only, then GET /products/{id} with the same id, the
    database answering, returns that same product.  (DELETE never
    answers with a product.) *)
Theorem updated_product_is_what_get_returns (env : Env) (op : mutation)
  (product_id : string) (current_user : AuthSchema) (w w' : World)
  (p : ProductSchema) (pre post : list Doc) (doc : Doc) :
  handle env op product_id current_user w = (Ret (Model p), w') ->
  products w = (pre ++ doc :: post)%list ->
  Forall (fun d => Mongo.has_id (ObjectId.binary product_id) d = false) pre ->
  Mongo.has_id (ObjectId.binary product_id) doc = true ->
  (forall update_data, op = Patch update_data ->
                       Mongo.plain_update update_data = true) ->
  head (db_faults w') <> Some true ->
  fst (Crud.get_product env product_id w') = Ret p.
Proof.
  intros Hrun Hprod Hpre Hdoc Hplain Hdb.
  assert (Hcaught : forall e w1,
             match select_handler e (@Crud.route_handlers ProductSchema) with
             | Some h => h e w1
             | None => (Raise e, w1)
             end <> (Ret (Model p), w')).
  { intros e w1.
    destruct (@route_handlers_catch ProductSchema e w1)
      as (h & Hsel & _ & status & detail & Hh & _).
    unfold Crud.route_handlers. rewrite Hsel. intros Heq.
    rewrite Heq in Hh. discriminate. }
  assert (Hroute : forall service : M (option ProductSchema),
             forall w1,
             try_except
               (updated_product <- service ;; Crud.updated updated_product)
               Crud.route_handlers w1 = (Ret (Model p), w') ->
             service w1 = (Ret (Some p), w')).
  { intros service w1. unfold try_except, bind.
    destruct (service w1) as [[[p0 |] | e] w2]; cbn.
    - intros [= -> ->]. reflexivity.
    - discriminate.
    - intros H. exfalso. exact (Hcaught e w2 H). }
  assert (Hvalid : ObjectId.is_valid_str product_id = true).
  { destruct op; unfold handle, Crud.update_product,
      Crud.partial_update_product, Crud.delete_product in Hrun;
      destruct (ObjectId.is_valid_str product_id); try reflexivity;
      discriminate. }
  assert (Hbody : exists w1 doc',
             products w1 = products w
             /\ products w' = (pre ++ doc' :: post)%list
             /\ Mongo.has_id (ObjectId.binary product_id) doc' = true
             /\ ProductSchema_validate (pydantic env) (clock w')
                  (ProductService.stringify_id doc') = Ret p).
  { destruct op as [u | d |];
      unfold handle, Crud.update_product, Crud.partial_update_product,
        Crud.delete_product in Hrun;
      rewrite Hvalid in Hrun; cbn [negb] in Hrun; unfold bind at 1 in Hrun;
      destruct (ProductService.get_product_by_id env product_id w)
        as [[[product |] | e] w1] eqn:Hlook; try discriminate;
      destruct (get_product_by_id_data _ _ _ _ _ Hlook) as (Hp1 & _);
      destruct (negb (p_owner_id product =? u_id current_user)%string);
      try discriminate.
    - apply Hroute in Hrun.
      unfold ProductService.update_product in Hrun.
      apply try_except_ret_inv in Hrun.
      rewrite Hvalid in Hrun. cbn [negb] in Hrun.
      destruct (update_body_returns env product_id
                  (ProductService.price_to_float (model_dump u))
                  w1 w' p pre post doc) as (doc' & H1 & H2 & H3);
        try assumption.
      + congruence.
      + apply price_to_float_plain, model_dump_plain.
      + exists w1, doc'. auto.
    - apply Hroute in Hrun.
      unfold ProductService.partial_update_product in Hrun.
      apply try_except_ret_inv in Hrun.
      rewrite Hvalid in Hrun. cbn [negb] in Hrun.
      destruct (bool_decide (d = ∅)); [discriminate |].
      destruct (update_body_returns env product_id
                  (ProductService.price_to_float d)
                  w1 w' p pre post doc) as (doc' & H1 & H2 & H3);
        try assumption.
      + congruence.
      + apply price_to_float_plain, (Hplain d). reflexivity.
      + exists w1, doc'. auto.
    - unfold bind in Hrun.
      destruct (ProductService.delete_product product_id w1)
        as [[[] | e] w2]; discriminate. }
  destruct Hbody as (w1 & doc' & _ & Hp' & Hid' & Hval').
  exact (get_product_found env product_id w' pre post doc' p Hvalid Hp' Hpre
           Hid' Hval' Hdb).
Qed.

Lemma updated_product_is_what_get_returns_witness :
  exists w' p,
    handle Demo.env (Patch {[ "name" := VStr "gadget" ]}) Scenario.widget_id
      Scenario.alice Scenario.world = (Ret (Model p), w')
    /\ fst (Crud.get_product Demo.env Scenario.widget_id w') = Ret p.
Proof.
  set (run := handle Demo.env (Patch {[ "name" := VStr "gadget" ]})
                Scenario.widget_id Scenario.alice Scenario.world).
  assert (Hfst : exists p, fst run = Ret (Model p))
    by (vm_compute; eexists; reflexivity).
  destruct Hfst as [p Hfst].
  assert (Hrun : run = (Ret (Model p), snd run))
    by (rewrite <- Hfst; apply surjective_pairing).
  exists (snd run), p. split; [exact Hrun |].
  apply (updated_product_is_what_get_returns Demo.env
           (Patch {[ "name" := VStr "gadget" ]}) Scenario.widget_id
           Scenario.alice Scenario.world (snd run) p [] [] Scenario.widget Hrun).
  - reflexivity.
  - constructor.
  - vm_compute. reflexivity.
  - intros d [= <-]. vm_compute. reflexivity.
  - vm_compute. discriminate.
Defined.
